(** * Single-tuner experiments: gain-change protocol and recorder callback

    A shallow embedding of the parts of [single_tuner_gain_changes.c] and
    [single_tuner_recorder.c] that the specification talks about: the sample
    callbacks, the parameter sequencer, the update-confirmation poll loop,
    the read-back verification after the first initialisation, and the
    interleaving write of the recorder.

    Conventions.
    - [unsigned int] values are integers in [0, 2^32) and every operation on
      them is followed by [wrap32]; [unsigned long long] uses [wrap64];
      [int] and [short] values are plain integers (the code never overflows
      them in the parts embedded here); [double] is a binary64 float with
      the IEEE comparison of C.
    - The vendor library is an interface ([SdrplayApi]) implemented by a
      device double with a state of its own.  Calls into it, writes to the
      standard streams and the reset of the notification flag are recorded,
      in program order, in a trace of [Event]s.
    - The callbacks run on the vendor library's thread.  They are embedded
      as running, one whole invocation at a time, while the main thread is
      inside [sdrplay_api_Update] or asleep in [usleep]: the double says
      which deliveries happen during each such call.  [main] reads the
      shared context only in the wait loop and in the report after it, and
      writes it only in the flag reset, so a delivery at any other moment
      has the effect on [main] of one during the next such call; an
      invocation of the callback is taken as atomic with respect to these
      reads and writes.
    - A field of the vendor's structures holds the value assigned to it.
      The vendor header declares some fields narrower than the [int]
      variables assigned to them ([unsigned char] for the decimation
      factor, the LNA state, the DC and IQ correction enables, [dcCal] and
      [speedUp]), so this is what the program stores only for values from
      0 to 255; a property that depends on it says so.
    - Undefined behaviour of C (an array index out of range, a division by
      zero) is the outcome [Stuck UndefinedBehaviour].  Loops carry a fuel
      argument and keep their guard; running out of fuel is the outcome
      [Stuck OutOfFuel], shown unreachable where a claim needs it. *)

From Stdlib Require Import ZArith Lia Bool.
From Stdlib Require Import Floats.PrimFloat.
From Stdlib Require Strings.String.
From stdpp Require Import base numbers list.

Local Open Scope Z_scope.

(** ** Machine arithmetic *)

Definition UINT_MAX : Z := 4294967295.
Definition SHRT_MAX : Z := 32767.
Definition SHRT_MIN : Z := -32768.

(** Arithmetic on [unsigned int] is modulo 2^32, on [unsigned long long]
    (and [size_t]) modulo 2^64. *)
Definition wrap32 (z : Z) : Z := z mod 2 ^ 32.
Definition wrap64 (z : Z) : Z := z mod 2 ^ 64.

(** C's [a != b] on doubles: true also when either side is a NaN. *)
Definition double_ne (a b : float) : bool := negb (PrimFloat.eqb a b).

(** A comparison used as a value is the [int] 0 or 1; [a != b] on
    integers. *)
Definition c_bool (b : bool) : Z := if b then 1 else 0.
Definition int_ne (a b : Z) : bool := negb (a =? b).

(** ** Outcomes and the program monad *)

Inductive StuckReason : Type :=
| UndefinedBehaviour
| OutOfFuel.

Inductive Res (A : Type) : Type :=
| Ret (a : A)
| Exit (status : Z)
| Stuck (why : StuckReason).

Arguments Ret {A} a.
Arguments Exit {A} status.
Arguments Stuck {A} why.

(** A program step reads and updates a state [St] and appends events [Ev]
    to the trace; [exit] and undefined behaviour stop the run, keeping the
    state and the trace reached so far. *)
Definition Prog (St Ev A : Type) : Type := St -> Res A * St * list Ev.

Definition ret {St Ev A} (a : A) : Prog St Ev A :=
  fun s => (Ret a, s, []).

Definition bind {St Ev A B} (m : Prog St Ev A) (k : A -> Prog St Ev B)
  : Prog St Ev B :=
  fun s =>
    match m s with
    | (Ret a, s1, t1) =>
        match k a s1 with
        | (r, s2, t2) => (r, s2, t1 ++ t2)
        end
    | (Exit c, s1, t1) => (Exit c, s1, t1)
    | (Stuck y, s1, t1) => (Stuck y, s1, t1)
    end.

Definition exit {St Ev A} (status : Z) : Prog St Ev A :=
  fun s => (Exit status, s, []).

Definition stuck {St Ev A} (why : StuckReason) : Prog St Ev A :=
  fun s => (Stuck why, s, []).

Definition emit {St Ev} (e : Ev) : Prog St Ev unit :=
  fun s => (Ret tt, s, [e]).

Definition get {St Ev} : Prog St Ev St :=
  fun s => (Ret s, s, []).

Definition put {St Ev} (s' : St) : Prog St Ev unit :=
  fun _ => (Ret tt, s', []).

(** [if (c) { m }] *)
Definition when {St Ev} (c : bool) (m : Prog St Ev unit) : Prog St Ev unit :=
  if c then m else ret tt.

Declare Scope prog_scope.
Delimit Scope prog_scope with prog.
Bind Scope prog_scope with Prog.

Notation "'let*' x ':=' m 'in' k" := (bind m (fun x => k))
  (at level 10, x name, m at level 100, k at level 200) : prog_scope.
Notation "m ';;' k" := (bind m (fun _ => k))
  (at level 100, k at level 200, right associativity) : prog_scope.

Local Open Scope prog_scope.

(** A step that leaves the state alone and writes nothing, whatever its
    outcome. *)
Definition pure {St Ev A} (m : Prog St Ev A) : Prop :=
  forall s, exists r, m s = (r, s, []).

(** The run [x] with the events [t] in front of its trace. *)
Definition after_trace {St Ev A} (t : list Ev) (x : Res A * St * list Ev)
  : Res A * St * list Ev :=
  (fst (fst x), snd (fst x), t ++ snd x).

(** [a[i]] for an array of [int] or [short] held as a list: reading outside
    the array is undefined. *)
Definition array_read {St Ev} (a : list Z) (i : Z) : Prog St Ev Z :=
  if (0 <=? i) then
    match a !! Z.to_nat i with
    | Some x => ret x
    | None => stuck UndefinedBehaviour
    end
  else stuck UndefinedBehaviour.

(** [a % b] where [a] is [unsigned int] and [b] is [int]: [b] is converted
    to [unsigned int] first; a zero divisor is undefined. *)
Definition c_umod {St Ev} (a b : Z) : Prog St Ev Z :=
  if wrap32 b =? 0 then stuck UndefinedBehaviour
  else ret (a mod wrap32 b).

(** [for (unsigned int i = i0; i < bound; i++) acc = body(i, acc);] *)
Fixpoint for_range {St Ev L} (fuel : nat) (i bound : Z)
    (body : Z -> L -> Prog St Ev L) (acc : L) : Prog St Ev L :=
  match fuel with
  | O => stuck OutOfFuel
  | S fuel' =>
      if i <? bound then
        let* acc' := body i acc in
        for_range fuel' (wrap32 (i + 1)) bound body acc'
      else ret acc
  end.

(** ** The vendor's stream parameters *)

(** The fields of the vendor's [sdrplay_api_StreamCbParamsT] that the
    sample callbacks read.  The vendor header is not part of the
    repository. *)
Record sdrplay_api_StreamCbParamsT : Type := mkStreamCbParams {
  firstSampleNum : Z;          (* unsigned int *)
  grChanged : Z                (* int *)
}.

(** ** [single_tuner_gain_changes.c] *)

Module GainChanges.

(** wait up to 10k x usleep() for updates *)
Definition UpdateTimeout : Z := 10000.
(** show progress every N gain changes *)
Definition ProgressEveryNGainChanges : Z := 1000.

(** The context shared between [main] and [rx_callback]. *)
Record RXContext : Type := mkRXContext {
  total_samples : Z;           (* unsigned long long *)
  next_sample_num : Z;         (* unsigned int *)
  gain_reduction_changed : Z;  (* int *)
  verbose : Z                  (* int *)
}.

(** The fields of the vendor's device parameters that [main] writes and
    reads back, named by their access path, each holding the integer (or
    double) assigned to it.  Whatever the vendor's field types do to a
    value is left to the double: [sdrplay_api_Init] returns the parameters
    as [main] finds them afterwards. *)
Record DeviceParamsT : Type := mkDeviceParams {
  fsFreq_fsHz : float;
  decimation_enable : Z;
  decimation_decimationFactor : Z;
  tunerParams_ifType : Z;
  tunerParams_bwType : Z;
  agc_enable : Z;
  gain_gRdB : Z;
  gain_LNAstate : Z;
  dcOffset_DCenable : Z;
  dcOffset_IQenable : Z;
  dcOffsetTuner_dcCal : Z;
  dcOffsetTuner_speedUp : Z;
  dcOffsetTuner_trackTime : Z;
  dcOffsetTuner_refreshRateTime : Z;
  rfFreq_rfHz : float
}.

(** The fields of the selected [sdrplay_api_DeviceT] that [main] checks. *)
Record sdrplay_api_DeviceT : Type := mkDevice {
  hwVer : Z;
  tuner : Z;
  rspDuoMode : Z;
  rspDuoSampleFreq : float
}.

(** The constants of the vendor header that [main] names.  The header is
    not part of the repository, so they are taken as given. *)
Record VendorHeader : Type := mkVendorHeader {
  sdrplay_api_Tuner_A : Z;
  sdrplay_api_RspDuoMode_Unknown : Z;
  sdrplay_api_RspDuoMode_Single_Tuner : Z;
  SDRPLAY_RSPduo_ID : Z;
  sdrplay_api_AGC_DISABLE : Z
}.

(** The local variables of [main] that the command line sets. *)
Record Config : Type := mkConfig {
  rsp_sample_rate : float;
  decimation : Z;
  if_frequency : Z;
  if_bandwidth : Z;
  gRdBs : list Z;
  LNAstates : list Z;
  DCenable : Z;
  IQenable : Z;
  dcCal : Z;
  speedUp : Z;
  trackTime : Z;
  refreshRateTime : Z;
  frequency : float;
  num_gain_changes : Z;        (* unsigned int *)
  wait_time : Z;               (* useconds_t *)
  cfg_verbose : Z
}.

Definition ngRdBs (cfg : Config) : Z := Z.of_nat (length (gRdBs cfg)).
Definition nLNAstates (cfg : Config) : Z := Z.of_nat (length (LNAstates cfg)).

(** [sdrplay_api_ErrT]: success, or any other code. *)
Inductive sdrplay_api_ErrT : Type :=
| sdrplay_api_Success
| sdrplay_api_Error (code : Z).

Definition is_success (err : sdrplay_api_ErrT) : bool :=
  match err with sdrplay_api_Success => true | _ => false end.

(** The values compared after the first [sdrplay_api_Init], in the order
    of the checks. *)
Inductive CheckedField : Type :=
| F_tuner | F_rspDuoMode | F_rspDuoSampleFreq | F_fsHz
| F_decimation_enable | F_decimationFactor | F_ifType | F_bwType
| F_gRdB | F_LNAstate | F_DCenable | F_IQenable
| F_dcCal | F_speedUp | F_trackTime | F_refreshRateTime | F_rfHz.

(** Calls into the vendor library. [Init] records whether the callback
    table holds the real callbacks; [Update] (always for
    [sdrplay_api_Update_Tuner_Gr] on [device.tuner]) records the pending
    gain reduction and LNA state found in the device parameters. *)
Inductive ApiCall : Type :=
| GetDeviceParams
| Init (callbacks : bool)
| Uninit
| Update (gRdB LNAstate : Z)
| ReleaseDevice
| LockDeviceApi
| UnlockDeviceApi
| Close.

(** Lines written to the standard streams (time stamps left out). *)
Inductive LogMsg : Type :=
| MsgGrChanged (v : Z)
| MsgStreamReset (r : Z)
| MsgJump (from to : Z)
| MsgApiFailed (c : ApiCall) (err : sdrplay_api_ErrT)
| MsgSettings (dv : sdrplay_api_DeviceT) (p : DeviceParamsT)
| MsgUnexpectedChange (f : CheckedField)
| MsgChangingGains (wait : Z)
| MsgUpdateFailed (err : sdrplay_api_ErrT) (ngc : Z)
| MsgProgress (ngc : Z)
| MsgElapsed (ngc elapsed : Z)
| MsgTimeout
| MsgBlank.

Inductive Event : Type :=
| Call (c : ApiCall)
| Usleep (usec : Z)
| FlagReset                    (* rx_context.gain_reduction_changed = 0 *)
| Log (m : LogMsg).

(** Observations on traces: update requests and flag resets; [usleep(1)]
    calls; and the events that can occur while [main] sleeps ([usleep]
    itself and the lines that the callback writes). *)
Definition is_update (e : Event) : bool :=
  match e with Call (Update _ _) => true | _ => false end.

Definition is_update_or_reset (e : Event) : bool :=
  match e with Call (Update _ _) | FlagReset => true | _ => false end.

Definition is_usleep1 (e : Event) : bool :=
  match e with Usleep 1 => true | _ => false end.

Definition quiet (e : Event) : Prop :=
  match e with
  | Usleep _ => True
  | Log (MsgGrChanged _) | Log (MsgStreamReset _) | Log (MsgJump _ _) => True
  | _ => False
  end.

(** *** [rx_callback] *)

Definition rx_callback (params : sdrplay_api_StreamCbParamsT)
    (numSamples reset : Z) (rx_context : RXContext)
  : RXContext * list LogMsg :=
  let log_gr :=
    if int_ne (verbose rx_context) 0 && int_ne (grChanged params) 0
    then [MsgGrChanged (grChanged params)] else [] in
  let changed :=
    Z.lor (gain_reduction_changed rx_context) (grChanged params) in
  (* check for reset *)
  let log_reset :=
    if int_ne reset 0 then [MsgStreamReset reset] else [] in
  (* check for jumps in sample sequence numbers *)
  let log_jump :=
    if int_ne (next_sample_num rx_context) 4294967295
       && int_ne (firstSampleNum params) (next_sample_num rx_context)
    then [MsgJump (next_sample_num rx_context) (firstSampleNum params)]
    else [] in
  ({| total_samples := wrap64 (total_samples rx_context + numSamples);
      next_sample_num := wrap32 (firstSampleNum params + numSamples);
      gain_reduction_changed := changed;
      verbose := verbose rx_context |},
   log_gr ++ log_reset ++ log_jump).

(** One invocation of the sample callback by the vendor library. *)
Record Delivery : Type := mkDelivery {
  d_params : sdrplay_api_StreamCbParamsT;
  d_numSamples : Z;            (* unsigned int *)
  d_reset : Z                  (* unsigned int *)
}.

Fixpoint run_callbacks (ds : list Delivery) (rx : RXContext)
  : RXContext * list LogMsg :=
  match ds with
  | [] => (rx, [])
  | d :: ds' =>
      let '(rx1, l1) :=
        rx_callback (d_params d) (d_numSamples d) (d_reset d) rx in
      let '(rx2, l2) := run_callbacks ds' rx1 in
      (rx2, l1 ++ l2)
  end.

(** *** The vendor library, as seen by [main] *)

(** A device double with state [D].  [sdrplay_api_Init] may rewrite the
    device parameters (the hardware normalises them); [sdrplay_api_Update]
    sees the pending parameters and, like [usleep], says which sample
    deliveries take place before it returns. *)
Class SdrplayApi (D : Type) : Type := {
  sdrplay_api_GetDeviceParams : D -> sdrplay_api_ErrT * D;
  sdrplay_api_Init :
    bool -> DeviceParamsT -> D -> sdrplay_api_ErrT * DeviceParamsT * D;
  sdrplay_api_Uninit : D -> sdrplay_api_ErrT * D;
  sdrplay_api_Update :
    DeviceParamsT -> D -> sdrplay_api_ErrT * list Delivery * D;
  sdrplay_api_ReleaseDevice : D -> sdrplay_api_ErrT * D;
  sdrplay_api_LockDeviceApi : D -> sdrplay_api_ErrT * D;
  sdrplay_api_UnlockDeviceApi : D -> sdrplay_api_ErrT * D;
  sdrplay_api_Close : D -> sdrplay_api_ErrT * D;
  usleep_deliveries : Z -> D -> list Delivery * D
}.

(** What [main] works on: the device double, the device parameters that
    [sdrplay_api_GetDeviceParams] points to, and [rx_context]. *)
Record World (D : Type) : Type := mkWorld {
  dev : D;
  device_params : DeviceParamsT;
  rx_context : RXContext
}.

Arguments mkWorld {D} _ _ _.
Arguments dev {D} _.
Arguments device_params {D} _.
Arguments rx_context {D} _.

(** *** [main], from "select device settings" on

    Argument parsing and the selection of the device (up to the call of
    [sdrplay_api_DebugEnable]) produce the [Config] and the selected
    [device] that the rest of [main] works with. *)

Section Main.

Context {D : Type} {api : SdrplayApi D}.
Context (hdr : VendorHeader) (cfg : Config) (device : sdrplay_api_DeviceT).

Definition M (A : Type) : Type := Prog (World D) Event A.

Definition log (m : LogMsg) : M unit := emit (Log m).

Definition log_all (ms : list LogMsg) : M unit :=
  fun w => (Ret tt, w, map Log ms).

(** A vendor call that only returns an error code. *)
Definition call (c : ApiCall) (f : D -> sdrplay_api_ErrT * D)
  : M sdrplay_api_ErrT :=
  fun w =>
    let '(err, d') := f (dev w) in
    (Ret err, mkWorld d' (device_params w) (rx_context w), [Call c]).

Definition call_Init (callbacks : bool) : M sdrplay_api_ErrT :=
  fun w =>
    let '(err, p', d') :=
      sdrplay_api_Init callbacks (device_params w) (dev w) in
    (Ret err, mkWorld d' p' (rx_context w), [Call (Init callbacks)]).

Definition call_Update : M sdrplay_api_ErrT :=
  fun w =>
    let p := device_params w in
    let '(err, ds, d') := sdrplay_api_Update p (dev w) in
    let '(rx', logs) := run_callbacks ds (rx_context w) in
    (Ret err, mkWorld d' p rx',
     Call (Update (gain_gRdB p) (gain_LNAstate p)) :: map Log logs).

Definition usleep (usec : Z) : M unit :=
  fun w =>
    let '(ds, d') := usleep_deliveries usec (dev w) in
    let '(rx', logs) := run_callbacks ds (rx_context w) in
    (Ret tt, mkWorld d' (device_params w) rx', Usleep usec :: map Log logs).

(** [if (err != sdrplay_api_Success) { fprintf(...); cleanup; exit(1); }] *)
Definition or_die (c : ApiCall) (err : sdrplay_api_ErrT) (cleanup : M unit)
  : M unit :=
  if is_success err then ret tt
  else (log (MsgApiFailed c err) ;; cleanup ;; exit 1).

Definition release_and_close : M unit :=
  (call ReleaseDevice sdrplay_api_ReleaseDevice ;;
   call Close sdrplay_api_Close ;;
   ret tt).

Definition close_only : M unit :=
  (call Close sdrplay_api_Close ;; ret tt).

Definition unlock_and_close : M unit :=
  (call UnlockDeviceApi sdrplay_api_UnlockDeviceApi ;;
   call Close sdrplay_api_Close ;;
   ret tt).

(** The assignments to the device parameters before the quick check;
    [g0] and [l0] are [gRdBs[0]] and [LNAstates[0]].  Each field holds the
    value assigned, which is what the program stores for values that the
    field can hold (see the conventions). *)
Definition write_settings (g0 l0 : Z) : DeviceParamsT :=
  {| fsFreq_fsHz := rsp_sample_rate cfg;
     decimation_enable := c_bool (1 <? decimation cfg);
     decimation_decimationFactor := decimation cfg;
     tunerParams_ifType := if_frequency cfg;
     tunerParams_bwType := if_bandwidth cfg;
     agc_enable := sdrplay_api_AGC_DISABLE hdr;
     gain_gRdB := g0;
     gain_LNAstate := l0;
     dcOffset_DCenable := DCenable cfg;
     dcOffset_IQenable := IQenable cfg;
     dcOffsetTuner_dcCal := dcCal cfg;
     dcOffsetTuner_speedUp := speedUp cfg;
     dcOffsetTuner_trackTime := trackTime cfg;
     dcOffsetTuner_refreshRateTime := refreshRateTime cfg;
     rfFreq_rfHz := frequency cfg |}.

(** The condition of each [if] of the read-back check. *)
Definition differs (g0 l0 : Z) (p : DeviceParamsT) (f : CheckedField) : bool :=
  match f with
  | F_tuner => int_ne (tuner device) (sdrplay_api_Tuner_A hdr)
  | F_rspDuoMode =>
      if hwVer device =? SDRPLAY_RSPduo_ID hdr
      then int_ne (rspDuoMode device) (sdrplay_api_RspDuoMode_Single_Tuner hdr)
      else int_ne (rspDuoMode device) (sdrplay_api_RspDuoMode_Unknown hdr)
  | F_rspDuoSampleFreq => double_ne (rspDuoSampleFreq device) 0%float
  | F_fsHz => double_ne (fsFreq_fsHz p) (rsp_sample_rate cfg)
  | F_decimation_enable =>
      int_ne (decimation_enable p) (c_bool (1 <? decimation cfg))
  | F_decimationFactor => int_ne (decimation_decimationFactor p) (decimation cfg)
  | F_ifType => int_ne (tunerParams_ifType p) (if_frequency cfg)
  | F_bwType => int_ne (tunerParams_bwType p) (if_bandwidth cfg)
  | F_gRdB => int_ne (gain_gRdB p) g0
  | F_LNAstate => int_ne (gain_LNAstate p) l0
  | F_DCenable => int_ne (dcOffset_DCenable p) (DCenable cfg)
  | F_IQenable => int_ne (dcOffset_IQenable p) (IQenable cfg)
  | F_dcCal => int_ne (dcOffsetTuner_dcCal p) (dcCal cfg)
  | F_speedUp => int_ne (dcOffsetTuner_speedUp p) (speedUp cfg)
  | F_trackTime => int_ne (dcOffsetTuner_trackTime p) (trackTime cfg)
  | F_refreshRateTime =>
      int_ne (dcOffsetTuner_refreshRateTime p) (refreshRateTime cfg)
  | F_rfHz => double_ne (rfFreq_rfHz p) (frequency cfg)
  end.

(** The checks, in the order in which [main] makes them. *)
Definition checked_fields : list CheckedField :=
  [F_tuner; F_rspDuoMode; F_rspDuoSampleFreq; F_fsHz;
   F_decimation_enable; F_decimationFactor; F_ifType; F_bwType;
   F_gRdB; F_LNAstate; F_DCenable; F_IQenable;
   F_dcCal; F_speedUp; F_trackTime; F_refreshRateTime; F_rfHz].

(** [if (differs) { fprintf(stderr, "unexpected change - ..."); init_ok = 0; }] *)
Definition unexpected_change (g0 l0 : Z) (p : DeviceParamsT)
    (acc : bool * list LogMsg) (f : CheckedField) : bool * list LogMsg :=
  if differs g0 l0 p f
  then (false, snd acc ++ [MsgUnexpectedChange f])
  else acc.

(** [init_ok] and the lines written, after all the checks. *)
Definition readback (g0 l0 : Z) (p : DeviceParamsT) : bool * list LogMsg :=
  fold_left (unexpected_change g0 l0 p) checked_fields (true, []).

(** The context handed to the real callbacks. *)
Definition initial_rx_context : RXContext :=
  {| total_samples := 0;
     next_sample_num := 4294967295;
     gain_reduction_changed := 0;
     verbose := cfg_verbose cfg |}.

Definition set_device_params (p : DeviceParamsT) : M unit :=
  fun w => (Ret tt, mkWorld (dev w) p (rx_context w), []).

Definition set_rx_context (rx : RXContext) : M unit :=
  fun w => (Ret tt, mkWorld (dev w) (device_params w) rx, []).

(** [rx_channel_params->tunerParams.gain.gRdB = g;
     rx_channel_params->tunerParams.gain.LNAstate = l;] *)
Definition set_gain (g l : Z) (p : DeviceParamsT) : DeviceParamsT :=
  {| fsFreq_fsHz := fsFreq_fsHz p;
     decimation_enable := decimation_enable p;
     decimation_decimationFactor := decimation_decimationFactor p;
     tunerParams_ifType := tunerParams_ifType p;
     tunerParams_bwType := tunerParams_bwType p;
     agc_enable := agc_enable p;
     gain_gRdB := g;
     gain_LNAstate := l;
     dcOffset_DCenable := dcOffset_DCenable p;
     dcOffset_IQenable := dcOffset_IQenable p;
     dcOffsetTuner_dcCal := dcOffsetTuner_dcCal p;
     dcOffsetTuner_speedUp := dcOffsetTuner_speedUp p;
     dcOffsetTuner_trackTime := dcOffsetTuner_trackTime p;
     dcOffsetTuner_refreshRateTime := dcOffsetTuner_refreshRateTime p;
     rfFreq_rfHz := rfFreq_rfHz p |}.

(** [rx_context.gain_reduction_changed = 0;] *)
Definition reset_flag : M unit :=
  fun w =>
    let rx := rx_context w in
    (Ret tt,
     mkWorld (dev w) (device_params w)
       {| total_samples := total_samples rx;
          next_sample_num := next_sample_num rx;
          gain_reduction_changed := 0;
          verbose := verbose rx |},
     [FlagReset]).

Definition read_flag : M Z :=
  fun w => (Ret (gain_reduction_changed (rx_context w)), w, []).

(** The gain and LNA state for change [ngc]:
    [gRdBs[ngc % ngRdBs]] and [LNAstates[ngc % nLNAstates]]. *)
Definition next_gain (ngc : Z) : M (Z * Z) :=
  let* ig := c_umod ngc (ngRdBs cfg) in
  let* g := array_read (gRdBs cfg) ig in
  let* il := c_umod ngc (nLNAstates cfg) in
  let* l := array_read (LNAstates cfg) il in
  ret (g, l).

(** wait for the gain change:
    [for (elapsed = 0; elapsed < UpdateTimeout; elapsed++) { ... }],
    returning [elapsed]. *)
Fixpoint wait_for_gain_change (fuel : nat)
    (elapsed prev_gain_reduction_changed : Z) : M Z :=
  match fuel with
  | O => stuck OutOfFuel
  | S fuel' =>
      if elapsed <? UpdateTimeout then
        let* curr_gain_reduction_changed := read_flag in
        if (prev_gain_reduction_changed =? 0)
           && int_ne curr_gain_reduction_changed 0
        then ret elapsed (* break *)
        else (usleep 1 ;;
              wait_for_gain_change fuel' (elapsed + 1)
                curr_gain_reduction_changed)
      else ret elapsed
  end.

Definition poll_fuel : nat := S (Z.to_nat UpdateTimeout).

(** The notification flag as [main] reads it, and the world and the trace
    after [k] rounds of [usleep(1)]: what the [k]-th iteration of the wait
    loop (counting from 0) finds when it gets that far. *)
Definition flag (w : World D) : Z := gain_reduction_changed (rx_context w).

Definition sleep1 (w : World D) : World D := snd (fst (usleep 1 w)).

Fixpoint after_sleeps (k : nat) (w : World D) : World D :=
  match k with
  | O => w
  | S k' => after_sleeps k' (sleep1 w)
  end.

Fixpoint sleeps_trace (k : nat) (w : World D) : list Event :=
  match k with
  | O => []
  | S k' => snd (usleep 1 w) ++ sleeps_trace k' (sleep1 w)
  end.

Definition flag_after (k : nat) (w : World D) : Z := flag (after_sleeps k w).

(** The body of the loop over [ngc], in three parts: the request (from
    [usleep(wait_time)] to the progress line), the wait, and the report. *)
Definition request_gain_change (ngc : Z) : M unit :=
  usleep (wait_time cfg) ;;
  let* gl := next_gain ngc in
  let* w := get in
  set_device_params (set_gain (fst gl) (snd gl) (device_params w)) ;;
  reset_flag ;;
  let* err := call_Update in
  (if is_success err then ret tt
   else (log (MsgUpdateFailed err ngc) ;; release_and_close ;; exit 1)) ;;
  when (ngc mod ProgressEveryNGainChanges =? 0) (log (MsgProgress ngc)).

Definition report_gain_change (ngc elapsed : Z) : M unit :=
  when (int_ne (cfg_verbose cfg) 0) (log (MsgElapsed ngc elapsed)) ;;
  let* changed := read_flag in
  when (changed =? 0) (log MsgTimeout).

Definition gain_change (ngc : Z) : M unit :=
  request_gain_change ngc ;;
  let* elapsed := wait_for_gain_change poll_fuel 0 (-1) in
  report_gain_change ngc elapsed.

(** [for (unsigned int ngc = ngc0; ngc < num_gain_changes; ngc++) { ... }] *)
Fixpoint gain_changes (fuel : nat) (ngc : Z) : M unit :=
  match fuel with
  | O => stuck OutOfFuel
  | S fuel' =>
      if ngc <? num_gain_changes cfg then
        (gain_change ngc ;;
         gain_changes fuel' (wrap32 (ngc + 1)))
      else ret tt
  end.

Definition gain_changes_fuel : nat := S (Z.to_nat (num_gain_changes cfg)).

(** The flag resets and update requests of [n] successive changes from
    index [ngc] on, as the sequencer selects them. *)
Fixpoint requests_from (n : nat) (ngc : Z) : list Event :=
  match n with
  | O => []
  | S n' =>
      FlagReset
      :: Call (Update (nth (Z.to_nat (ngc mod ngRdBs cfg)) (gRdBs cfg) 0)
                      (nth (Z.to_nat (ngc mod nLNAstates cfg)) (LNAstates cfg) 0))
      :: requests_from n' (ngc + 1)
  end.

(** Uninit, release and close, after the last gain change. *)
Definition shutdown : M Z :=
  let* err := call Uninit sdrplay_api_Uninit in
  or_die Uninit err release_and_close ;;
  let* err := call LockDeviceApi sdrplay_api_LockDeviceApi in
  or_die LockDeviceApi err close_only ;;
  let* err := call ReleaseDevice sdrplay_api_ReleaseDevice in
  or_die ReleaseDevice err unlock_and_close ;;
  let* err := call UnlockDeviceApi sdrplay_api_UnlockDeviceApi in
  or_die UnlockDeviceApi err close_only ;;
  (* all done: close SDRplay API *)
  let* err := call Close sdrplay_api_Close in
  or_die Close err (ret tt) ;;
  ret 0.

(** "now for the real thing": streaming with the real callbacks. *)
Definition streaming : M Z :=
  set_rx_context initial_rx_context ;;
  let* err := call_Init true in
  or_die (Init true) err release_and_close ;;
  log MsgBlank ;;
  log (MsgChangingGains (wait_time cfg)) ;;
  gain_changes gain_changes_fuel 1 ;;
  shutdown.

Definition main : M Z :=
  (* select device settings *)
  let* err := call GetDeviceParams sdrplay_api_GetDeviceParams in
  or_die GetDeviceParams err release_and_close ;;
  let* g0 := array_read (gRdBs cfg) 0 in
  let* l0 := array_read (LNAstates cfg) 0 in
  set_device_params (write_settings g0 l0) ;;
  (* quick check *)
  let* err := call_Init false in
  or_die (Init false) err release_and_close ;;
  (* print settings *)
  let* w := get in
  log (MsgSettings device (device_params w)) ;;
  let chk := readback g0 l0 (device_params w) in
  log_all (snd chk) ;;
  (if negb (fst chk) then
     (call Uninit sdrplay_api_Uninit ;; release_and_close ;; exit 1)
   else ret tt) ;;
  let* err := call Uninit sdrplay_api_Uninit in
  or_die Uninit err release_and_close ;;
  streaming.

End Main.

End GainChanges.

(** ** [single_tuner_recorder.c]: the recording callback *)

Module Recorder.

Definition sizeof_short : Z := 2.
(** [short samples[4096];] *)
Definition samples_len : Z := 4096.

Record timeval : Type := mkTimeval {
  tv_sec : Z;
  tv_usec : Z
}.

Record RXContextRecord : Type := mkRXContextRecord {
  earliest_callback : timeval;
  latest_callback : timeval;
  total_samples : Z;           (* unsigned long long *)
  next_sample_num : Z;         (* unsigned int *)
  output_fd : Z;               (* int *)
  imin : Z;                    (* short *)
  imax : Z;
  qmin : Z;
  qmax : Z
}.

Inductive LogMsg : Type :=
| MsgDropped (dropped_samples : Z)
| MsgWriteFailed
| MsgIncompleteWrite (expected actual : Z).

(** [SysWrite fd buf count] is the call [write(fd, samples, count)]; [buf]
    is the whole local array, an element being [None] while it has not been
    assigned. *)
Inductive Event : Type :=
| Log (m : LogMsg)
| SysWrite (fd : Z) (buf : list (option Z)) (count : Z).

(** Events other than a line about dropped samples, and other than a call
    of [write]. *)
Definition not_dropped (e : Event) : Prop :=
  forall k, e <> Log (MsgDropped k).

Definition not_write (e : Event) : Prop :=
  match e with SysWrite _ _ _ => False | Log _ => True end.

Section Callback.

(** What the operating system answers during one invocation: the time that
    [gettimeofday] stores, and the value that [write] returns. *)
Context (now : timeval) (write_returns : Z -> list (option Z) -> Z -> Z).

Definition R (A : Type) : Type := Prog RXContextRecord Event A.

Definition log (m : LogMsg) : R unit := emit (Log m).

(** [samples[i] = x;] on the local array: writing outside it is undefined. *)
Definition array_write (samples : list (option Z)) (i x : Z)
  : R (list (option Z)) :=
  if (0 <=? i) && (i <? Z.of_nat (length samples))
  then ret (<[Z.to_nat i := Some x]> samples)
  else stuck UndefinedBehaviour.

(** [gettimeofday(&rxContext->latest_callback, NULL)], the first-callback
    time stamp, and [rxContext->total_samples += numSamples]. *)
Definition track_callback (numSamples : Z) (c : RXContextRecord)
  : RXContextRecord :=
  let earliest :=
    if tv_sec (earliest_callback c) =? 0
    then {| tv_sec := tv_sec now; tv_usec := tv_usec now |}
    else earliest_callback c in
  {| earliest_callback := earliest;
     latest_callback := now;
     total_samples := wrap64 (total_samples c + numSamples);
     next_sample_num := next_sample_num c;
     output_fd := output_fd c;
     imin := imin c; imax := imax c; qmin := qmin c; qmax := qmax c |}.

(** The value of the local [unsigned int dropped_samples]; the line shows
    it with [%d]. *)
Definition dropped_samples (next first : Z) : Z :=
  if next <? first then wrap32 (first - next)
  else wrap32 (wrap32 (UINT_MAX - wrap32 (first - next)) + 1).

Definition set_next_sample_num (n : Z) (c : RXContextRecord)
  : RXContextRecord :=
  {| earliest_callback := earliest_callback c;
     latest_callback := latest_callback c;
     total_samples := total_samples c;
     next_sample_num := n;
     output_fd := output_fd c;
     imin := imin c; imax := imax c; qmin := qmin c; qmax := qmax c |}.

(** The update of the running minima and maxima of the context. *)
Definition set_ranges (i_range q_range : Z * Z) (c : RXContextRecord)
  : RXContextRecord :=
  {| earliest_callback := earliest_callback c;
     latest_callback := latest_callback c;
     total_samples := total_samples c;
     next_sample_num := next_sample_num c;
     output_fd := output_fd c;
     imin := if imin c <? fst i_range then imin c else fst i_range;
     imax := if imax c >? snd i_range then imax c else snd i_range;
     qmin := if qmin c <? fst q_range then qmin c else fst q_range;
     qmax := if qmax c >? snd q_range then qmax c else snd q_range |}.

(** [min = min < x[i] ? min : x[i]; max = max > x[i] ? max : x[i];] *)
Definition range_step (x : list Z) (i : Z) (mm : Z * Z) : R (Z * Z) :=
  let* v := array_read x i in
  ret (if fst mm <? v then fst mm else v,
       if snd mm >? v then snd mm else v).

(** [samples[2*i] = xi[i];] and [samples[2*i+1] = xq[i];] *)
Definition store_i (xi : list Z) (i : Z) (samples : list (option Z))
  : R (list (option Z)) :=
  let* v := array_read xi i in
  array_write samples (wrap32 (2 * i)) v.

Definition store_q (xq : list Z) (i : Z) (samples : list (option Z))
  : R (list (option Z)) :=
  let* v := array_read xq i in
  array_write samples (wrap32 (wrap32 (2 * i) + 1)) v.

Definition loop_fuel (numSamples : Z) : nat := S (Z.to_nat numSamples).

(** write samples to output file *)
Definition write_samples (xi xq : list Z) (numSamples fd : Z) : R unit :=
  let samples := replicate (Z.to_nat samples_len) None in
  let* samples :=
    for_range (loop_fuel numSamples) 0 numSamples (store_i xi) samples in
  let* samples :=
    for_range (loop_fuel numSamples) 0 numSamples (store_q xq) samples in
  let count := wrap64 (wrap32 (numSamples * 2) * sizeof_short) in
  emit (SysWrite fd samples count) ;;
  let nwritten := write_returns fd samples count in
  if nwritten =? -1 then log MsgWriteFailed
  else if int_ne (wrap64 nwritten) count
       then log (MsgIncompleteWrite count nwritten)
       else ret tt.

Definition rx_callback_record (xi xq : list Z)
    (params : sdrplay_api_StreamCbParamsT) (numSamples reset : Z) : R unit :=
  (* track callback timestamp *)
  let* c := get in
  put (track_callback numSamples c) ;;
  (* check for dropped samples *)
  let* c := get in
  when (int_ne (next_sample_num c) 4294967295
        && int_ne (firstSampleNum params) (next_sample_num c))
       (log (MsgDropped
               (dropped_samples (next_sample_num c) (firstSampleNum params)))) ;;
  put (set_next_sample_num (wrap32 (firstSampleNum params + numSamples)) c) ;;
  let* i_range :=
    for_range (loop_fuel numSamples) 0 numSamples (range_step xi)
      (SHRT_MAX, SHRT_MIN) in
  let* q_range :=
    for_range (loop_fuel numSamples) 0 numSamples (range_step xq)
      (SHRT_MAX, SHRT_MIN) in
  let* c := get in
  put (set_ranges i_range q_range c) ;;
  (* write samples to output file *)
  let* c := get in
  when (0 <? output_fd c) (write_samples xi xq numSamples (output_fd c)).

End Callback.

End Recorder.

(** ** Device doubles and sample inputs *)

Module Doubles.
Import GainChanges.

(** One assignment of the header constants, for the doubles. *)
Definition header : VendorHeader :=
  {| sdrplay_api_Tuner_A := 1;
     sdrplay_api_RspDuoMode_Unknown := 0;
     sdrplay_api_RspDuoMode_Single_Tuner := 1;
     SDRPLAY_RSPduo_ID := 3;
     sdrplay_api_AGC_DISABLE := 0 |}.

(** A single-tuner device as selected by [main]. *)
Definition rsp1a : sdrplay_api_DeviceT :=
  {| hwVer := 255; tuner := 1; rspDuoMode := 0; rspDuoSampleFreq := 0%float |}.

(** The defaults of [main], with the given lists and number of changes. *)
Definition options (gains lnas : list Z) (n : Z) : Config :=
  {| rsp_sample_rate := 2e6%float;
     decimation := 1;
     if_frequency := 0;
     if_bandwidth := 200;
     gRdBs := gains;
     LNAstates := lnas;
     DCenable := 1;
     IQenable := 1;
     dcCal := 3;
     speedUp := 0;
     trackTime := 1;
     refreshRateTime := 2048;
     frequency := 100e6%float;
     num_gain_changes := n;
     wait_time := 0;
     cfg_verbose := 0 |}.

(** A delivery of 1000 samples starting at [first]. *)
Definition delivery (first gr : Z) : Delivery :=
  {| d_params := {| firstSampleNum := first; grChanged := gr |};
     d_numSamples := 1000;
     d_reset := 0 |}.

(** A delivery of [n] samples starting at [first], flag not set. *)
Definition samples_at (first n : Z) : Delivery :=
  {| d_params := {| firstSampleNum := first; grChanged := 0 |};
     d_numSamples := n;
     d_reset := 0 |}.

Definition ok {D} (d : D) : sdrplay_api_ErrT * D := (sdrplay_api_Success, d).

(** A double that never delivers anything. *)
Definition silent : SdrplayApi unit :=
  {| sdrplay_api_GetDeviceParams := ok;
     sdrplay_api_Init := fun _ p d => (sdrplay_api_Success, p, d);
     sdrplay_api_Uninit := ok;
     sdrplay_api_Update := fun _ d => (sdrplay_api_Success, [], d);
     sdrplay_api_ReleaseDevice := ok;
     sdrplay_api_LockDeviceApi := ok;
     sdrplay_api_UnlockDeviceApi := ok;
     sdrplay_api_Close := ok;
     usleep_deliveries := fun _ d => ([], d) |}.

(** A double that signals the gain change inside [sdrplay_api_Update]; its
    state is the number of the next sample. *)
Definition synchronous : SdrplayApi Z :=
  {| sdrplay_api_GetDeviceParams := ok;
     sdrplay_api_Init := fun _ p d => (sdrplay_api_Success, p, d);
     sdrplay_api_Uninit := ok;
     sdrplay_api_Update := fun _ d =>
       (sdrplay_api_Success, [delivery d 1], wrap32 (d + 1000));
     sdrplay_api_ReleaseDevice := ok;
     sdrplay_api_LockDeviceApi := ok;
     sdrplay_api_UnlockDeviceApi := ok;
     sdrplay_api_Close := ok;
     usleep_deliveries := fun _ d => ([], d) |}.

(** A cooperative double: the first [usleep(1)] after an update delivers
    samples without the flag, the second delivers the changed flag.  Its
    state is the number of [usleep(1)] seen since the update (if one is
    pending) and the number of the next sample. *)
Definition cooperative : SdrplayApi (option nat * Z) :=
  {| sdrplay_api_GetDeviceParams := ok;
     sdrplay_api_Init := fun _ p d => (sdrplay_api_Success, p, d);
     sdrplay_api_Uninit := ok;
     sdrplay_api_Update := fun _ d => (sdrplay_api_Success, [], (Some O, snd d));
     sdrplay_api_ReleaseDevice := ok;
     sdrplay_api_LockDeviceApi := ok;
     sdrplay_api_UnlockDeviceApi := ok;
     sdrplay_api_Close := ok;
     usleep_deliveries := fun usec d =>
       if usec =? 1 then
         match fst d with
         | Some O => ([delivery (snd d) 0], (Some 1%nat, wrap32 (snd d + 1000)))
         | Some (S _) => ([delivery (snd d) 1], (None, wrap32 (snd d + 1000)))
         | None => ([], d)
         end
       else ([], d) |}.

(** A double whose hardware clamps the centre frequency to 2 GHz. *)
Definition clamp_rfHz (p : DeviceParamsT) : DeviceParamsT :=
  {| fsFreq_fsHz := fsFreq_fsHz p;
     decimation_enable := decimation_enable p;
     decimation_decimationFactor := decimation_decimationFactor p;
     tunerParams_ifType := tunerParams_ifType p;
     tunerParams_bwType := tunerParams_bwType p;
     agc_enable := agc_enable p;
     gain_gRdB := gain_gRdB p;
     gain_LNAstate := gain_LNAstate p;
     dcOffset_DCenable := dcOffset_DCenable p;
     dcOffset_IQenable := dcOffset_IQenable p;
     dcOffsetTuner_dcCal := dcOffsetTuner_dcCal p;
     dcOffsetTuner_speedUp := dcOffsetTuner_speedUp p;
     dcOffsetTuner_trackTime := dcOffsetTuner_trackTime p;
     dcOffsetTuner_refreshRateTime := dcOffsetTuner_refreshRateTime p;
     rfFreq_rfHz :=
       if PrimFloat.ltb 2e9%float (rfFreq_rfHz p) then 2e9%float
       else rfFreq_rfHz p |}.

Definition clamping : SdrplayApi unit :=
  {| sdrplay_api_GetDeviceParams := ok;
     sdrplay_api_Init := fun _ p d => (sdrplay_api_Success, clamp_rfHz p, d);
     sdrplay_api_Uninit := ok;
     sdrplay_api_Update := fun _ d => (sdrplay_api_Success, [], d);
     sdrplay_api_ReleaseDevice := ok;
     sdrplay_api_LockDeviceApi := ok;
     sdrplay_api_UnlockDeviceApi := ok;
     sdrplay_api_Close := ok;
     usleep_deliveries := fun _ d => ([], d) |}.

(** A double whose hardware turns the AGC back on (to the given mode). *)
Definition force_agc (mode : Z) (p : DeviceParamsT) : DeviceParamsT :=
  {| fsFreq_fsHz := fsFreq_fsHz p;
     decimation_enable := decimation_enable p;
     decimation_decimationFactor := decimation_decimationFactor p;
     tunerParams_ifType := tunerParams_ifType p;
     tunerParams_bwType := tunerParams_bwType p;
     agc_enable := mode;
     gain_gRdB := gain_gRdB p;
     gain_LNAstate := gain_LNAstate p;
     dcOffset_DCenable := dcOffset_DCenable p;
     dcOffset_IQenable := dcOffset_IQenable p;
     dcOffsetTuner_dcCal := dcOffsetTuner_dcCal p;
     dcOffsetTuner_speedUp := dcOffsetTuner_speedUp p;
     dcOffsetTuner_trackTime := dcOffsetTuner_trackTime p;
     dcOffsetTuner_refreshRateTime := dcOffsetTuner_refreshRateTime p;
     rfFreq_rfHz := rfFreq_rfHz p |}.

Definition agc_forcing : SdrplayApi unit :=
  {| sdrplay_api_GetDeviceParams := ok;
     sdrplay_api_Init := fun _ p d => (sdrplay_api_Success, force_agc 2 p, d);
     sdrplay_api_Uninit := ok;
     sdrplay_api_Update := fun _ d => (sdrplay_api_Success, [], d);
     sdrplay_api_ReleaseDevice := ok;
     sdrplay_api_LockDeviceApi := ok;
     sdrplay_api_UnlockDeviceApi := ok;
     sdrplay_api_Close := ok;
     usleep_deliveries := fun _ d => ([], d) |}.

(** The device parameters before [main] writes them, and a starting world. *)
Definition blank_params : DeviceParamsT :=
  {| fsFreq_fsHz := 0%float; decimation_enable := 0;
     decimation_decimationFactor := 0; tunerParams_ifType := 0;
     tunerParams_bwType := 0; agc_enable := 0; gain_gRdB := 0;
     gain_LNAstate := 0; dcOffset_DCenable := 0; dcOffset_IQenable := 0;
     dcOffsetTuner_dcCal := 0; dcOffsetTuner_speedUp := 0;
     dcOffsetTuner_trackTime := 0; dcOffsetTuner_refreshRateTime := 0;
     rfFreq_rfHz := 0%float |}.

Definition blank_rx_context : RXContext :=
  {| total_samples := 0; next_sample_num := 4294967295;
     gain_reduction_changed := 0; verbose := 0 |}.

Definition world {D} (d : D) : World D := mkWorld d blank_params blank_rx_context.

(** The defaults of [main] with a centre frequency of 3 GHz. *)
Definition options_3GHz : Config :=
  {| rsp_sample_rate := 2e6%float;
     decimation := 1;
     if_frequency := 0;
     if_bandwidth := 200;
     gRdBs := [40];
     LNAstates := [0];
     DCenable := 1;
     IQenable := 1;
     dcCal := 3;
     speedUp := 0;
     trackTime := 1;
     refreshRateTime := 2048;
     frequency := 3e9%float;
     num_gain_changes := 3;
     wait_time := 0;
     cfg_verbose := 0 |}.

(** The context of the recording callback as the recorder's [main] sets
    it up, with the given output file descriptor. *)
Definition recording_to (fd : Z) : Recorder.RXContextRecord :=
  {| Recorder.earliest_callback := {| Recorder.tv_sec := 0; Recorder.tv_usec := 0 |};
     Recorder.latest_callback := {| Recorder.tv_sec := 0; Recorder.tv_usec := 0 |};
     Recorder.total_samples := 0;
     Recorder.next_sample_num := 4294967295;
     Recorder.output_fd := fd;
     Recorder.imin := SHRT_MAX;
     Recorder.imax := SHRT_MIN;
     Recorder.qmin := SHRT_MAX;
     Recorder.qmax := SHRT_MIN |}.

(** A clock reading, and a [write] that writes everything. *)
Definition noon : Recorder.timeval :=
  {| Recorder.tv_sec := 1700000000; Recorder.tv_usec := 0 |}.

Definition write_all (fd : Z) (buf : list (option Z)) (count : Z) : Z := count.

(** A world in which the flag is still set from an earlier signal. *)
Definition stale_world : World unit :=
  mkWorld tt blank_params
    {| total_samples := 0; next_sample_num := 4294967295;
       gain_reduction_changed := 1; verbose := 0 |}.

(** Where the wait starts after the first request to [synchronous]. *)
Definition sync_entry : World Z :=
  mkWorld 1000
    (set_gain 20 1 blank_params)
    {| total_samples := 1000; next_sample_num := 1000;
       gain_reduction_changed := 1; verbose := 0 |}.

(** Where the wait starts after the first request to [silent]. *)
Definition silent_entry : World unit :=
  mkWorld tt (set_gain 20 1 blank_params) blank_rx_context.

End Doubles.


(** ** [single_tuner_gain_changes.c]: [main] up to "select device settings"

    Opening the vendor library, checking its version, and selecting the
    device.  The calls of this part that are not in [GainChanges.ApiCall]
    are the [OpenCall]s; its trace holds them next to the events of the
    rest of [main]. *)

Module Selection.
Import GainChanges.

Definition SDRPLAY_MAX_DEVICES : Z := 4.

(** An element of [devices]: the serial number and the fields that
    [main] looks at. *)
Record DeviceEntry : Type := mkDeviceEntry {
  SerNo : String.string;
  fields : sdrplay_api_DeviceT
}.

(** The two options that only this part of [main] reads;
    [serial_number] is [None] for [NULL]. *)
Record Options : Type := mkOptions {
  serial_number : option String.string;
  debug_enable : Z
}.

Inductive OpenCall : Type :=
| Open
| ApiVersion
| GetDevices
| SelectDevice (device : DeviceEntry)
| DebugEnable.

Inductive OpenMsg : Type :=
| MsgOpenCallFailed (c : OpenCall) (err : sdrplay_api_ErrT)
| MsgVersionMismatch (found : float)
| MsgNotFound
| MsgNoSingleTunerMode.

Inductive SEvent : Type :=
| OCall (c : OpenCall)
| OLog (m : OpenMsg)
| Main (e : Event).

(** The vendor calls of this part.  [sdrplay_api_GetDevices] is given the
    size of the array and answers with the entries it has written and the
    new value of [ndevices]; [sdrplay_api_SelectDevice] gets a pointer to
    [device] and may change it. *)
Class SdrplayOpenApi (D : Type) : Type := {
  sdrplay_api_Open : D -> sdrplay_api_ErrT * D;
  sdrplay_api_ApiVersion : D -> sdrplay_api_ErrT * float * D;
  sdrplay_api_GetDevices :
    Z -> D -> sdrplay_api_ErrT * list DeviceEntry * Z * D;
  sdrplay_api_SelectDevice :
    DeviceEntry -> D -> sdrplay_api_ErrT * DeviceEntry * D;
  sdrplay_api_DebugEnable : D -> sdrplay_api_ErrT * D
}.

(** The vendor calls of a trace, in order. *)
Inductive AnyCall : Type :=
| Opening (c : OpenCall)
| Later (c : ApiCall).

Fixpoint calls_of (t : list Event) : list ApiCall :=
  match t with
  | [] => []
  | Call c :: t' => c :: calls_of t'
  | _ :: t' => calls_of t'
  end.

Fixpoint all_calls (t : list SEvent) : list AnyCall :=
  match t with
  | [] => []
  | OCall c :: t' => Opening c :: all_calls t'
  | Main (Call c) :: t' => Later c :: all_calls t'
  | _ :: t' => all_calls t'
  end.

(** The vendor library is closed once, by the last vendor call. *)
Definition closed_once (cs : list ApiCall) : Prop :=
  exists pre, cs = pre ++ [Close] /\ ~ In Close pre.

Definition closed_at_end (cs : list AnyCall) : Prop :=
  exists pre, cs = pre ++ [Later Close] /\ ~ In (Later Close) pre.

(** A run of a part of [main] that leaves the library open when it
    returns, and has closed it when it exits (with status 1); and a run
    that has closed it either way. *)
Definition leaves_open {St A} (x : Res A * St * list Event) : Prop :=
  match fst (fst x) with
  | Ret _ => ~ In Close (calls_of (snd x))
  | Exit status => status = 1 /\ closed_once (calls_of (snd x))
  | Stuck _ => False
  end.

Definition ends_closed {St} (x : Res Z * St * list Event) : Prop :=
  (fst (fst x) = Ret 0 \/ fst (fst x) = Exit 1) /\
  closed_once (calls_of (snd x)).

(** The calls up to the search for the device. *)
Definition opened : list AnyCall :=
  [Opening Open; Opening ApiVersion; Later LockDeviceApi; Opening GetDevices].

(** A program of the later part of [main], run inside this one. *)
Definition lift {St A} (m : Prog St Event A) : Prog St SEvent A :=
  fun s =>
    match m s with
    | (r, s', t) => (r, s', List.map Main t)
    end.

Section Select.

Context {D : Type} {api : SdrplayApi D} {oapi : SdrplayOpenApi D}.
(** [hdr] and [api_version] are the constants of the vendor header
    ([api_version] is [SDRPLAY_API_VERSION]). *)
Context (hdr : VendorHeader) (api_version : float) (opt : Options).

Definition OpenM (A : Type) : Type := Prog (World D) SEvent A.

Definition olog (m : OpenMsg) : OpenM unit := emit (OLog m).

Definition ocall (c : OpenCall) (f : D -> sdrplay_api_ErrT * D)
  : OpenM sdrplay_api_ErrT :=
  fun w =>
    let '(err, d') := f (dev w) in
    (Ret err, mkWorld d' (device_params w) (rx_context w), [OCall c]).

Definition call_ApiVersion : OpenM (sdrplay_api_ErrT * float) :=
  fun w =>
    let '(err, ver, d') := sdrplay_api_ApiVersion (dev w) in
    (Ret (err, ver), mkWorld d' (device_params w) (rx_context w),
     [OCall ApiVersion]).

Definition call_GetDevices
  : OpenM (sdrplay_api_ErrT * (list DeviceEntry * Z)) :=
  fun w =>
    let '(err, devices, ndevices, d') :=
      sdrplay_api_GetDevices SDRPLAY_MAX_DEVICES (dev w) in
    (Ret (err, (devices, ndevices)),
     mkWorld d' (device_params w) (rx_context w), [OCall GetDevices]).

Definition call_SelectDevice (device : DeviceEntry)
  : OpenM (sdrplay_api_ErrT * DeviceEntry) :=
  fun w =>
    let '(err, device', d') := sdrplay_api_SelectDevice device (dev w) in
    (Ret (err, device'), mkWorld d' (device_params w) (rx_context w),
     [OCall (SelectDevice device)]).

(** [if (err != sdrplay_api_Success) { fprintf(...); cleanup; exit(1); }]
    for a call of this part. *)
Definition or_die_opening (c : OpenCall) (err : sdrplay_api_ErrT)
    (cleanup : OpenM unit) : OpenM unit :=
  if is_success err then ret tt
  else (olog (MsgOpenCallFailed c err) ;; cleanup ;; exit 1).

(** [devices[i]]: an element that [sdrplay_api_GetDevices] has not
    written (or one outside the array) must not be read. *)
Definition device_read (devices : list DeviceEntry) (i : Z) : OpenM DeviceEntry :=
  if (0 <=? i) && (i <? SDRPLAY_MAX_DEVICES) then
    match devices !! Z.to_nat i with
    | Some d => ret d
    | None => stuck UndefinedBehaviour
    end
  else stuck UndefinedBehaviour.

(** [serial_number == NULL || strcmp(devices[i].SerNo, serial_number) == 0] *)
Definition serial_matches (devices : list DeviceEntry) (i : Z) : OpenM bool :=
  match serial_number opt with
  | None => ret true
  | Some s =>
      let* d := device_read devices i in
      ret (String.eqb (SerNo d) s)
  end.

(** Whether an entry is the one asked for: any entry when no serial
    number is given. *)
Definition entry_matches (e : DeviceEntry) : bool :=
  match serial_number opt with
  | None => true
  | Some s => String.eqb (SerNo e) s
  end.

(** [for (unsigned int i = i0; i < ndevices; i++) { if (...) {
    device_index = i; break; } }], returning [device_index]. *)
Fixpoint find_device (fuel : nat) (devices : list DeviceEntry)
    (ndevices i : Z) : OpenM Z :=
  match fuel with
  | O => stuck OutOfFuel
  | S fuel' =>
      if i <? ndevices then
        let* found := serial_matches devices i in
        if found then ret i (* break *)
        else find_device fuel' devices ndevices (wrap32 (i + 1))
      else ret (-1)
  end.

(** The assignments made to [device] for an RSPduo. *)
Definition force_single_tuner (device : DeviceEntry) : DeviceEntry :=
  {| SerNo := SerNo device;
     fields :=
       {| hwVer := hwVer (fields device);
          tuner := sdrplay_api_Tuner_A hdr;
          rspDuoMode := sdrplay_api_RspDuoMode_Single_Tuner hdr;
          rspDuoSampleFreq := 0%float |} |}.

(** An RSPduo as [main] passes it to [sdrplay_api_SelectDevice]. *)
Definition single_tuner_forced (device : DeviceEntry) : Prop :=
  hwVer (fields device) = SDRPLAY_RSPduo_ID hdr ->
  tuner (fields device) = sdrplay_api_Tuner_A hdr /\
  rspDuoMode (fields device) = sdrplay_api_RspDuoMode_Single_Tuner hdr /\
  rspDuoSampleFreq (fields device) = 0%float.

(** for RSPduo make sure single tuner mode is available *)
Definition check_rspduo (device : DeviceEntry) : OpenM DeviceEntry :=
  if hwVer (fields device) =? SDRPLAY_RSPduo_ID hdr then
    if int_ne (Z.land (rspDuoMode (fields device))
                 (sdrplay_api_RspDuoMode_Single_Tuner hdr))
         (sdrplay_api_RspDuoMode_Single_Tuner hdr)
    then (olog MsgNoSingleTunerMode ;; lift unlock_and_close ;; exit 1)
    else ret (force_single_tuner device)
  else ret device.

Definition open_and_select : OpenM DeviceEntry :=
  (* open SDRplay API and check version *)
  let* err := ocall Open sdrplay_api_Open in
  or_die_opening Open err (ret tt) ;;
  let* ev := call_ApiVersion in
  or_die_opening ApiVersion (fst ev) (lift close_only) ;;
  (if double_ne (snd ev) api_version
   then (olog (MsgVersionMismatch (snd ev)) ;; lift close_only ;; exit 1)
   else ret tt) ;;
  (* select device *)
  let* err := lift (call LockDeviceApi sdrplay_api_LockDeviceApi) in
  lift (or_die LockDeviceApi err close_only) ;;
  let* ed := call_GetDevices in
  or_die_opening GetDevices (fst ed) (lift unlock_and_close) ;;
  let devices := fst (snd ed) in
  let ndevices := snd (snd ed) in
  let* device_index :=
    find_device (S (Z.to_nat ndevices)) devices ndevices 0 in
  (if device_index =? -1
   then (olog MsgNotFound ;; lift unlock_and_close ;; exit 1)
   else ret tt) ;;
  let* device := device_read devices device_index in
  let* device := check_rspduo device in
  let* es := call_SelectDevice device in
  or_die_opening (SelectDevice device) (fst es) (lift unlock_and_close) ;;
  let device := snd es in
  let* err := lift (call UnlockDeviceApi sdrplay_api_UnlockDeviceApi) in
  lift (or_die UnlockDeviceApi err release_and_close) ;;
  (if int_ne (debug_enable opt) 0 then
     (let* err := ocall DebugEnable sdrplay_api_DebugEnable in
      or_die_opening DebugEnable err (lift release_and_close))
   else ret tt) ;;
  ret device.

(** What the vendor documents of [sdrplay_api_GetDevices]: the new
    [ndevices] counts the entries written, at most the size given. *)
Definition GetDevices_in_range : Prop :=
  forall d : D,
    let '(_, devices, ndevices, _) :=
      sdrplay_api_GetDevices SDRPLAY_MAX_DEVICES d in
    0 <= ndevices <= Z.of_nat (length devices) /\
    ndevices <= SDRPLAY_MAX_DEVICES.

(** The whole of [main] after the options have been read. *)
Definition program (cfg : Config) : OpenM Z :=
  let* device := open_and_select in
  lift (main hdr cfg (fields device)).

End Select.

End Selection.

(** ** [single_tuner_recorder.c]: the timing callback *)

Module TimeDiff.

Definition LONG_MAX : Z := 9223372036854775807.
Definition LONG_MIN : Z := -9223372036854775808.

Record timespec : Type := mkTimespec {
  tv_sec : Z;                  (* time_t, a long *)
  tv_nsec : Z                  (* long *)
}.

Record RXContextMeasureTimeDiff : Type := mkRXContextMeasureTimeDiff {
  prev_time : timespec;
  callback_count : Z;          (* long *)
  diff_threshold : Z           (* long *)
}.

(** The line "%ld %u %ld": callback count, number of samples, difference. *)
Inductive Event : Type :=
| LogDiff (callback_count numSamples diff : Z).

Definition T (A : Type) : Type := Prog RXContextMeasureTimeDiff Event A.

(** The result of an operation on [long]s: overflow is undefined. *)
Definition long_result (z : Z) : T Z :=
  if (LONG_MIN <=? z) && (z <=? LONG_MAX) then ret z
  else stuck UndefinedBehaviour.

(** [current_time] is what [clock_gettime(CLOCK_REALTIME, ...)] stores. *)
Definition rx_callback_measure_time_diff (current_time : timespec)
    (numSamples : Z) : T unit :=
  let* c := get in
  (if 0 <? tv_sec (prev_time c) then
     let* dsec := long_result (tv_sec current_time - tv_sec (prev_time c)) in
     let* dsec_ns := long_result (dsec * 1000000000) in
     let* dnsec :=
       long_result (tv_nsec current_time - tv_nsec (prev_time c)) in
     let* diff := long_result (dsec_ns + dnsec) in
     when (diff >? diff_threshold c)
          (emit (LogDiff (callback_count c) numSamples diff))
   else ret tt) ;;
  let* count := long_result (callback_count c + 1) in
  put {| prev_time :=
           {| tv_sec := tv_sec current_time;
              tv_nsec := tv_nsec current_time |};
         callback_count := count;
         diff_threshold := diff_threshold c |}.

(** Successive invocations, each with its clock reading and number of
    samples. *)
Fixpoint run_callbacks (calls : list (timespec * Z)) : T unit :=
  match calls with
  | [] => ret tt
  | (t, n) :: rest =>
      rx_callback_measure_time_diff t n ;; run_callbacks rest
  end.

(** The context that the recorder's [main] starts with. *)
Definition initial_context : RXContextMeasureTimeDiff :=
  {| prev_time := {| tv_sec := 0; tv_nsec := 0 |};
     callback_count := 0;
     diff_threshold := 5000000 |}.

(** Nanoseconds from [a] to [b]. *)
Definition gap (a b : timespec) : Z :=
  (tv_sec b - tv_sec a) * 1000000000 + (tv_nsec b - tv_nsec a).

(** A clock reading as [clock_gettime] gives it in practice. *)
Definition plausible (t : timespec) : Prop :=
  0 < tv_sec t < 2 ^ 32 /\ 0 <= tv_nsec t < 1000000000.

(** The lines that successive invocations are to write: one for each
    clock reading that comes more than the threshold after the one
    before, the first invocation (no reading before it) apart; [count]
    is the number of invocations so far. *)
Fixpoint late_callbacks (prev : timespec) (count threshold : Z)
    (calls : list (timespec * Z)) : list Event :=
  match calls with
  | [] => []
  | (t, n) :: rest =>
      (if (0 <? tv_sec prev) && (gap prev t >? threshold)
       then [LogDiff count n (gap prev t)] else [])
      ++ late_callbacks t (count + 1) threshold rest
  end.

End TimeDiff.

(** ** [single_tuner_recorder.c]: the settings and their check

    The assignments to the device parameters and the check after the quick
    initialisation, as the recorder's [main] makes them. *)

Module RecorderMain.

(** The option variables that the settings are taken from. *)
Record Config : Type := mkConfig {
  rsp_sample_rate : float;
  decimation : Z;
  if_frequency : Z;
  if_bandwidth : Z;
  agc : Z;                     (* sdrplay_api_AgcControlT *)
  gRdB : Z;
  LNAstate : Z;
  DCenable : Z;
  IQenable : Z;
  dcCal : Z;
  speedUp : Z;
  trackTime : Z;
  refreshRateTime : Z;
  frequency : float
}.

(** What each [if] of the check looks at. *)
Inductive CheckedField : Type :=
| F_tuner | F_rspDuoMode | F_rspDuoSampleFreq | F_fsHz
| F_decimation_enable | F_decimationFactor | F_ifType | F_bwType
| F_agc_enable | F_gRdB | F_LNAstate | F_DCenable | F_IQenable
| F_dcCal | F_speedUp | F_trackTime | F_refreshRateTime | F_rfHz.

(** "unexpected change - ..." *)
Inductive LogMsg : Type :=
| MsgUnexpectedChange (f : CheckedField).

Section Settings.

Context (hdr : GainChanges.VendorHeader) (cfg : Config)
        (device : GainChanges.sdrplay_api_DeviceT).

(** The assignments to the device parameters [p] that
    [sdrplay_api_GetDeviceParams] has given; the gain reduction is
    assigned only with the AGC disabled.  Each field holds the value
    assigned, as in [GainChanges.write_settings]. *)
Definition write_settings (p : GainChanges.DeviceParamsT)
  : GainChanges.DeviceParamsT :=
  {| GainChanges.fsFreq_fsHz := rsp_sample_rate cfg;
     GainChanges.decimation_enable := c_bool (1 <? decimation cfg);
     GainChanges.decimation_decimationFactor := decimation cfg;
     GainChanges.tunerParams_ifType := if_frequency cfg;
     GainChanges.tunerParams_bwType := if_bandwidth cfg;
     GainChanges.agc_enable := agc cfg;
     GainChanges.gain_gRdB :=
       if agc cfg =? GainChanges.sdrplay_api_AGC_DISABLE hdr
       then gRdB cfg else GainChanges.gain_gRdB p;
     GainChanges.gain_LNAstate := LNAstate cfg;
     GainChanges.dcOffset_DCenable := DCenable cfg;
     GainChanges.dcOffset_IQenable := IQenable cfg;
     GainChanges.dcOffsetTuner_dcCal := dcCal cfg;
     GainChanges.dcOffsetTuner_speedUp := speedUp cfg;
     GainChanges.dcOffsetTuner_trackTime := trackTime cfg;
     GainChanges.dcOffsetTuner_refreshRateTime := refreshRateTime cfg;
     GainChanges.rfFreq_rfHz := frequency cfg |}.

(** The condition of each [if] of the check. *)
Definition differs (p : GainChanges.DeviceParamsT) (f : CheckedField) : bool :=
  match f with
  | F_tuner =>
      int_ne (GainChanges.tuner device) (GainChanges.sdrplay_api_Tuner_A hdr)
  | F_rspDuoMode =>
      int_ne (GainChanges.rspDuoMode device)
        (GainChanges.sdrplay_api_RspDuoMode_Single_Tuner hdr)
  | F_rspDuoSampleFreq =>
      double_ne (GainChanges.rspDuoSampleFreq device) 0%float
  | F_fsHz => double_ne (GainChanges.fsFreq_fsHz p) (rsp_sample_rate cfg)
  | F_decimation_enable =>
      int_ne (GainChanges.decimation_enable p) (c_bool (1 <? decimation cfg))
  | F_decimationFactor =>
      int_ne (GainChanges.decimation_decimationFactor p) (decimation cfg)
  | F_ifType => int_ne (GainChanges.tunerParams_ifType p) (if_frequency cfg)
  | F_bwType => int_ne (GainChanges.tunerParams_bwType p) (if_bandwidth cfg)
  | F_agc_enable => int_ne (GainChanges.agc_enable p) (agc cfg)
  | F_gRdB =>
      (agc cfg =? GainChanges.sdrplay_api_AGC_DISABLE hdr)
      && int_ne (GainChanges.gain_gRdB p) (gRdB cfg)
  | F_LNAstate => int_ne (GainChanges.gain_LNAstate p) (LNAstate cfg)
  | F_DCenable => int_ne (GainChanges.dcOffset_DCenable p) (DCenable cfg)
  | F_IQenable => int_ne (GainChanges.dcOffset_IQenable p) (IQenable cfg)
  | F_dcCal => int_ne (GainChanges.dcOffsetTuner_dcCal p) (dcCal cfg)
  | F_speedUp => int_ne (GainChanges.dcOffsetTuner_speedUp p) (speedUp cfg)
  | F_trackTime =>
      int_ne (GainChanges.dcOffsetTuner_trackTime p) (trackTime cfg)
  | F_refreshRateTime =>
      int_ne (GainChanges.dcOffsetTuner_refreshRateTime p)
        (refreshRateTime cfg)
  | F_rfHz => double_ne (GainChanges.rfFreq_rfHz p) (frequency cfg)
  end.

(** The checks, in the order in which [main] makes them. *)
Definition checked_fields : list CheckedField :=
  [F_tuner; F_rspDuoMode; F_rspDuoSampleFreq; F_fsHz;
   F_decimation_enable; F_decimationFactor; F_ifType; F_bwType;
   F_agc_enable; F_gRdB; F_LNAstate; F_DCenable; F_IQenable;
   F_dcCal; F_speedUp; F_trackTime; F_refreshRateTime; F_rfHz].

(** [if (differs) { fprintf(stderr, "unexpected change - ..."); init_ok = 0; }] *)
Definition unexpected_change (p : GainChanges.DeviceParamsT)
    (acc : bool * list LogMsg) (f : CheckedField) : bool * list LogMsg :=
  if differs p f
  then (false, snd acc ++ [MsgUnexpectedChange f])
  else acc.

(** [init_ok] and the lines written, after all the checks. *)
Definition readback (p : GainChanges.DeviceParamsT) : bool * list LogMsg :=
  fold_left (unexpected_change p) checked_fields (true, []).

End Settings.

End RecorderMain.

(** ** Conversions at the edge of the programs *)

Module Edge.

Definition INT_MAX : Z := 2147483647.
Definition UCHAR_MAX : Z := 255.

(** What [%d] shows of an [unsigned int] argument where the programs run:
    the [int] with the same bits. *)
Definition shown_by_d (u : Z) : Z :=
  if u <=? INT_MAX then u else u - 2 ^ 32.

(** A value that an [unsigned char] field keeps when it is assigned, and
    what the field holds after the assignment of any value. *)
Definition fits_unsigned_char (x : Z) : Prop := 0 <= x <= UCHAR_MAX.

Definition to_unsigned_char (x : Z) : Z := x mod (UCHAR_MAX + 1).

(** What the device parameters hold when the values of [p] are assigned
    to them: the vendor header declares [decimation.enable],
    [decimation.decimationFactor], [gain.LNAstate], [dcOffset.DCenable],
    [dcOffset.IQenable], [dcOffsetTuner.dcCal] and [dcOffsetTuner.speedUp]
    as [unsigned char], the other fields with the type of the variable
    assigned. *)
Definition stored (p : GainChanges.DeviceParamsT) : GainChanges.DeviceParamsT :=
  {| GainChanges.fsFreq_fsHz := GainChanges.fsFreq_fsHz p;
     GainChanges.decimation_enable :=
       to_unsigned_char (GainChanges.decimation_enable p);
     GainChanges.decimation_decimationFactor :=
       to_unsigned_char (GainChanges.decimation_decimationFactor p);
     GainChanges.tunerParams_ifType := GainChanges.tunerParams_ifType p;
     GainChanges.tunerParams_bwType := GainChanges.tunerParams_bwType p;
     GainChanges.agc_enable := GainChanges.agc_enable p;
     GainChanges.gain_gRdB := GainChanges.gain_gRdB p;
     GainChanges.gain_LNAstate :=
       to_unsigned_char (GainChanges.gain_LNAstate p);
     GainChanges.dcOffset_DCenable :=
       to_unsigned_char (GainChanges.dcOffset_DCenable p);
     GainChanges.dcOffset_IQenable :=
       to_unsigned_char (GainChanges.dcOffset_IQenable p);
     GainChanges.dcOffsetTuner_dcCal :=
       to_unsigned_char (GainChanges.dcOffsetTuner_dcCal p);
     GainChanges.dcOffsetTuner_speedUp :=
       to_unsigned_char (GainChanges.dcOffsetTuner_speedUp p);
     GainChanges.dcOffsetTuner_trackTime :=
       GainChanges.dcOffsetTuner_trackTime p;
     GainChanges.dcOffsetTuner_refreshRateTime :=
       GainChanges.dcOffsetTuner_refreshRateTime p;
     GainChanges.rfFreq_rfHz := GainChanges.rfFreq_rfHz p |}.

(** The settings of the gain-change program that go to [unsigned char]
    fields; [l0] is [LNAstates[0]]. *)
Definition narrow_settings_fit (cfg : GainChanges.Config) (l0 : Z) : Prop :=
  fits_unsigned_char (GainChanges.decimation cfg) /\
  fits_unsigned_char l0 /\
  fits_unsigned_char (GainChanges.DCenable cfg) /\
  fits_unsigned_char (GainChanges.IQenable cfg) /\
  fits_unsigned_char (GainChanges.dcCal cfg) /\
  fits_unsigned_char (GainChanges.speedUp cfg).

(** The same for the recorder. *)
Definition recorder_narrow_settings_fit (cfg : RecorderMain.Config) : Prop :=
  fits_unsigned_char (RecorderMain.decimation cfg) /\
  fits_unsigned_char (RecorderMain.LNAstate cfg) /\
  fits_unsigned_char (RecorderMain.DCenable cfg) /\
  fits_unsigned_char (RecorderMain.IQenable cfg) /\
  fits_unsigned_char (RecorderMain.dcCal cfg) /\
  fits_unsigned_char (RecorderMain.speedUp cfg).

End Edge.

(** ** More doubles and sample inputs *)

Module Samples.
Import GainChanges Selection.

(** A vendor library that opens, reports version [ver] and the devices
    [devs] (at most the array size), and selects what it is asked to. *)
Definition plain_open {D : Type} (ver : float) (devs : list DeviceEntry)
  : SdrplayOpenApi D :=
  {| sdrplay_api_Open := fun d => (sdrplay_api_Success, d);
     sdrplay_api_ApiVersion := fun d => (sdrplay_api_Success, ver, d);
     sdrplay_api_GetDevices := fun maxDevs d =>
       (sdrplay_api_Success, take (Z.to_nat maxDevs) devs,
        Z.of_nat (length (take (Z.to_nat maxDevs) devs)), d);
     sdrplay_api_SelectDevice := fun device d =>
       (sdrplay_api_Success, device, d);
     sdrplay_api_DebugEnable := fun d => (sdrplay_api_Success, d) |}.

Definition rspduo : sdrplay_api_DeviceT :=
  {| hwVer := 3; tuner := 3; rspDuoMode := 15; rspDuoSampleFreq := 6e6%float |}.

Import Stdlib.Strings.String.

Definition two_devices : list DeviceEntry :=
  [ {| SerNo := "1234"%string; fields := Doubles.rsp1a |};
    {| SerNo := "5678"%string; fields := rspduo |} ].

Definition no_options : Options :=
  {| serial_number := None; debug_enable := 0 |}.

Definition by_serial (s : String.string) : Options :=
  {| serial_number := Some s; debug_enable := 0 |}.


(** [SDRPLAY_API_VERSION] of the header the doubles stand for. *)
Definition SDRPLAY_API_VERSION : float := 0x1.88f5c2p+1%float. (* 3.07f *)

(** The library of that version with [two_devices] attached. *)
Definition two_attached : SdrplayOpenApi unit :=
  plain_open SDRPLAY_API_VERSION two_devices.

(** The defaults of the recorder's [main] at 2 MHz, with the given AGC
    mode. *)
Definition recorder_options (mode : Z) : RecorderMain.Config :=
  {| RecorderMain.rsp_sample_rate := 2e6%float;
     RecorderMain.decimation := 1;
     RecorderMain.if_frequency := 0;
     RecorderMain.if_bandwidth := 200;
     RecorderMain.agc := mode;
     RecorderMain.gRdB := 40;
     RecorderMain.LNAstate := 0;
     RecorderMain.DCenable := 1;
     RecorderMain.IQenable := 1;
     RecorderMain.dcCal := 3;
     RecorderMain.speedUp := 0;
     RecorderMain.trackTime := 1;
     RecorderMain.refreshRateTime := 2048;
     RecorderMain.frequency := 100e6%float |}.

(** The same with a decimation factor of 300, and the defaults of the
    gain-change program with that factor. *)
Definition recorder_decimation_300 : RecorderMain.Config :=
  {| RecorderMain.rsp_sample_rate := 2e6%float;
     RecorderMain.decimation := 300;
     RecorderMain.if_frequency := 0;
     RecorderMain.if_bandwidth := 200;
     RecorderMain.agc := 0;
     RecorderMain.gRdB := 40;
     RecorderMain.LNAstate := 0;
     RecorderMain.DCenable := 1;
     RecorderMain.IQenable := 1;
     RecorderMain.dcCal := 3;
     RecorderMain.speedUp := 0;
     RecorderMain.trackTime := 1;
     RecorderMain.refreshRateTime := 2048;
     RecorderMain.frequency := 100e6%float |}.

Definition decimation_300 : Config :=
  {| rsp_sample_rate := 2e6%float;
     decimation := 300;
     if_frequency := 0;
     if_bandwidth := 200;
     gRdBs := [40];
     LNAstates := [0];
     DCenable := 1;
     IQenable := 1;
     dcCal := 3;
     speedUp := 0;
     trackTime := 1;
     refreshRateTime := 2048;
     frequency := 100e6%float;
     num_gain_changes := 1;
     wait_time := 0;
     cfg_verbose := 0 |}.

(** An RSPduo as selected. *)
Definition single_tuner : sdrplay_api_DeviceT :=
  {| hwVer := 3; tuner := 1; rspDuoMode := 1; rspDuoSampleFreq := 0%float |}.

(** Three clock readings within one second: 0, 4 and 12 ms, each with
    1344 samples. *)
Definition three_readings : list (TimeDiff.timespec * Z) :=
  [ ({| TimeDiff.tv_sec := 1700000000; TimeDiff.tv_nsec := 0 |}, 1344);
    ({| TimeDiff.tv_sec := 1700000000; TimeDiff.tv_nsec := 4000000 |}, 1344);
    ({| TimeDiff.tv_sec := 1700000000; TimeDiff.tv_nsec := 12000000 |}, 1344) ].

(** The second of [two_devices] as it is passed to
    [sdrplay_api_SelectDevice]. *)
Definition rspduo_selected : DeviceEntry :=
  force_single_tuner Doubles.header
    {| SerNo := "5678"%string; fields := rspduo |}.

(** Asking for the second of [two_devices]. *)
Definition second_serial : Options := by_serial "5678"%string.

End Samples.
(** * Properties *)

(** ** Runs of sequenced programs *)

Section ProgFacts.

Context {St Ev : Type}.

Lemma bind_Ret {A B} (m : Prog St Ev A) (k : A -> Prog St Ev B) s a s1 t1 :
  m s = (Ret a, s1, t1) ->
  bind m k s = after_trace t1 (k a s1).
Proof.
  intros Hm. unfold bind, after_trace. rewrite Hm.
  destruct (k a s1) as [[r s2] t2]. reflexivity.
Qed.

Lemma bind_Exit {A B} (m : Prog St Ev A) (k : A -> Prog St Ev B) s c s1 t1 :
  m s = (Exit c, s1, t1) ->
  bind m k s = (Exit c, s1, t1).
Proof. intros Hm. unfold bind. rewrite Hm. reflexivity. Qed.

Lemma bind_Stuck {A B} (m : Prog St Ev A) (k : A -> Prog St Ev B) s y s1 t1 :
  m s = (Stuck y, s1, t1) ->
  bind m k s = (Stuck y, s1, t1).
Proof. intros Hm. unfold bind. rewrite Hm. reflexivity. Qed.

Lemma after_trace_nil {A} (x : Res A * St * list Ev) : after_trace [] x = x.
Proof. destruct x as [[r s] t]. reflexivity. Qed.

Lemma after_trace_pair {A} t (r : Res A) (s : St) (t' : list Ev) :
  after_trace t (r, s, t') = (r, s, t ++ t').
Proof. reflexivity. Qed.

End ProgFacts.

(** ** Steps without effects, and counting loops *)

Section PureFacts.

Context {St Ev : Type}.

Lemma pure_ret {A} (a : A) : pure (St := St) (Ev := Ev) (ret a).
Proof. intros s. now exists (Ret a). Qed.

Lemma pure_stuck {A} y : pure (St := St) (Ev := Ev) (A := A) (stuck y).
Proof. intros s. now exists (Stuck y). Qed.

Lemma pure_bind {A B} (m : Prog St Ev A) (k : A -> Prog St Ev B) :
  pure m -> (forall a, pure (k a)) -> pure (bind m k).
Proof.
  intros Hm Hk s. unfold bind. destruct (Hm s) as [[a | c | y] ->].
  - destruct (Hk a s) as [r ->]. now exists r.
  - now exists (Exit c).
  - now exists (Stuck y).
Qed.

Lemma pure_array_read (a : list Z) (i : Z) :
  pure (St := St) (Ev := Ev) (array_read a i).
Proof.
  unfold array_read. destruct (0 <=? i); [| apply pure_stuck].
  destruct (a !! Z.to_nat i); [apply pure_ret | apply pure_stuck].
Qed.

Lemma pure_for_range {L} (bound : Z) (body : Z -> L -> Prog St Ev L) :
  (forall i acc, pure (body i acc)) ->
  forall fuel i acc, pure (for_range fuel i bound body acc).
Proof.
  intros Hbody. induction fuel as [| fuel IH]; intros i acc;
    cbn [for_range].
  - apply pure_stuck.
  - destruct (i <? bound); [| apply pure_ret].
    apply pure_bind; [apply Hbody | intros acc'; apply IH].
Qed.

(** A counting loop whose body always returns, keeps an invariant and has
    no effect: with enough fuel the loop returns, with the invariant at
    the bound. *)
Lemma for_range_invariant {L} (I : Z -> L -> Prop) (bound : Z)
    (body : Z -> L -> Prog St Ev L) (s : St) :
  bound < 2 ^ 32 ->
  (forall k acc, 0 <= k < bound -> I k acc ->
     exists acc', body k acc s = (Ret acc', s, []) /\ I (k + 1) acc') ->
  forall (fuel : nat) (i : Z) (acc : L),
    0 <= i <= bound -> (Z.to_nat (bound - i) < fuel)%nat -> I i acc ->
    exists acc', for_range fuel i bound body acc s = (Ret acc', s, [])
                 /\ I bound acc'.
Proof.
  intros Hbound Hbody.
  induction fuel as [| fuel IH]; intros i acc Hi Hfuel Hinv; [lia |].
  cbn [for_range]. destruct (Z.ltb_spec i bound) as [Hlt | Hge].
  - destruct (Hbody i acc) as (acc1 & Hrun & Hinv1); [lia | exact Hinv |].
    rewrite (bind_Ret _ _ _ _ _ _ Hrun).
    assert (wrap32 (i + 1) = i + 1) as ->
        by (unfold wrap32; apply Z.mod_small; lia).
    destruct (IH (i + 1) acc1) as (acc' & Hrest & Hinv');
      [lia | lia | exact Hinv1 |].
    rewrite Hrest. exists acc'. split; [reflexivity | exact Hinv'].
  - assert (i = bound) as -> by lia.
    exists acc. split; [reflexivity | exact Hinv].
Qed.

End PureFacts.

(** ** The sample callback of the gain-change program *)

Section RxCallbackFacts.

Import GainChanges.

Lemma lor_nonzero_l (a b : Z) : a <> 0 -> Z.lor a b <> 0.
Proof. intros Ha Hz. apply Z.lor_eq_0_iff in Hz. tauto. Qed.

Lemma rx_callback_flag params numSamples reset rx :
  gain_reduction_changed (fst (rx_callback params numSamples reset rx))
  = Z.lor (gain_reduction_changed rx) (grChanged params).
Proof. reflexivity. Qed.

Lemma rx_callback_next params numSamples reset rx :
  next_sample_num (fst (rx_callback params numSamples reset rx))
  = wrap32 (firstSampleNum params + numSamples).
Proof. reflexivity. Qed.

Lemma run_callbacks_cons d ds rx :
  fst (run_callbacks (d :: ds) rx)
  = fst (run_callbacks ds
           (fst (rx_callback (d_params d) (d_numSamples d) (d_reset d) rx))).
Proof.
  cbn [run_callbacks].
  destruct (rx_callback (d_params d) (d_numSamples d) (d_reset d) rx)
    as [rx1 l1].
  cbn [fst].
  destruct (run_callbacks ds rx1) as [rx2 l2]. reflexivity.
Qed.

Lemma run_callbacks_keep_flag ds : forall rx,
  gain_reduction_changed rx <> 0 ->
  gain_reduction_changed (fst (run_callbacks ds rx)) <> 0.
Proof.
  induction ds as [| d ds IH]; intros rx Hrx.
  - exact Hrx.
  - rewrite run_callbacks_cons. apply IH.
    rewrite rx_callback_flag. now apply lor_nonzero_l.
Qed.

(** Which jump warnings one invocation writes. *)
Lemma rx_callback_jump params numSamples reset rx a b :
  In (MsgJump a b) (snd (rx_callback params numSamples reset rx)) <->
  a = next_sample_num rx /\ b = firstSampleNum params /\
  next_sample_num rx <> 4294967295 /\
  firstSampleNum params <> next_sample_num rx.
Proof.
  unfold rx_callback, int_ne. cbn [snd].
  rewrite !in_app_iff.
  destruct (verbose rx =? 0), (grChanged params =? 0), (reset =? 0);
    cbn [negb andb In];
    destruct (Z.eqb_spec (next_sample_num rx) 4294967295) as [Hs | Hs];
    destruct (Z.eqb_spec (firstSampleNum params) (next_sample_num rx))
      as [Hf | Hf];
    cbn [negb andb In];
    split; intros H;
    repeat match goal with
           | H : _ \/ _ |- _ => destruct H
           | H : _ /\ _ |- _ => destruct H
           | H : False |- _ => destruct H
           | H : MsgJump _ _ = MsgJump _ _ |- _ => injection H as <- <-
           | H : _ = MsgJump _ _ |- _ => discriminate H
           end;
    try tauto; try congruence.
  all: subst; auto 10.
Qed.

End RxCallbackFacts.

(** ** The wait for the gain change *)

Section WaitFacts.

Import GainChanges.

Context {D : Type} {api : SdrplayApi D}.

Lemma usleep_run usec (w : World D) :
  usleep usec w = (Ret tt, snd (fst (usleep usec w)), snd (usleep usec w)).
Proof.
  unfold usleep.
  destruct (usleep_deliveries usec (dev w)) as [ds d'].
  destruct (run_callbacks ds (rx_context w)) as [rx' logs].
  reflexivity.
Qed.

(** Sleeping never clears the flag: only [rx_callback] runs meanwhile. *)
Lemma usleep_keeps_flag usec (w : World D) :
  flag w <> 0 -> flag (snd (fst (usleep usec w))) <> 0.
Proof.
  unfold usleep, flag.
  destruct (usleep_deliveries usec (dev w)) as [ds d'].
  pose proof (run_callbacks_keep_flag ds (rx_context w)) as Hk.
  destruct (run_callbacks ds (rx_context w)) as [rx' logs].
  cbn in *. exact Hk.
Qed.

Lemma flag_after_keeps k : forall w : World D,
  flag w <> 0 -> flag_after k w <> 0.
Proof.
  unfold flag_after.
  induction k as [| k IH]; intros w Hw; cbn [after_sleeps].
  - exact Hw.
  - apply IH. now apply usleep_keeps_flag.
Qed.

(** The trace of a sleep holds nothing but [usleep] and the lines that the
    callback writes meanwhile. *)
Lemma rx_callback_quiet params numSamples reset rx :
  Forall quiet (map Log (snd (rx_callback params numSamples reset rx))).
Proof.
  unfold rx_callback. cbn [snd].
  rewrite !map_app, !Forall_app.
  repeat split;
    match goal with |- context [if ?c then _ else _] => destruct c end;
    cbn; repeat constructor.
Qed.

Lemma run_callbacks_quiet ds : forall rx,
  Forall quiet (map Log (snd (run_callbacks ds rx))).
Proof.
  induction ds as [| d ds IH]; intros rx; cbn [run_callbacks].
  - constructor.
  - pose proof (rx_callback_quiet (d_params d) (d_numSamples d) (d_reset d) rx)
      as H1.
    destruct (rx_callback (d_params d) (d_numSamples d) (d_reset d) rx)
      as [rx1 l1].
    specialize (IH rx1).
    destruct (run_callbacks ds rx1) as [rx2 l2].
    cbn [snd] in *. rewrite map_app, Forall_app. now split.
Qed.

Lemma usleep_quiet usec (w : World D) : Forall quiet (snd (usleep usec w)).
Proof.
  unfold usleep.
  destruct (usleep_deliveries usec (dev w)) as [ds d'].
  pose proof (run_callbacks_quiet ds (rx_context w)) as Hq.
  destruct (run_callbacks ds (rx_context w)) as [rx' logs].
  cbn [snd] in *. constructor; [exact I | exact Hq].
Qed.

Lemma sleeps_trace_quiet k : forall w : World D,
  Forall quiet (sleeps_trace k w).
Proof.
  induction k as [| k IH]; intros w; cbn [sleeps_trace].
  - constructor.
  - rewrite Forall_app. split; [apply usleep_quiet | apply IH].
Qed.

Lemma usleep_counts_once (w : World D) :
  length (List.filter is_usleep1 (snd (usleep 1 w))) = 1%nat.
Proof.
  unfold usleep.
  destruct (usleep_deliveries 1 (dev w)) as [ds d'].
  destruct (run_callbacks ds (rx_context w)) as [rx' logs].
  cbn [snd List.filter is_usleep1 length]. f_equal.
  induction logs as [| m logs IH]; [reflexivity | exact IH].
Qed.

Lemma sleeps_trace_count k : forall w : World D,
  length (List.filter is_usleep1 (sleeps_trace k w)) = k.
Proof.
  induction k as [| k IH]; intros w; cbn [sleeps_trace].
  - reflexivity.
  - rewrite List.filter_app, length_app, usleep_counts_once, IH. reflexivity.
Qed.

(** The wait loop entered at iteration [k] with enough fuel: it returns
    after [j] more rounds of [usleep(1)], and when it returns before the
    bound, the previous read was 0 and the current read is not. *)
Lemma wait_for_gain_change_run fuel : forall (k : nat) prev (w : World D),
  (k <= Z.to_nat UpdateTimeout)%nat ->
  (Z.to_nat UpdateTimeout - k < fuel)%nat ->
  exists j : nat,
    (k + j <= Z.to_nat UpdateTimeout)%nat /\
    wait_for_gain_change fuel (Z.of_nat k) prev w
    = (Ret (Z.of_nat (k + j)), after_sleeps j w, sleeps_trace j w) /\
    ((k + j < Z.to_nat UpdateTimeout)%nat ->
     (j = O /\ prev = 0 /\ flag w <> 0) \/
     (exists i, j = S i /\ flag_after i w = 0 /\ flag_after (S i) w <> 0)).
Proof.
  induction fuel as [| fuel IH]; intros k prev w Hk Hfuel; [lia |].
  cbn [wait_for_gain_change].
  destruct (Z.ltb_spec (Z.of_nat k) UpdateTimeout) as [Hlt | Hge].
  - unfold bind at 1. unfold read_flag at 1. fold (flag w).
    destruct ((prev =? 0) && int_ne (flag w) 0) eqn:Hedge.
    + exists O. rewrite Nat.add_0_r. cbn [after_sleeps sleeps_trace].
      split; [lia |]. split; [reflexivity |].
      intros _. left.
      apply andb_true_iff in Hedge as [Hp Hc].
      unfold int_ne in Hc. apply negb_true_iff in Hc.
      apply Z.eqb_eq in Hp. apply Z.eqb_neq in Hc.
      split; [reflexivity |]. split; assumption.
    + destruct (IH (S k) (flag w) (sleep1 w)) as (j & Hj & Hrun & Hbreak).
      { unfold UpdateTimeout in *. lia. }
      { lia. }
      exists (S j). split; [lia |].
      replace (Z.of_nat k + 1) with (Z.of_nat (S k)) by lia.
      split.
      * rewrite (bind_Ret _ _ _ _ _ _ (usleep_run 1 w)).
        fold (sleep1 w). rewrite Hrun. cbn [after_sleeps sleeps_trace].
        rewrite after_trace_pair.
        replace (S k + j)%nat with (k + S j)%nat by lia. reflexivity.
      * intros Hlt'. right.
        destruct Hbreak as [(-> & Hp & Hc) | (i & -> & H0 & H1)]; [lia | |].
        -- exists O. split; [reflexivity |].
           unfold flag_after. cbn [after_sleeps]. split; assumption.
        -- exists (S i). split; [reflexivity |].
           unfold flag_after in *. cbn [after_sleeps] in *. split; assumption.
  - exists O. rewrite Nat.add_0_r. cbn [after_sleeps sleeps_trace].
    split; [lia |]. split; [reflexivity |].
    intros Hlt. unfold UpdateTimeout in *. lia.
Qed.

End WaitFacts.

(** ** The request of one gain change *)

Section RequestFacts.

Import GainChanges.

Context {D : Type} {api : SdrplayApi D}.
Context (cfg : Config).

Lemma array_read_run {St Ev} (a : list Z) (i : Z) (x : Z) (s : St) :
  0 <= i -> a !! Z.to_nat i = Some x ->
  array_read (Ev := Ev) a i s = (Ret x, s, []).
Proof.
  intros Hi Hx. unfold array_read.
  destruct (Z.leb_spec 0 i); [| lia]. rewrite Hx. reflexivity.
Qed.

Lemma c_umod_run {St Ev} (a b : Z) (s : St) :
  0 < b < 2 ^ 32 ->
  c_umod (Ev := Ev) a b s = (Ret (a mod b), s, []).
Proof.
  intros Hb. unfold c_umod, wrap32. rewrite (Z.mod_small b) by lia.
  destruct (Z.eqb_spec b 0); [lia | reflexivity].
Qed.

(** The sequencer on non-empty lists: it returns the entries at
    [ngc mod length], leaves the state alone and writes nothing. *)
Lemma next_gain_run (ngc : Z) (w : World D) :
  gRdBs cfg <> [] -> LNAstates cfg <> [] ->
  ngRdBs cfg < 2 ^ 32 -> nLNAstates cfg < 2 ^ 32 ->
  0 <= ngc ->
  exists g l,
    gRdBs cfg !! Z.to_nat (ngc mod ngRdBs cfg) = Some g /\
    LNAstates cfg !! Z.to_nat (ngc mod nLNAstates cfg) = Some l /\
    forall w' : World D, next_gain cfg ngc w' = (Ret (g, l), w', []).
Proof.
  intros Hg Hl Hgn Hln Hn. unfold ngRdBs, nLNAstates in *.
  assert (0 < Z.of_nat (length (gRdBs cfg))) as Hg0.
  { destruct (gRdBs cfg) eqn:E; [congruence | cbn [length]; lia]. }
  assert (0 < Z.of_nat (length (LNAstates cfg))) as Hl0.
  { destruct (LNAstates cfg) eqn:E; [congruence | cbn [length]; lia]. }
  pose proof (Z.mod_pos_bound ngc _ Hg0) as Hig.
  pose proof (Z.mod_pos_bound ngc _ Hl0) as Hil.
  destruct (lookup_lt_is_Some_2 (gRdBs cfg)
              (Z.to_nat (ngc mod Z.of_nat (length (gRdBs cfg)))))
    as [g Hgv]; [lia |].
  destruct (lookup_lt_is_Some_2 (LNAstates cfg)
              (Z.to_nat (ngc mod Z.of_nat (length (LNAstates cfg)))))
    as [l Hlv]; [lia |].
  exists g, l. split; [exact Hgv |]. split; [exact Hlv |].
  intros w'. unfold next_gain, ngRdBs, nLNAstates.
  rewrite (bind_Ret _ _ _ _ _ _ (c_umod_run ngc _ w' (conj Hg0 Hgn))).
  rewrite (bind_Ret _ _ _ _ _ _ (array_read_run _ _ _ w' (proj1 Hig) Hgv)).
  rewrite (bind_Ret _ _ _ _ _ _ (c_umod_run ngc _ w' (conj Hl0 Hln))).
  rewrite (bind_Ret _ _ _ _ _ _ (array_read_run _ _ _ w' (proj1 Hil) Hlv)).
  reflexivity.
Qed.

Lemma pure_c_umod {St Ev} (a b : Z) : pure (St := St) (Ev := Ev) (c_umod a b).
Proof.
  unfold c_umod. destruct (wrap32 b =? 0); [apply pure_stuck | apply pure_ret].
Qed.

Lemma pure_next_gain (ngc : Z) : pure (next_gain (D := D) cfg ngc).
Proof.
  unfold next_gain.
  apply pure_bind; [apply pure_c_umod | intros ig].
  apply pure_bind; [apply pure_array_read | intros g].
  apply pure_bind; [apply pure_c_umod | intros il].
  apply pure_bind; [apply pure_array_read | intros l].
  apply pure_ret.
Qed.

Lemma quiet_not_request (e : Event) : quiet e -> is_update_or_reset e = false.
Proof. destruct e as [c | u | | m]; cbn; tauto. Qed.

Lemma Forall_quiet_not_request (t : list Event) :
  Forall quiet t -> Forall (fun e => is_update_or_reset e = false) t.
Proof. induction 1; constructor; auto using quiet_not_request. Qed.

Lemma request_gain_change_run (ngc g l : Z) (w : World D) :
  (forall w' : World D, next_gain cfg ngc w' = (Ret (g, l), w', [])) ->
  exists r w1 pre post,
    request_gain_change cfg ngc w
    = (r, w1, pre ++ [FlagReset; Call (Update g l)] ++ post) /\
    Forall quiet pre /\
    Forall (fun e => is_update_or_reset e = false) post /\
    gain_gRdB (device_params w1) = g /\
    gain_LNAstate (device_params w1) = l /\
    (r = Ret tt \/ r = Exit 1).
Proof.
  intros Hnext. unfold request_gain_change.
  rewrite (bind_Ret _ _ _ _ _ _ (usleep_run _ w)).
  pose proof (usleep_quiet (wait_time cfg) w) as Hpre.
  set (pre := snd (usleep (wait_time cfg) w)) in *.
  set (w1 := snd (fst (usleep (wait_time cfg) w))).
  rewrite (bind_Ret _ _ _ _ _ _ (Hnext w1)).
  unfold bind, get, set_device_params, reset_flag, call_Update.
  cbn [fst snd dev device_params rx_context gain_gRdB gain_LNAstate set_gain].
  destruct (sdrplay_api_Update _ (dev w1)) as [[err ds] d'].
  pose proof (run_callbacks_quiet ds
    {| total_samples := total_samples (rx_context w1);
       next_sample_num := next_sample_num (rx_context w1);
       gain_reduction_changed := 0;
       verbose := verbose (rx_context w1) |}) as Hlogs.
  destruct (run_callbacks ds _) as [rx' logs].
  cbn [snd] in Hlogs. apply Forall_quiet_not_request in Hlogs.
  destruct err as [| code]; cbn [is_success].
  - unfold when, log, emit, ret.
    destruct (ngc mod ProgressEveryNGainChanges =? 0);
      cbn [after_trace fst snd app];
      eexists _, _, pre, _; (split; [reflexivity |]);
      (split; [exact Hpre |]); (split; [| auto]);
      rewrite ?app_nil_r; try exact Hlogs.
    apply Forall_app. split; [exact Hlogs |]. repeat constructor.
  - unfold release_and_close, log, emit, exit, call, bind, ret, after_trace.
    cbn.
    destruct (sdrplay_api_ReleaseDevice d') as [e1 d1]. cbn.
    destruct (sdrplay_api_Close d1) as [e2 d2]. cbn.
    eexists _, _, pre, _. split; [reflexivity |].
    split; [exact Hpre |]. split; [| auto].
    rewrite ?app_nil_r. apply Forall_app. split; [exact Hlogs |].
    repeat constructor.
Qed.

(** The request writes no timeout warning, whatever its outcome. *)
Lemma quiet_not_warning (t : list Event) :
  Forall quiet t -> Forall (fun e => e <> Log MsgTimeout) t.
Proof.
  induction 1 as [| e t He _ IH]; constructor; [| exact IH].
  intros ->. exact He.
Qed.

Lemma request_never_warns (ngc : Z) (w : World D) :
  Forall (fun e => e <> Log MsgTimeout) (snd (request_gain_change cfg ngc w)).
Proof.
  unfold request_gain_change.
  rewrite (bind_Ret _ _ _ _ _ _ (usleep_run _ w)).
  pose proof (quiet_not_warning _ (usleep_quiet (wait_time cfg) w)) as Hpre.
  set (pre := snd (usleep (wait_time cfg) w)) in *.
  set (w1 := snd (fst (usleep (wait_time cfg) w))).
  destruct (pure_next_gain ngc w1) as [[gl | c | y] Hnext].
  2: { rewrite (bind_Exit _ _ _ _ _ _ Hnext). cbn. now rewrite app_nil_r. }
  2: { rewrite (bind_Stuck _ _ _ _ _ _ Hnext). cbn. now rewrite app_nil_r. }
  rewrite (bind_Ret _ _ _ _ _ _ Hnext).
  unfold bind, get, set_device_params, reset_flag, call_Update.
  cbn [fst snd dev device_params rx_context gain_gRdB gain_LNAstate set_gain].
  destruct (sdrplay_api_Update _ (dev w1)) as [[err ds] d'].
  pose proof (run_callbacks_quiet ds
    {| total_samples := total_samples (rx_context w1);
       next_sample_num := next_sample_num (rx_context w1);
       gain_reduction_changed := 0;
       verbose := verbose (rx_context w1) |}) as Hlogs.
  destruct (run_callbacks ds _) as [rx' logs].
  cbn [snd] in Hlogs. apply quiet_not_warning in Hlogs.
  destruct err as [| code]; cbn [is_success].
  - unfold when, log, emit, ret.
    destruct (ngc mod ProgressEveryNGainChanges =? 0);
      cbn [after_trace fst snd app]; rewrite ?app_nil_r;
      apply Forall_app; (split; [exact Hpre |]);
      repeat (constructor; [discriminate |]);
      try exact Hlogs.
    apply Forall_app. split; [exact Hlogs |].
    repeat constructor. discriminate.
  - unfold release_and_close, log, emit, exit, call, bind, ret, after_trace.
    cbn.
    destruct (sdrplay_api_ReleaseDevice d') as [e1 d1]. cbn.
    destruct (sdrplay_api_Close d1) as [e2 d2]. cbn.
    apply Forall_app. split; [exact Hpre |].
    repeat (constructor; [discriminate |]).
    rewrite ?app_nil_r. apply Forall_app. split; [exact Hlogs |].
    repeat (constructor; [discriminate |]). constructor.
Qed.

End RequestFacts.

(** ** One gain change: request, wait, report *)

Section GainChangeFacts.

Import GainChanges.

Context {D : Type} {api : SdrplayApi D}.
Context (cfg : Config).

Lemma report_gain_change_run (ngc elapsed : Z) (w : World D) :
  report_gain_change cfg ngc elapsed w
  = (Ret tt, w,
     (if int_ne (cfg_verbose cfg) 0 then [Log (MsgElapsed ngc elapsed)] else [])
     ++ (if flag w =? 0 then [Log MsgTimeout] else [])).
Proof.
  unfold report_gain_change, bind, when, read_flag, log, emit, ret, flag.
  destruct (int_ne (cfg_verbose cfg) 0);
    destruct (gain_reduction_changed (rx_context w) =? 0); reflexivity.
Qed.

Lemma report_not_request (ngc elapsed : Z) (w : World D) :
  Forall (fun e => is_update_or_reset e = false)
         (snd (report_gain_change cfg ngc elapsed w)).
Proof.
  rewrite report_gain_change_run. cbn [snd].
  destruct (int_ne (cfg_verbose cfg) 0); destruct (flag w =? 0);
    repeat constructor.
Qed.

Lemma gain_change_run (ngc elapsed : Z) (w w1 w2 : World D) t1 t2 :
  request_gain_change cfg ngc w = (Ret tt, w1, t1) ->
  wait_for_gain_change poll_fuel 0 (-1) w1 = (Ret elapsed, w2, t2) ->
  gain_change cfg ngc w
  = (Ret tt, w2, t1 ++ t2 ++ snd (report_gain_change cfg ngc elapsed w2)).
Proof.
  intros Hreq Hwait. unfold gain_change.
  rewrite (bind_Ret _ _ _ _ _ _ Hreq), (bind_Ret _ _ _ _ _ _ Hwait).
  rewrite report_gain_change_run. reflexivity.
Qed.

(** A request that does not return leaves the loop body with it. *)
Lemma gain_change_exit (ngc c : Z) (w w1 : World D) t1 :
  request_gain_change cfg ngc w = (Exit c, w1, t1) ->
  gain_change cfg ngc w = (Exit c, w1, t1).
Proof. intros Hreq. unfold gain_change. now rewrite (bind_Exit _ _ _ _ _ _ Hreq). Qed.

(** The wait entered from the top: it always returns, after [j] rounds of
    [usleep(1)]; it returns before the bound only on reading 0 and then
    non-zero. *)
Lemma wait_from_start (w : World D) :
  exists j : nat,
    (j <= Z.to_nat UpdateTimeout)%nat /\
    wait_for_gain_change poll_fuel 0 (-1) w
    = (Ret (Z.of_nat j), after_sleeps j w, sleeps_trace j w) /\
    ((j < Z.to_nat UpdateTimeout)%nat ->
     exists i, j = S i /\ flag_after i w = 0 /\ flag_after (S i) w <> 0).
Proof.
  destruct (wait_for_gain_change_run poll_fuel O (-1) w) as (j & Hj & Hrun & Hb).
  - lia.
  - unfold poll_fuel. lia.
  - exists j. cbn [Nat.add Z.of_nat] in *. split; [exact Hj |].
    split; [exact Hrun |]. intros Hlt.
    destruct (Hb Hlt) as [(_ & Hp & _) | Hedge]; [discriminate Hp | exact Hedge].
Qed.

(** With the flag already set at entry the wait runs to the bound. *)
Lemma wait_with_flag_set (w : World D) :
  flag w <> 0 ->
  wait_for_gain_change poll_fuel 0 (-1) w
  = (Ret UpdateTimeout,
     after_sleeps (Z.to_nat UpdateTimeout) w,
     sleeps_trace (Z.to_nat UpdateTimeout) w).
Proof.
  intros Hset. destruct (wait_from_start w) as (j & Hj & Hrun & Hb).
  destruct (Nat.eq_dec j (Z.to_nat UpdateTimeout)) as [-> | Hne].
  - rewrite Hrun. reflexivity.
  - destruct Hb as (i & _ & H0 & _); [lia |].
    now apply (flag_after_keeps i w) in Hset.
Qed.

(** The loop over [ngc] goes on with the next index after a body that
    returns. *)
Lemma gain_changes_step (fuel : nat) (ngc : Z) (w w' : World D) t :
  ngc < num_gain_changes cfg ->
  gain_change cfg ngc w = (Ret tt, w', t) ->
  gain_changes cfg (S fuel) ngc w
  = after_trace t (gain_changes cfg fuel (wrap32 (ngc + 1)) w').
Proof.
  intros Hlt Hbody. cbn [gain_changes].
  destruct (Z.ltb_spec ngc (num_gain_changes cfg)); [| lia].
  now rewrite (bind_Ret _ _ _ _ _ _ Hbody).
Qed.

End GainChangeFacts.

(** ** The update-confirmation protocol *)

Section Protocol.

Import GainChanges Doubles.

(** C1: the wait loop returns before its bound only after reading the flag
    as 0 in one iteration and as non-zero in the next one; with the flag set
    at entry and no such pair of readings, it runs to the bound.  Here
    [flag_after i w] is what iteration [i] reads, and the loop always
    returns, after [j] calls of [usleep(1)], with [elapsed = j]. *)
Theorem wait_returns_early_only_on_edge {D : Type} {api : SdrplayApi D}
    (w : World D) :
  exists j : nat,
    (j <= Z.to_nat UpdateTimeout)%nat /\
    wait_for_gain_change poll_fuel 0 (-1) w
    = (Ret (Z.of_nat j), after_sleeps j w, sleeps_trace j w) /\
    length (List.filter is_usleep1 (sleeps_trace j w)) = j /\
    (Z.of_nat j < UpdateTimeout ->
     exists i, j = S i /\ flag_after i w = 0 /\ flag_after (S i) w <> 0) /\
    (flag w <> 0 ->
     (forall i, (S i < Z.to_nat UpdateTimeout)%nat ->
                ~ (flag_after i w = 0 /\ flag_after (S i) w <> 0)) ->
     Z.of_nat j = UpdateTimeout).
Proof.
  destruct (wait_from_start w) as (j & Hj & Hrun & Hb).
  exists j. split; [exact Hj |]. split; [exact Hrun |].
  split; [apply sleeps_trace_count |]. split.
  - intros Hlt. apply Hb. unfold UpdateTimeout in *. lia.
  - intros _ Hnone.
    destruct (Nat.eq_dec j (Z.to_nat UpdateTimeout)) as [-> | Hne].
    + reflexivity.
    + destruct Hb as (i & -> & H0 & H1); [lia |].
      exfalso. apply (Hnone i); [lia | now split].
Qed.

(** With the flag left set and a device that delivers nothing, the wait
    returns [UpdateTimeout]. *)
Lemma wait_returns_early_only_on_edge_witness :
  fst (fst (wait_for_gain_change (api := silent) poll_fuel 0 (-1) stale_world))
  = Ret UpdateTimeout.
Proof.
  destruct (wait_returns_early_only_on_edge (api := silent) stale_world)
    as (j & _ & Hrun & _ & _ & Hstale).
  rewrite Hrun. cbn [fst]. f_equal. apply Hstale.
  - vm_compute. discriminate.
  - intros i _ [H0 _]. revert H0.
    apply (flag_after_keeps (api := silent)). vm_compute. discriminate.
Defined.

(** Lines of the timeout warning in a trace. *)
Lemma quiet_not_timeout (t : list Event) :
  Forall quiet t -> ~ In (Log MsgTimeout) t.
Proof.
  intros Hq Hin. rewrite Forall_forall in Hq.
  apply list_elem_of_In, Hq in Hin. exact Hin.
Qed.

(** C2, as stated, fails: with the double that signals inside
    [sdrplay_api_Update], the wait after the first request runs to the
    bound, no iteration reads the flag as 0 (so no change from 0 to
    non-zero is seen), and yet no timeout warning is written. *)
Lemma bound_reached_without_warning :
  request_gain_change (api := synchronous) (options [40; 20; 60] [0; 1] 3) 1
    (world 0)
  = (Ret tt, sync_entry, [Usleep 0; FlagReset; Call (Update 20 1)]) /\
  fst (fst (wait_for_gain_change (api := synchronous) poll_fuel 0 (-1)
              sync_entry)) = Ret UpdateTimeout /\
  (forall i, flag_after (api := synchronous) i sync_entry <> 0) /\
  ~ In (Log MsgTimeout)
       (snd (gain_change (api := synchronous) (options [40; 20; 60] [0; 1] 3)
               1 (world 0))).
Proof.
  assert (flag sync_entry <> 0) as Hset by (vm_compute; discriminate).
  assert (request_gain_change (api := synchronous)
            (options [40; 20; 60] [0; 1] 3) 1 (world 0)
          = (Ret tt, sync_entry, [Usleep 0; FlagReset; Call (Update 20 1)]))
    as Hreq by reflexivity.
  pose proof (wait_with_flag_set (api := synchronous) sync_entry Hset) as Hwait.
  split; [exact Hreq |]. split; [now rewrite Hwait |].
  split; [intros i; now apply flag_after_keeps |].
  rewrite (gain_change_run _ _ _ _ _ _ _ _ Hreq Hwait).
  rewrite report_gain_change_run. cbn [snd].
  pose proof (flag_after_keeps (api := synchronous)
                (Z.to_nat UpdateTimeout) sync_entry Hset) as Hend.
  unfold flag_after in Hend. apply Z.eqb_neq in Hend. rewrite Hend.
  rewrite !in_app_iff. intros [Hin | [Hin | [Hin | Hin]]].
  - cbn in Hin. intuition discriminate.
  - revert Hin. apply quiet_not_timeout, sleeps_trace_quiet.
  - cbn in Hin. intuition discriminate.
  - destruct Hin.
Qed.

(** C2, amended: after a request that returned, the body of the loop
    returns too (no exit); its trace is the request, [j] rounds of
    [usleep(1)] and the report, with no further update request or flag
    reset; the timeout warning is written exactly when the flag reads 0
    after the loop, which is the case only if the loop ran to the bound of
    10000 iterations; and the loop over [ngc] goes on with [ngc + 1]. *)
Theorem timeout_is_reported_and_not_fatal {D : Type} {api : SdrplayApi D}
    (cfg : Config) (ngc : Z) (w w1 : World D) (t1 : list Event) :
  request_gain_change cfg ngc w = (Ret tt, w1, t1) ->
  exists (j : nat) (t3 : list Event),
    (j <= Z.to_nat UpdateTimeout)%nat /\
    wait_for_gain_change poll_fuel 0 (-1) w1
    = (Ret (Z.of_nat j), after_sleeps j w1, sleeps_trace j w1) /\
    gain_change cfg ngc w
    = (Ret tt, after_sleeps j w1, t1 ++ sleeps_trace j w1 ++ t3) /\
    Forall (fun e => is_update_or_reset e = false) (sleeps_trace j w1 ++ t3) /\
    (flag_after j w1 = 0 ->
     Z.of_nat j = UpdateTimeout /\
     length (List.filter is_usleep1 (sleeps_trace j w1))
     = Z.to_nat UpdateTimeout /\
     last t3 = Some (Log MsgTimeout)) /\
    (flag_after j w1 <> 0 ->
     ~ In (Log MsgTimeout) (t1 ++ sleeps_trace j w1 ++ t3)) /\
    (forall fuel, ngc < num_gain_changes cfg ->
       gain_changes cfg (S fuel) ngc w
       = after_trace (t1 ++ sleeps_trace j w1 ++ t3)
           (gain_changes cfg fuel (wrap32 (ngc + 1)) (after_sleeps j w1))).
Proof.
  intros Hreq.
  destruct (wait_from_start w1) as (j & Hj & Hwait & Hb).
  pose proof (gain_change_run cfg _ _ _ _ _ _ _ Hreq Hwait) as Hbody.
  exists j, (snd (report_gain_change cfg ngc (Z.of_nat j) (after_sleeps j w1))).
  split; [exact Hj |]. split; [exact Hwait |]. split; [exact Hbody |].
  split.
  { apply Forall_app. split.
    - apply Forall_quiet_not_request, sleeps_trace_quiet.
    - apply report_not_request. }
  split; [| split; [| intros fuel Hlt;
                      exact (gain_changes_step cfg fuel ngc w _ _ Hlt Hbody)]];
    rewrite report_gain_change_run; cbn [snd]; fold (flag_after j w1).
  - intros Hzero.
    assert (j = Z.to_nat UpdateTimeout) as ->.
    { destruct (Nat.eq_dec j (Z.to_nat UpdateTimeout)) as [E | Hne]; [exact E |].
      destruct Hb as (i & -> & _ & H1); [lia | contradiction]. }
    split; [reflexivity |]. split; [apply sleeps_trace_count |].
    rewrite Hzero. cbn [Z.eqb]. rewrite last_snoc. reflexivity.
  - intros Hset. apply Z.eqb_neq in Hset. rewrite Hset, app_nil_r.
    rewrite !in_app_iff. intros [Hin | [Hin | Hin]].
    + pose proof (request_never_warns cfg ngc w) as Hquiet.
      rewrite Hreq in Hquiet. cbn [snd] in Hquiet.
      rewrite Forall_forall in Hquiet.
      apply list_elem_of_In, Hquiet in Hin. now apply Hin.
    + revert Hin. apply quiet_not_timeout, sleeps_trace_quiet.
    + destruct (int_ne (cfg_verbose cfg) 0); cbn in Hin; intuition discriminate.
Qed.

(** The first change against the double that never signals: the request
    returns, and so does the body of the loop. *)
Lemma timeout_is_reported_and_not_fatal_witness :
  request_gain_change (api := silent) (options [40; 20; 60] [0; 1] 3) 1
    (world tt)
  = (Ret tt, silent_entry, [Usleep 0; FlagReset; Call (Update 20 1)]) /\
  fst (fst (gain_change (api := silent) (options [40; 20; 60] [0; 1] 3) 1
              (world tt))) = Ret tt.
Proof.
  split; [reflexivity |].
  destruct (timeout_is_reported_and_not_fatal (api := silent)
              (options [40; 20; 60] [0; 1] 3) 1 (world tt) silent_entry
              [Usleep 0; FlagReset; Call (Update 20 1)] eq_refl)
    as (j & t3 & _ & _ & Hbody & _).
  rewrite Hbody. reflexivity.
Defined.

(** C3, as stated, fails: the double [synchronous] sets the flag inside
    [sdrplay_api_Update], the flag reads 1 when the wait starts, and the
    wait does not return early: it returns [elapsed = UpdateTimeout] after
    10000 calls of [usleep(1)]. *)
Lemma synchronous_signal_is_not_seen_early :
  request_gain_change (api := synchronous) (options [40; 20; 60] [0; 1] 3) 1
    (world 0)
  = (Ret tt, sync_entry, [Usleep 0; FlagReset; Call (Update 20 1)]) /\
  flag sync_entry = 1 /\
  exists w' t,
    wait_for_gain_change (api := synchronous) poll_fuel 0 (-1) sync_entry
    = (Ret UpdateTimeout, w', t) /\
    length (List.filter is_usleep1 t) = Z.to_nat UpdateTimeout.
Proof.
  split; [reflexivity |]. split; [reflexivity |].
  eexists _, _. split.
  - apply wait_with_flag_set. vm_compute. discriminate.
  - apply sleeps_trace_count.
Qed.

(** C3, amended: when the flag is already non-zero as the wait starts (the
    device layer signalled inside the update call), the wait runs to its
    bound of 10000 iterations instead of returning early, and the report
    that follows writes no timeout warning: the body returns with the
    trace of the request, the 10000 rounds of [usleep(1)] and, if verbose,
    the elapsed line. *)
Theorem synchronous_signal_waits_out_the_bound {D : Type} {api : SdrplayApi D}
    (cfg : Config) (ngc : Z) (w w1 : World D) (t1 : list Event) :
  request_gain_change cfg ngc w = (Ret tt, w1, t1) ->
  flag w1 <> 0 ->
  let n := Z.to_nat UpdateTimeout in
  wait_for_gain_change poll_fuel 0 (-1) w1
  = (Ret UpdateTimeout, after_sleeps n w1, sleeps_trace n w1) /\
  length (List.filter is_usleep1 (sleeps_trace n w1)) = n /\
  gain_change cfg ngc w
  = (Ret tt, after_sleeps n w1,
     t1 ++ sleeps_trace n w1 ++
     (if int_ne (cfg_verbose cfg) 0
      then [Log (MsgElapsed ngc UpdateTimeout)] else [])) /\
  ~ In (Log MsgTimeout) (snd (gain_change cfg ngc w)).
Proof.
  intros Hreq Hset n.
  pose proof (wait_with_flag_set w1 Hset) as Hwait. fold n in Hwait.
  split; [exact Hwait |]. split; [apply sleeps_trace_count |].
  pose proof (flag_after_keeps n w1 Hset) as Hend.
  unfold flag_after in Hend. apply Z.eqb_neq in Hend.
  assert (gain_change cfg ngc w
          = (Ret tt, after_sleeps n w1,
             t1 ++ sleeps_trace n w1 ++
             (if int_ne (cfg_verbose cfg) 0
              then [Log (MsgElapsed ngc UpdateTimeout)] else []))) as Hbody.
  { rewrite (gain_change_run cfg _ _ _ _ _ _ _ Hreq Hwait).
    rewrite report_gain_change_run. cbn [snd]. rewrite Hend, app_nil_r.
    reflexivity. }
  split; [exact Hbody |].
  rewrite Hbody. cbn [snd]. rewrite !in_app_iff. intros [Hin | [Hin | Hin]].
  - pose proof (request_never_warns cfg ngc w) as Hquiet.
    rewrite Hreq in Hquiet. cbn [snd] in Hquiet.
    rewrite Forall_forall in Hquiet.
    apply list_elem_of_In, Hquiet in Hin. now apply Hin.
  - revert Hin. apply quiet_not_timeout, sleeps_trace_quiet.
  - destruct (int_ne (cfg_verbose cfg) 0); cbn in Hin; intuition discriminate.
Qed.

(** The first change against the double that signals inside the update
    call. *)
Lemma synchronous_signal_waits_out_the_bound_witness :
  fst (fst (gain_change (api := synchronous) (options [40; 20; 60] [0; 1] 3) 1
              (world 0))) = Ret tt /\
  fst (fst (wait_for_gain_change (api := synchronous) poll_fuel 0 (-1)
              sync_entry)) = Ret UpdateTimeout.
Proof.
  destruct (synchronous_signal_waits_out_the_bound (api := synchronous)
              (options [40; 20; 60] [0; 1] 3) 1 (world 0) sync_entry
              [Usleep 0; FlagReset; Call (Update 20 1)] eq_refl)
    as (Hwait & _ & Hbody & _).
  - vm_compute. discriminate.
  - rewrite Hwait, Hbody. split; reflexivity.
Defined.

Lemma filter_none {A} (f : A -> bool) (t : list A) :
  Forall (fun e => f e = false) t -> List.filter f t = [].
Proof.
  induction 1 as [| e t He _ IH]; [reflexivity |].
  cbn [List.filter]. now rewrite He.
Qed.

(** The requests of the whole loop: started at [ngc] with enough fuel, it
    never gets stuck, and when it returns it has made one flag reset
    followed at once by one update request for each index from [ngc] to
    [num_gain_changes - 1], and no other. *)
Lemma gain_changes_requests {D : Type} {api : SdrplayApi D} (cfg : Config) :
  gRdBs cfg <> [] -> LNAstates cfg <> [] ->
  ngRdBs cfg < 2 ^ 31 -> nLNAstates cfg < 2 ^ 31 ->
  num_gain_changes cfg <= UINT_MAX ->
  forall (n fuel : nat) (ngc : Z) (w : World D),
    1 <= ngc -> ngc + Z.of_nat n = num_gain_changes cfg -> (n < fuel)%nat ->
    exists r w' t,
      gain_changes cfg fuel ngc w = (r, w', t) /\
      (r = Ret tt \/ r = Exit 1) /\
      (r = Ret tt -> List.filter is_update_or_reset t = requests_from cfg n ngc).
Proof.
  intros Hg Hl Hgn Hln Hmax.
  induction n as [| n IH]; intros fuel ngc w Hngc Hn Hfuel;
    (destruct fuel as [| fuel]; [lia |]); cbn [gain_changes].
  - destruct (Z.ltb_spec ngc (num_gain_changes cfg)); [lia |].
    eexists _, _, _. split; [reflexivity |]. split; [now left |].
    reflexivity.
  - destruct (Z.ltb_spec ngc (num_gain_changes cfg)) as [Hlt | ?]; [| lia].
    destruct (next_gain_run cfg ngc w Hg Hl) as (g & l & Hgv & Hlv & Hnext);
      [lia | lia | lia |].
    destruct (request_gain_change_run cfg ngc g l w Hnext)
      as (r & w1 & pre & post & Hreq & Hpre & Hpost & _ & _ & [-> | ->]).
    + destruct (wait_from_start w1) as (j & _ & Hwait & _).
      rewrite (bind_Ret _ _ _ _ _ _
                 (gain_change_run cfg _ _ _ _ _ _ _ Hreq Hwait)).
      assert (wrap32 (ngc + 1) = ngc + 1) as ->.
      { unfold wrap32, UINT_MAX in *. apply Z.mod_small. lia. }
      destruct (IH fuel (ngc + 1) (after_sleeps j w1))
        as (r & w' & t & Hrest & Hr & Hcount); [lia | lia | lia |].
      rewrite Hrest, after_trace_pair.
      eexists _, _, _. split; [reflexivity |]. split; [exact Hr |].
      intros ->. rewrite !List.filter_app, (Hcount eq_refl).
      rewrite (filter_none _ pre) by now apply Forall_quiet_not_request.
      rewrite (filter_none _ post) by exact Hpost.
      rewrite (filter_none _ (sleeps_trace j w1))
        by apply Forall_quiet_not_request, sleeps_trace_quiet.
      rewrite (filter_none _ (snd (report_gain_change _ _ _ _)))
        by apply report_not_request.
      cbn [List.filter is_update_or_reset app requests_from].
      rewrite !nth_lookup, Hgv, Hlv. reflexivity.
    + rewrite (bind_Exit _ _ _ _ _ _ (gain_change_exit cfg _ _ _ _ _ Hreq)).
      eexists _, _, _. split; [reflexivity |]. split; [now right |].
      discriminate.
Qed.

Lemma filter_filter_implied {A} (f g : A -> bool) (t : list A) :
  (forall e, f e = true -> g e = true) ->
  List.filter f (List.filter g t) = List.filter f t.
Proof.
  intros Himp. induction t as [| e t IH]; [reflexivity |].
  cbn [List.filter]. destruct (g e) eqn:Hge; cbn [List.filter].
  - now rewrite IH.
  - destruct (f e) eqn:Hfe; [| exact IH].
    apply Himp in Hfe. congruence.
Qed.

Lemma requests_from_updates {cfg : Config} (n : nat) : forall ngc,
  length (List.filter is_update (requests_from cfg n ngc)) = n.
Proof.
  induction n as [| n IH]; intros ngc; [reflexivity |].
  cbn [requests_from List.filter is_update length]. now rewrite IH.
Qed.

(** The loop as [main] starts it: when it returns, it has issued
    [num_gain_changes - 1] update requests. *)
Lemma gain_changes_issue_one_fewer {D : Type} {api : SdrplayApi D}
    (cfg : Config) (w : World D) :
  gRdBs cfg <> [] -> LNAstates cfg <> [] ->
  ngRdBs cfg < 2 ^ 31 -> nLNAstates cfg < 2 ^ 31 ->
  1 <= num_gain_changes cfg <= UINT_MAX ->
  exists r w' t,
    gain_changes cfg (gain_changes_fuel cfg) 1 w = (r, w', t) /\
    (r = Ret tt \/ r = Exit 1) /\
    (r = Ret tt ->
     length (List.filter is_update t) = Z.to_nat (num_gain_changes cfg - 1)).
Proof.
  intros Hg Hl Hgn Hln Hnum.
  destruct (gain_changes_requests cfg Hg Hl Hgn Hln (proj2 Hnum)
              (Z.to_nat (num_gain_changes cfg - 1)) (gain_changes_fuel cfg) 1 w)
    as (r & w' & t & Hrun & Hr & Hreq);
    [lia | lia | unfold gain_changes_fuel; lia |].
  exists r, w', t. split; [exact Hrun |]. split; [exact Hr |].
  intros ->.
  rewrite <- (filter_filter_implied is_update is_update_or_reset).
  - rewrite (Hreq eq_refl). apply requests_from_updates.
  - intros [[] | | |]; cbn; congruence.
Qed.

(** C4 (the code issues one update fewer than the configured count): run
    with a count of 3 against the cooperative double, [main] returns 0
    after two flag resets, each followed at once by an update request. *)
Theorem count_three_issues_two_updates :
  fst (fst (main (api := cooperative) header (options [40; 20; 60] [0; 1] 3)
              rsp1a (world (None, 0)))) = Ret 0 /\
  List.filter is_update_or_reset
    (snd (main (api := cooperative) header (options [40; 20; 60] [0; 1] 3)
            rsp1a (world (None, 0))))
  = [FlagReset; Call (Update 20 1); FlagReset; Call (Update 60 0)].
Proof. split; vm_compute; reflexivity. Qed.



End Protocol.

(** ** The read-back verification *)

Section ReadbackFacts.

Import GainChanges Doubles.

Context {D : Type} {api : SdrplayApi D}.
Context (hdr : VendorHeader) (cfg : Config) (device : sdrplay_api_DeviceT).

Lemma call_run (c : ApiCall) (f : D -> sdrplay_api_ErrT * D) (w : World D)
    err d' :
  f (dev w) = (err, d') ->
  call c f w = (Ret err, mkWorld d' (device_params w) (rx_context w), [Call c]).
Proof. intros Hf. unfold call. now rewrite Hf. Qed.

Lemma call_Init_run (callbacks : bool) (w : World D) err p' d' :
  sdrplay_api_Init callbacks (device_params w) (dev w) = (err, p', d') ->
  call_Init callbacks w
  = (Ret err, mkWorld d' p' (rx_context w), [Call (Init callbacks)]).
Proof. intros Hf. unfold call_Init. now rewrite Hf. Qed.

(** Tear-down never fails the run by itself: error codes are ignored. *)
Lemma release_and_close_run (w : World D) :
  exists w', release_and_close w
             = (Ret tt, w', [Call ReleaseDevice; Call Close]).
Proof.
  unfold release_and_close, bind, call, ret.
  destruct (sdrplay_api_ReleaseDevice (dev w)) as [e1 d1]. cbn.
  destruct (sdrplay_api_Close d1) as [e2 d2]. cbn. eauto.
Qed.

(** The checks one after the other: [init_ok] stays set only while no
    checked value differs, and each difference writes its line. *)
Lemma readback_fold g0 l0 p (fs : list CheckedField) : forall acc,
  fold_left (unexpected_change hdr cfg device g0 l0 p) fs acc
  = (fst acc && forallb (fun f => negb (differs hdr cfg device g0 l0 p f)) fs,
     snd acc ++ List.map MsgUnexpectedChange
                  (List.filter (differs hdr cfg device g0 l0 p) fs)).
Proof.
  induction fs as [| f fs IH]; intros [ok lines]; cbn [fold_left].
  - cbn. now rewrite andb_true_r, app_nil_r.
  - rewrite IH. unfold unexpected_change.
    cbn [forallb List.filter fst snd].
    destruct (differs hdr cfg device g0 l0 p f); cbn [negb andb fst snd List.map].
    + rewrite andb_false_r, <- app_assoc. reflexivity.
    + reflexivity.
Qed.

Lemma all_fields_checked (f : CheckedField) : In f checked_fields.
Proof. destruct f; cbn; tauto. Qed.

Lemma readback_mismatch g0 l0 p (f : CheckedField) :
  differs hdr cfg device g0 l0 p f = true ->
  fst (readback hdr cfg device g0 l0 p) = false /\
  In (MsgUnexpectedChange f) (snd (readback hdr cfg device g0 l0 p)).
Proof.
  intros Hf. unfold readback. rewrite readback_fold. cbn [fst snd andb app].
  split.
  - apply not_true_is_false. intros Hall.
    rewrite forallb_forall in Hall.
    specialize (Hall f (all_fields_checked f)). now rewrite Hf in Hall.
  - apply in_map, filter_In. split; [apply all_fields_checked | exact Hf].
Qed.

Lemma readback_match g0 l0 p :
  (forall f, differs hdr cfg device g0 l0 p f = false) ->
  readback hdr cfg device g0 l0 p = (true, []).
Proof.
  intros Hall. unfold readback. rewrite readback_fold. cbn [fst snd andb app].
  f_equal.
  - apply forallb_forall. intros f _. now rewrite Hall.
  - induction checked_fields as [| f fs IH]; [reflexivity |].
    cbn [List.filter]. now rewrite Hall.
Qed.

(** [main] up to the read-back check, when the two vendor calls succeed. *)
Lemma main_up_to_readback (w : World D) d1 g0 l0 p2 d2 :
  sdrplay_api_GetDeviceParams (dev w) = (sdrplay_api_Success, d1) ->
  gRdBs cfg !! 0%nat = Some g0 ->
  LNAstates cfg !! 0%nat = Some l0 ->
  sdrplay_api_Init false (write_settings hdr cfg g0 l0) d1
  = (sdrplay_api_Success, p2, d2) ->
  main hdr cfg device w
  = after_trace
      ([Call GetDeviceParams; Call (Init false); Log (MsgSettings device p2)]
       ++ List.map Log (snd (readback hdr cfg device g0 l0 p2)))
      (((if negb (fst (readback hdr cfg device g0 l0 p2))
         then (call Uninit sdrplay_api_Uninit ;; release_and_close ;; exit 1)
         else ret tt) ;;
        let* err := call Uninit sdrplay_api_Uninit in
        or_die Uninit err release_and_close ;;
        streaming cfg)%prog
         (mkWorld d2 p2 (rx_context w))).
Proof.
  intros Hget Hg0 Hl0 Hinit. unfold main.
  rewrite (bind_Ret _ _ _ _ _ _ (call_run _ _ w _ _ Hget)).
  cbn [or_die is_success].
  unfold bind at 1. unfold ret at 1. cbn [app].
  rewrite (bind_Ret _ _ _ _ _ _ (array_read_run _ 0 _ _ (Z.le_refl 0) Hg0)).
  rewrite (bind_Ret _ _ _ _ _ _ (array_read_run _ 0 _ _ (Z.le_refl 0) Hl0)).
  rewrite !after_trace_nil.
  unfold bind at 1. unfold set_device_params at 1.
  cbn [dev device_params rx_context app].
  rewrite (bind_Ret _ _ _ _ _ _
             (call_Init_run false (mkWorld d1 _ _) _ _ _ Hinit)).
  cbn [or_die is_success].
  unfold bind at 1. unfold ret at 1. cbn [app].
  unfold bind at 1. unfold get at 1. cbn [app device_params].
  unfold bind at 1. unfold log at 1. unfold emit at 1.
  unfold bind at 1. unfold log_all at 1.
  destruct (bind _ _ _) as [[r w'] t].
  unfold after_trace. cbn [fst snd app]. reflexivity.
Qed.

(** The checked values: when a value checked after the quick-check
    initialisation differs
    from the configured one (any of: tuner, RSPduo mode and sample
    frequency, sample rate, decimation enable and factor, IF type,
    bandwidth, gain reduction, LNA state, DC and IQ correction enables, the
    four DC calibration parameters, centre frequency), [main] writes the
    line for it, calls Uninit, ReleaseDevice and Close, and exits with
    status 1; [sdrplay_api_Init] is never called with the real
    callbacks. *)
Theorem readback_mismatch_is_fatal (w : World D) d1 g0 l0 p2 d2
    (f : CheckedField) :
  sdrplay_api_GetDeviceParams (dev w) = (sdrplay_api_Success, d1) ->
  gRdBs cfg !! 0%nat = Some g0 ->
  LNAstates cfg !! 0%nat = Some l0 ->
  sdrplay_api_Init false (write_settings hdr cfg g0 l0) d1
  = (sdrplay_api_Success, p2, d2) ->
  differs hdr cfg device g0 l0 p2 f = true ->
  exists w' lines,
    main hdr cfg device w
    = (Exit 1, w',
       [Call GetDeviceParams; Call (Init false); Log (MsgSettings device p2)]
       ++ List.map Log lines
       ++ [Call Uninit; Call ReleaseDevice; Call Close]) /\
    In (MsgUnexpectedChange f) lines /\
    ~ In (Call (Init true)) (snd (main hdr cfg device w)).
Proof.
  intros Hget Hg0 Hl0 Hinit Hf.
  destruct (readback_mismatch g0 l0 p2 f Hf) as [Hok Hline].
  rewrite (main_up_to_readback w d1 g0 l0 p2 d2 Hget Hg0 Hl0 Hinit).
  rewrite Hok. cbn [negb].
  set (lines := snd (readback hdr cfg device g0 l0 p2)) in *.
  set (w2 := mkWorld d2 p2 (rx_context w)).
  assert (exists w', (call Uninit sdrplay_api_Uninit ;; release_and_close ;;
                      exit (A := unit) 1)%prog w2
                     = (Exit 1, w', [Call Uninit; Call ReleaseDevice; Call Close]))
    as [w' Hdown].
  { destruct (sdrplay_api_Uninit (dev w2)) as [e0 d0] eqn:Hun.
    rewrite (bind_Ret _ _ _ _ _ _ (call_run Uninit _ w2 _ _ Hun)).
    destruct (release_and_close_run (mkWorld d0 (device_params w2) (rx_context w2)))
      as [w' Hrc].
    rewrite (bind_Ret _ _ _ _ _ _ Hrc). unfold exit, after_trace. cbn.
    eauto. }
  rewrite (bind_Exit _ _ _ _ _ _ Hdown). rewrite after_trace_pair.
  exists w', lines. rewrite <- app_assoc. split; [reflexivity |].
  split; [exact Hline |].
  cbn [snd]. rewrite !in_app_iff, in_map_iff. cbn [In].
  intros [H | [(m & H & _) | H]]; intuition discriminate.
Qed.



(** The AGC setting, though written before the quick check, is not among
    the values read back. *)
Lemma readback_ignores_agc g0 l0 p mode :
  readback hdr cfg device g0 l0 (force_agc mode p)
  = readback hdr cfg device g0 l0 p.
Proof. reflexivity. Qed.

End ReadbackFacts.

(** A centre frequency of 3 GHz against the double that clamps it to
    2 GHz. *)
Lemma readback_mismatch_is_fatal_witness :
  fst (fst (GainChanges.main (api := Doubles.clamping) Doubles.header
              Doubles.options_3GHz Doubles.rsp1a (Doubles.world tt)))
  = Exit 1 /\
  ~ In (GainChanges.Call (GainChanges.Init true))
       (snd (GainChanges.main (api := Doubles.clamping) Doubles.header
               Doubles.options_3GHz Doubles.rsp1a (Doubles.world tt))).
Proof.
  destruct (readback_mismatch_is_fatal (api := Doubles.clamping)
              Doubles.header Doubles.options_3GHz Doubles.rsp1a
              (Doubles.world tt) tt 40 0
              (Doubles.clamp_rfHz
                 (GainChanges.write_settings Doubles.header
                    Doubles.options_3GHz 40 0))
              tt GainChanges.F_rfHz)
    as (w' & lines & Hrun & _ & Hno).
  - reflexivity.
  - reflexivity.
  - reflexivity.
  - reflexivity.
  - vm_compute. reflexivity.
  - split; [rewrite Hrun; reflexivity | exact Hno].
Defined.


(** The AGC mode, which is not among the values compared: against a
    double that turns the AGC on during the quick-check initialisation,
    the device parameters hold an AGC mode other than the
    [sdrplay_api_AGC_DISABLE] written, no "unexpected change" line is
    written, and [main] goes on to initialise with the real callbacks and
    returns 0. *)
Lemma agc_change_passes_readback :
  GainChanges.agc_enable
    (Doubles.force_agc 2
       (GainChanges.write_settings Doubles.header
          (Doubles.options [40] [0] 1) 40 0))
  <> GainChanges.sdrplay_api_AGC_DISABLE Doubles.header /\
  GainChanges.main (api := Doubles.agc_forcing) Doubles.header
    (Doubles.options [40] [0] 1) Doubles.rsp1a (Doubles.world tt)
  = (Ret 0,
     GainChanges.mkWorld tt
       (Doubles.force_agc 2
          (GainChanges.write_settings Doubles.header
             (Doubles.options [40] [0] 1) 40 0))
       Doubles.blank_rx_context,
     [GainChanges.Call GainChanges.GetDeviceParams;
      GainChanges.Call (GainChanges.Init false);
      GainChanges.Log
        (GainChanges.MsgSettings Doubles.rsp1a
           (Doubles.force_agc 2
              (GainChanges.write_settings Doubles.header
                 (Doubles.options [40] [0] 1) 40 0)));
      GainChanges.Call GainChanges.Uninit;
      GainChanges.Call (GainChanges.Init true);
      GainChanges.Log GainChanges.MsgBlank;
      GainChanges.Log (GainChanges.MsgChangingGains 0);
      GainChanges.Call GainChanges.Uninit;
      GainChanges.Call GainChanges.LockDeviceApi;
      GainChanges.Call GainChanges.ReleaseDevice;
      GainChanges.Call GainChanges.UnlockDeviceApi;
      GainChanges.Call GainChanges.Close]).
Proof. split; [vm_compute; discriminate | vm_compute; reflexivity]. Qed.

(** ** The sample callback: flag and sequence numbers *)

Section CallbackClaims.

Import GainChanges Doubles.

(** C7, as stated, fails: the first delivery (1000 samples from
    4294966295) records 4294967295 as the next expected index; the second
    one starts at 0, which differs from it, and no line is written. *)
Lemma wrapped_expected_index_hides_jump :
  next_sample_num
    (fst (run_callbacks [samples_at 4294966295 1000] blank_rx_context))
  = 4294967295 /\
  firstSampleNum (d_params (samples_at 0 1000)) <> 4294967295 /\
  snd (run_callbacks [samples_at 4294966295 1000; samples_at 0 1000]
         blank_rx_context) = [].
Proof. split; [| split]; [reflexivity | discriminate | reflexivity]. Qed.

(** C7, amended: a callback writes a jump warning exactly when the stored
    next expected index is not 4294967295 (the value it has before the first
    delivery, and after a delivery whose first index plus count is
    4294967295 modulo 2^32) and the delivered first index differs from it;
    every callback stores first index plus count modulo 2^32; before any
    delivery no warning is written; deliveries (0, 1000 samples) then
    (1000, 500 samples) write none, (0, 1000 samples) then one starting at
    2000 write one. *)
Theorem jump_warning_rule (params : sdrplay_api_StreamCbParamsT)
    (numSamples reset : Z) (rx : RXContext) :
  (forall a b,
     In (MsgJump a b) (snd (rx_callback params numSamples reset rx)) <->
     a = next_sample_num rx /\ b = firstSampleNum params /\
     next_sample_num rx <> 4294967295 /\
     firstSampleNum params <> next_sample_num rx) /\
  next_sample_num (fst (rx_callback params numSamples reset rx))
  = (firstSampleNum params + numSamples) mod 2 ^ 32 /\
  (forall a b,
     ~ In (MsgJump a b)
          (snd (rx_callback params numSamples reset
                  (initial_rx_context (options [40] [0] 1))))) /\
  snd (run_callbacks [samples_at 0 1000; samples_at 1000 500] blank_rx_context)
  = [] /\
  (forall n,
     snd (run_callbacks [samples_at 0 1000; samples_at 2000 n] blank_rx_context)
     = [MsgJump 1000 2000]).
Proof.
  split; [intros a b; apply rx_callback_jump |].
  split; [reflexivity |].
  split; [| split; [reflexivity | intros n; reflexivity]].
  intros a b Hin. apply rx_callback_jump in Hin as (_ & _ & Hs & _).
  now apply Hs.
Qed.

(** C8: the callback stores the bitwise OR of the flag and the delivered
    [grChanged], so a flag that is set stays set through one callback and
    through any sequence of callbacks; only the reset by [main] clears it. *)
Theorem callback_never_clears_flag (ds : list Delivery) (rx : RXContext) :
  gain_reduction_changed rx <> 0 ->
  (forall params numSamples reset,
     gain_reduction_changed (fst (rx_callback params numSamples reset rx))
     = Z.lor (gain_reduction_changed rx) (grChanged params) /\
     gain_reduction_changed (fst (rx_callback params numSamples reset rx))
     <> 0) /\
  gain_reduction_changed (fst (run_callbacks ds rx)) <> 0.
Proof.
  intros Hset. split.
  - intros params numSamples reset. split; [reflexivity |].
    rewrite rx_callback_flag. now apply lor_nonzero_l.
  - now apply run_callbacks_keep_flag.
Qed.

(** Two deliveries without [grChanged] on a flag that is set. *)
Lemma callback_never_clears_flag_witness :
  gain_reduction_changed
    (fst (run_callbacks [samples_at 0 1000; samples_at 1000 1000]
            (rx_context stale_world))) <> 0.
Proof.
  apply (callback_never_clears_flag
           [samples_at 0 1000; samples_at 1000 1000] (rx_context stale_world)).
  vm_compute. discriminate.
Defined.

End CallbackClaims.


(** ** The recording callback *)

Section RecorderFacts.

Import Recorder.

Context (now : timeval) (write_returns : Z -> list (option Z) -> Z -> Z).

Lemma pure_array_write samples i x : pure (array_write samples i x).
Proof.
  unfold array_write.
  destruct ((0 <=? i) && (i <? Z.of_nat (length samples)));
    [apply pure_ret | apply pure_stuck].
Qed.

Lemma pure_range_step x i mm : pure (range_step x i mm).
Proof.
  unfold range_step. apply pure_bind; [apply pure_array_read |].
  intros v. apply pure_ret.
Qed.

Lemma pure_store_i xi i samples : pure (store_i xi i samples).
Proof.
  unfold store_i. apply pure_bind; [apply pure_array_read |].
  intros v. apply pure_array_write.
Qed.

Lemma pure_store_q xq i samples : pure (store_q xq i samples).
Proof.
  unfold store_q. apply pure_bind; [apply pure_array_read |].
  intros v. apply pure_array_write.
Qed.

Lemma write_samples_trace xi xq numSamples fd (c : RXContextRecord) :
  exists r t,
    write_samples write_returns xi xq numSamples fd c = (r, c, t) /\
    Forall not_dropped t.
Proof.
  unfold write_samples, bind.
  destruct (pure_for_range numSamples (store_i xi) (pure_store_i xi)
              (loop_fuel numSamples) 0
              (replicate (Z.to_nat samples_len) None) c) as [r1 ->].
  destruct r1 as [s1 | code | y]; [| eauto | eauto].
  destruct (pure_for_range numSamples (store_q xq) (pure_store_q xq)
              (loop_fuel numSamples) 0 s1 c) as [r2 ->].
  destruct r2 as [s2 | code | y]; [| eauto | eauto].
  unfold emit, log, ret. cbn.
  destruct (write_returns fd s2 _ =? -1); [| destruct (int_ne _ _)];
    eexists _, _; (split; [reflexivity |]);
    repeat constructor; intros k; discriminate.
Qed.

(** The callback up to the sequence check: the line about dropped samples
    is written under the condition of the check, nothing else in the trace
    is such a line, and the next expected index is stored. *)
Lemma rx_callback_record_shape xi xq params numSamples reset
    (c : RXContextRecord) :
  exists r c' rest,
    rx_callback_record now write_returns xi xq params numSamples reset c
    = (r, c',
       (if int_ne (next_sample_num c) 4294967295
           && int_ne (firstSampleNum params) (next_sample_num c)
        then [Log (MsgDropped
                     (dropped_samples (next_sample_num c)
                        (firstSampleNum params)))]
        else []) ++ rest) /\
    next_sample_num c' = wrap32 (firstSampleNum params + numSamples) /\
    Forall not_dropped rest.
Proof.
  unfold rx_callback_record.
  unfold bind at 1. unfold get at 1.
  unfold bind at 1. unfold put at 1.
  unfold bind at 1. unfold get at 1.
  set (c1 := track_callback now numSamples c).
  change (next_sample_num c1) with (next_sample_num c).
  set (line := if int_ne (next_sample_num c) 4294967295
                  && int_ne (firstSampleNum params) (next_sample_num c)
               then _ else _).
  assert (when (int_ne (next_sample_num c) 4294967295
                && int_ne (firstSampleNum params) (next_sample_num c))
               (log (MsgDropped
                       (dropped_samples (next_sample_num c)
                          (firstSampleNum params)))) c1
          = (Ret tt, c1, line)) as Hwhen.
  { unfold when, log, emit, ret, line.
    destruct (int_ne (next_sample_num c) 4294967295
              && int_ne (firstSampleNum params) (next_sample_num c));
      reflexivity. }
  rewrite (bind_Ret _ _ _ _ _ _ Hwhen).
  unfold bind at 1. unfold put at 1.
  set (c2 := set_next_sample_num _ c1).
  unfold bind at 1.
  destruct (pure_for_range numSamples (range_step xi) (pure_range_step xi)
              (loop_fuel numSamples) 0 (SHRT_MAX, SHRT_MIN) c2) as [r1 ->].
  destruct r1 as [ir | code | y];
    [| exists (Exit code), c2, []; cbn; rewrite !app_nil_r; auto
     | exists (Stuck y), c2, []; cbn; rewrite !app_nil_r; auto].
  unfold bind at 1.
  destruct (pure_for_range numSamples (range_step xq) (pure_range_step xq)
              (loop_fuel numSamples) 0 (SHRT_MAX, SHRT_MIN) c2) as [r2 ->].
  destruct r2 as [qr | code | y];
    [| exists (Exit code), c2, []; cbn; rewrite !app_nil_r; auto
     | exists (Stuck y), c2, []; cbn; rewrite !app_nil_r; auto].
  unfold bind at 1. unfold get at 1.
  unfold bind at 1. unfold put at 1.
  unfold bind at 1. unfold get at 1.
  set (c3 := set_ranges ir qr c2).
  unfold when.
  destruct (0 <? output_fd c3).
  - destruct (write_samples_trace xi xq numSamples (output_fd c3) c3)
      as (r & t & -> & Ht).
    exists r, c3, t. cbn. split; [reflexivity |]. split; [reflexivity | exact Ht].
  - exists (Ret tt), c3, []. cbn. rewrite !app_nil_r. auto.
Qed.

(** The range loops return when the buffer holds [numSamples] samples. *)
Lemma range_loop_run (x : list Z) numSamples mm (c : RXContextRecord) :
  0 <= numSamples < 2 ^ 32 -> numSamples <= Z.of_nat (length x) ->
  exists mm',
    for_range (loop_fuel numSamples) 0 numSamples (range_step x) mm c
    = (Ret mm', c, []).
Proof.
  intros Hn Hlen.
  assert (forall k acc, 0 <= k < numSamples -> True ->
            exists acc', range_step x k acc c = (Ret acc', c, []) /\ True)
    as Hbody.
  { intros k acc Hk _. unfold range_step.
    destruct (lookup_lt_is_Some_2 x (Z.to_nat k)) as [v Hv]; [lia |].
    rewrite (bind_Ret _ _ _ _ _ _ (array_read_run x k v c (proj1 Hk) Hv)).
    eexists. split; [reflexivity | exact I]. }
  destruct (for_range_invariant (fun _ _ => True) numSamples (range_step x) c
              (proj2 Hn) Hbody (loop_fuel numSamples) 0 mm)
    as (mm' & Hrun & _); [lia | unfold loop_fuel; lia | exact I |].
  eauto.
Qed.

Lemma array_write_run (samples : list (option Z)) i x (c : RXContextRecord) :
  0 <= i < Z.of_nat (length samples) ->
  array_write samples i x c = (Ret (<[Z.to_nat i := Some x]> samples), c, []).
Proof.
  intros Hi. unfold array_write.
  destruct (Z.leb_spec 0 i); [| lia].
  destruct (Z.ltb_spec i (Z.of_nat (length samples))); [| lia].
  reflexivity.
Qed.

Lemma index_in_bounds numSamples i :
  numSamples <= 2048 -> 0 <= i < numSamples ->
  wrap32 (2 * i) = 2 * i /\ wrap32 (wrap32 (2 * i) + 1) = 2 * i + 1 /\
  0 <= 2 * i /\ 2 * i + 1 < samples_len.
Proof.
  intros Hn Hi. unfold wrap32, samples_len.
  rewrite (Z.mod_small (2 * i)) by lia.
  rewrite (Z.mod_small (2 * i + 1)) by lia. lia.
Qed.

(** The first interleaving loop fills the even positions. *)
Lemma store_i_loop_run (xi : list Z) numSamples (samples : list (option Z))
    (c : RXContextRecord) :
  0 <= numSamples <= 2048 -> numSamples <= Z.of_nat (length xi) ->
  Z.of_nat (length samples) = samples_len ->
  exists samples',
    for_range (loop_fuel numSamples) 0 numSamples (store_i xi) samples c
    = (Ret samples', c, []) /\
    Z.of_nat (length samples') = samples_len /\
    (forall (m : nat) v, Z.of_nat m < numSamples -> xi !! m = Some v ->
                         samples' !! (2 * m)%nat = Some (Some v)).
Proof.
  intros Hn Hlen Hbuf.
  set (I := fun k (s : list (option Z)) =>
              Z.of_nat (length s) = samples_len /\
              forall (m : nat) v, Z.of_nat m < k -> xi !! m = Some v ->
                                  s !! (2 * m)%nat = Some (Some v)).
  assert (forall k s, 0 <= k < numSamples -> I k s ->
            exists s', store_i xi k s c = (Ret s', c, []) /\ I (k + 1) s')
    as Hbody.
  { intros k s Hk [Hs Hfilled]. unfold store_i.
    destruct (lookup_lt_is_Some_2 xi (Z.to_nat k)) as [v Hv]; [lia |].
    rewrite (bind_Ret _ _ _ _ _ _ (array_read_run xi k v c (proj1 Hk) Hv)).
    destruct (index_in_bounds numSamples k (proj2 Hn) Hk) as (-> & _ & H0 & H1).
    rewrite array_write_run by lia. rewrite after_trace_nil.
    eexists. split; [reflexivity |]. split.
    + now rewrite length_insert.
    + intros m v' Hm Hv'.
      destruct (Z.eq_dec (Z.of_nat m) k) as [<- | Hne].
      * rewrite Nat2Z.id in Hv. assert (v' = v) as -> by congruence.
        replace (Z.to_nat (2 * Z.of_nat m)) with (2 * m)%nat by lia.
        apply list_lookup_insert_eq. lia.
      * rewrite list_lookup_insert_ne by lia. apply Hfilled; [lia | exact Hv']. }
  destruct (for_range_invariant I numSamples (store_i xi) c
              ltac:(lia) Hbody (loop_fuel numSamples) 0 samples)
    as (samples' & Hrun & Hinv); [lia | unfold loop_fuel; lia | |].
  - split; [exact Hbuf |]. intros m v Hm. lia.
  - exists samples'. split; [exact Hrun |]. exact Hinv.
Qed.

(** The second interleaving loop fills the odd positions and keeps the
    even ones. *)
Lemma store_q_loop_run (xi xq : list Z) numSamples (samples : list (option Z))
    (c : RXContextRecord) :
  0 <= numSamples <= 2048 -> numSamples <= Z.of_nat (length xq) ->
  Z.of_nat (length samples) = samples_len ->
  (forall (m : nat) v, Z.of_nat m < numSamples -> xi !! m = Some v ->
                       samples !! (2 * m)%nat = Some (Some v)) ->
  exists samples',
    for_range (loop_fuel numSamples) 0 numSamples (store_q xq) samples c
    = (Ret samples', c, []) /\
    Z.of_nat (length samples') = samples_len /\
    (forall (m : nat) v, Z.of_nat m < numSamples -> xi !! m = Some v ->
                         samples' !! (2 * m)%nat = Some (Some v)) /\
    (forall (m : nat) v, Z.of_nat m < numSamples -> xq !! m = Some v ->
                         samples' !! (2 * m + 1)%nat = Some (Some v)).
Proof.
  intros Hn Hlen Hbuf Heven.
  set (I := fun k (s : list (option Z)) =>
              Z.of_nat (length s) = samples_len /\
              (forall (m : nat) v, Z.of_nat m < numSamples ->
                 xi !! m = Some v -> s !! (2 * m)%nat = Some (Some v)) /\
              forall (m : nat) v, Z.of_nat m < k -> xq !! m = Some v ->
                                  s !! (2 * m + 1)%nat = Some (Some v)).
  assert (forall k s, 0 <= k < numSamples -> I k s ->
            exists s', store_q xq k s c = (Ret s', c, []) /\ I (k + 1) s')
    as Hbody.
  { intros k s Hk (Hs & Hev & Hodd). unfold store_q.
    destruct (lookup_lt_is_Some_2 xq (Z.to_nat k)) as [v Hv]; [lia |].
    rewrite (bind_Ret _ _ _ _ _ _ (array_read_run xq k v c (proj1 Hk) Hv)).
    destruct (index_in_bounds numSamples k (proj2 Hn) Hk) as (_ & -> & H0 & H1).
    rewrite array_write_run by lia. rewrite after_trace_nil.
    eexists. split; [reflexivity |]. split; [| split].
    + now rewrite length_insert.
    + intros m v' Hm Hv'. rewrite list_lookup_insert_ne by lia.
      now apply Hev.
    + intros m v' Hm Hv'.
      destruct (Z.eq_dec (Z.of_nat m) k) as [<- | Hne].
      * rewrite Nat2Z.id in Hv. assert (v' = v) as -> by congruence.
        replace (Z.to_nat (2 * Z.of_nat m + 1)) with (2 * m + 1)%nat by lia.
        apply list_lookup_insert_eq. lia.
      * rewrite list_lookup_insert_ne by lia. apply Hodd; [lia | exact Hv']. }
  destruct (for_range_invariant I numSamples (store_q xq) c
              ltac:(lia) Hbody (loop_fuel numSamples) 0 samples)
    as (samples' & Hrun & Hinv); [lia | unfold loop_fuel; lia | |].
  - split; [exact Hbuf |]. split; [exact Heven |]. intros m v Hm. lia.
  - exists samples'. split; [exact Hrun |]. exact Hinv.
Qed.

(** [write_samples] on at most 2048 samples. *)
Lemma write_samples_run (xi xq : list Z) numSamples fd (c : RXContextRecord) :
  0 <= numSamples <= 2048 ->
  numSamples <= Z.of_nat (length xi) -> numSamples <= Z.of_nat (length xq) ->
  exists samples post,
    write_samples write_returns xi xq numSamples fd c
    = (Ret tt, c, SysWrite fd samples (numSamples * 2 * sizeof_short) :: post) /\
    Forall not_write post /\
    Z.of_nat (length samples) = samples_len /\
    (forall (m : nat) v, Z.of_nat m < numSamples -> xi !! m = Some v ->
                         samples !! (2 * m)%nat = Some (Some v)) /\
    (forall (m : nat) v, Z.of_nat m < numSamples -> xq !! m = Some v ->
                         samples !! (2 * m + 1)%nat = Some (Some v)).
Proof.
  intros Hn Hxi Hxq. unfold write_samples.
  destruct (store_i_loop_run xi numSamples
              (replicate (Z.to_nat samples_len) None) c Hn Hxi)
    as (s1 & Hrun1 & Hlen1 & Heven1).
  { rewrite length_replicate. unfold samples_len. lia. }
  destruct (store_q_loop_run xi xq numSamples s1 c Hn Hxq Hlen1 Heven1)
    as (s2 & Hrun2 & Hlen2 & Heven2 & Hodd2).
  rewrite (bind_Ret _ _ _ _ _ _ Hrun1), (bind_Ret _ _ _ _ _ _ Hrun2).
  rewrite !after_trace_nil.
  assert (wrap64 (wrap32 (numSamples * 2) * sizeof_short)
          = numSamples * 2 * sizeof_short) as ->.
  { unfold wrap64, wrap32, sizeof_short.
    rewrite (Z.mod_small (numSamples * 2)) by lia.
    apply Z.mod_small. lia. }
  unfold bind, emit, log, ret.
  destruct (write_returns fd s2 _ =? -1); [| destruct (int_ne _ _)]; cbn;
    eexists _, _; (split; [reflexivity |]); (split; [repeat constructor |]);
    auto.
Qed.

(** C10: for at most 2048 samples (the buffers [xi] and [xq] holding that
    many) and an open output file, the callback returns, so no access to
    the 4096-element array [samples] is out of range: each index [2*i] and
    [2*i+1] with [i < numSamples] lies in [0, 4096); position [2*i] holds
    [xi[i]] and position [2*i+1] holds [xq[i]]; and [write] is called
    once, with this array and [numSamples * 2 * sizeof(short)] bytes. *)
Theorem interleaving_stays_in_bounds (xi xq : list Z)
    (params : sdrplay_api_StreamCbParamsT) (numSamples reset : Z)
    (c : RXContextRecord) :
  0 <= numSamples <= 2048 ->
  Z.of_nat (length xi) = numSamples ->
  Z.of_nat (length xq) = numSamples ->
  0 < output_fd c ->
  exists c' line samples post,
    rx_callback_record now write_returns xi xq params numSamples reset c
    = (Ret tt, c',
       line ++ [SysWrite (output_fd c) samples
                  (numSamples * 2 * sizeof_short)] ++ post) /\
    Forall not_write line /\ Forall not_write post /\
    Z.of_nat (length samples) = samples_len /\
    (forall i, 0 <= i < numSamples ->
       0 <= wrap32 (2 * i) < samples_len /\
       0 <= wrap32 (wrap32 (2 * i) + 1) < samples_len) /\
    (forall (m : nat) v, xi !! m = Some v ->
                         samples !! (2 * m)%nat = Some (Some v)) /\
    (forall (m : nat) v, xq !! m = Some v ->
                         samples !! (2 * m + 1)%nat = Some (Some v)).
Proof.
  intros Hn Hxi Hxq Hfd.
  unfold rx_callback_record.
  unfold bind at 1. unfold get at 1.
  unfold bind at 1. unfold put at 1.
  unfold bind at 1. unfold get at 1.
  set (c1 := track_callback now numSamples c).
  change (next_sample_num c1) with (next_sample_num c).
  set (cond := int_ne (next_sample_num c) 4294967295
               && int_ne (firstSampleNum params) (next_sample_num c)).
  set (msg := MsgDropped _).
  assert (when cond (log msg) c1
          = (Ret tt, c1, if cond then [Log msg] else [])) as Hwhen.
  { unfold when, log, emit, ret. destruct cond; reflexivity. }
  rewrite (bind_Ret _ _ _ _ _ _ Hwhen).
  unfold bind at 1. unfold put at 1.
  set (c2 := set_next_sample_num _ c1).
  destruct (range_loop_run xi numSamples (SHRT_MAX, SHRT_MIN) c2)
    as [ir Hir]; [lia | lia |].
  destruct (range_loop_run xq numSamples (SHRT_MAX, SHRT_MIN) c2)
    as [qr Hqr]; [lia | lia |].
  rewrite (bind_Ret _ _ _ _ _ _ Hir), (bind_Ret _ _ _ _ _ _ Hqr).
  unfold bind at 1. unfold get at 1.
  unfold bind at 1. unfold put at 1.
  unfold bind at 1. unfold get at 1.
  set (c3 := set_ranges ir qr c2).
  change (output_fd c3) with (output_fd c).
  unfold when. destruct (Z.ltb_spec 0 (output_fd c)) as [_ | ?]; [| lia].
  destruct (write_samples_run xi xq numSamples (output_fd c) c3 Hn)
    as (samples & post & Hrun & Hpost & Hlen & Heven & Hodd); [lia | lia |].
  rewrite Hrun. cbn [after_trace fst snd app].
  exists c3, (if cond then [Log msg] else []), samples, post.
  split; [reflexivity |].
  split; [destruct cond; repeat constructor |].
  split; [exact Hpost |]. split; [exact Hlen |].
  split; [| split].
  - intros i Hi.
    destruct (index_in_bounds numSamples i (proj2 Hn) Hi) as (-> & -> & ? & ?).
    lia.
  - intros m v Hv. apply Heven; [| exact Hv].
    apply lookup_lt_Some in Hv. lia.
  - intros m v Hv. apply Hodd; [| exact Hv].
    apply lookup_lt_Some in Hv. lia.
Qed.

End RecorderFacts.

(** Three samples: the array starts with 1, -1, 2, -2, 3, -3 and 12 bytes
    are written. *)
Lemma interleaving_stays_in_bounds_witness :
  Recorder.rx_callback_record Doubles.noon Doubles.write_all
    [1; 2; 3] [-1; -2; -3] {| firstSampleNum := 0; grChanged := 0 |} 3 0
    (Doubles.recording_to 5)
  = (Ret tt,
     snd (fst (Recorder.rx_callback_record Doubles.noon Doubles.write_all
                 [1; 2; 3] [-1; -2; -3]
                 {| firstSampleNum := 0; grChanged := 0 |} 3 0
                 (Doubles.recording_to 5))),
     [Recorder.SysWrite 5
        ([Some 1; Some (-1); Some 2; Some (-2); Some 3; Some (-3)]
         ++ replicate 4090 None) 12]).
Proof.
  destruct (interleaving_stays_in_bounds Doubles.noon Doubles.write_all
              [1; 2; 3] [-1; -2; -3] {| firstSampleNum := 0; grChanged := 0 |}
              3 0 (Doubles.recording_to 5))
    as (c' & line & samples & post & Hrun & _).
  - lia.
  - reflexivity.
  - reflexivity.
  - reflexivity.
  - vm_compute. reflexivity.
Defined.

(** C9: while the stored next expected index is 4294967295, neither
    callback writes a jump or dropped-samples line, whatever the first
    sample index delivered; and a delivery whose first index plus count is
    4294967295 modulo 2^32 stores exactly that value, so the delivery after
    it is not checked either. *)
Theorem sentinel_suppresses_detection
    (params : sdrplay_api_StreamCbParamsT) (numSamples reset : Z)
    (rx : GainChanges.RXContext)
    (now : Recorder.timeval) (write_returns : Z -> list (option Z) -> Z -> Z)
    (xi xq : list Z) (c : Recorder.RXContextRecord) :
  (GainChanges.next_sample_num rx = 4294967295 ->
   forall a b,
     ~ In (GainChanges.MsgJump a b)
          (snd (GainChanges.rx_callback params numSamples reset rx))) /\
  (Recorder.next_sample_num c = 4294967295 ->
   Forall Recorder.not_dropped
     (snd (Recorder.rx_callback_record now write_returns xi xq params
             numSamples reset c))) /\
  (wrap32 (firstSampleNum params + numSamples) = 4294967295 ->
   GainChanges.next_sample_num
     (fst (GainChanges.rx_callback params numSamples reset rx)) = 4294967295 /\
   Recorder.next_sample_num
     (snd (fst (Recorder.rx_callback_record now write_returns xi xq params
                  numSamples reset c))) = 4294967295).
Proof.
  split; [| split].
  - intros Hs a b Hin.
    apply rx_callback_jump in Hin as (_ & _ & Hne & _). now apply Hne.
  - intros Hs.
    destruct (rx_callback_record_shape now write_returns xi xq params
                numSamples reset c) as (r & c' & rest & -> & _ & Hrest).
    cbn [snd]. rewrite Hs. cbn. exact Hrest.
  - intros Hwrap. split.
    + rewrite rx_callback_next. exact Hwrap.
    + destruct (rx_callback_record_shape now write_returns xi xq params
                  numSamples reset c) as (r & c' & rest & -> & Hnext & _).
      cbn [fst snd]. now rewrite Hnext.
Qed.

(** A delivery that ends at index 4294967295, then one that starts at 5;
    and a first delivery to the recorder that starts at 5. *)
Lemma sentinel_suppresses_detection_witness :
  snd (GainChanges.run_callbacks
         [Doubles.samples_at 4294966295 1000; Doubles.samples_at 5 1000]
         Doubles.blank_rx_context) = [] /\
  Forall Recorder.not_dropped
    (snd (Recorder.rx_callback_record Doubles.noon Doubles.write_all
            [1; 2; 3] [-1; -2; -3] {| firstSampleNum := 5; grChanged := 0 |}
            3 0 (Doubles.recording_to 5))).
Proof.
  split; [reflexivity |].
  apply (sentinel_suppresses_detection
           {| firstSampleNum := 5; grChanged := 0 |} 3 0
           Doubles.blank_rx_context Doubles.noon Doubles.write_all
           [1; 2; 3] [-1; -2; -3] (Doubles.recording_to 5)).
  reflexivity.
Defined.

(** * Further properties *)

(** ** Closing the vendor library *)

Section ClosingFacts.

Import GainChanges Selection.

Context {D : Type} {api : SdrplayApi D}.

Lemma calls_of_app (t1 t2 : list Event) :
  calls_of (t1 ++ t2) = calls_of t1 ++ calls_of t2.
Proof.
  induction t1 as [| e t1 IH]; [reflexivity |].
  destruct e as [c | u | | m]; cbn [app calls_of]; now rewrite IH.
Qed.

Lemma calls_of_logs (ms : list LogMsg) : calls_of (List.map Log ms) = [].
Proof. induction ms as [| m ms IH]; [reflexivity | exact IH]. Qed.

Lemma calls_of_quiet (t : list Event) : Forall quiet t -> calls_of t = [].
Proof.
  induction 1 as [| e t He _ IH]; [reflexivity |].
  destruct e as [c | u | | m]; cbn in *; tauto.
Qed.

Lemma closed_once_after (pre cs : list ApiCall) :
  ~ In Close pre -> closed_once cs -> closed_once (pre ++ cs).
Proof.
  intros Hpre (p & -> & Hp). exists (pre ++ p).
  split; [now rewrite app_assoc |].
  rewrite in_app_iff. tauto.
Qed.

Lemma leaves_open_bind {A B} (m : M A) (k : A -> M B) (w : World D) :
  leaves_open (m w) -> (forall a w1, leaves_open (k a w1)) ->
  leaves_open (bind m k w).
Proof.
  unfold leaves_open, bind. intros Hm Hk.
  destruct (m w) as [[[a | c | y] w1] t1]; cbn [fst snd] in *;
    [| exact Hm | exact Hm].
  specialize (Hk a w1). destruct (k a w1) as [[[b | c | y] w2] t2];
    cbn [fst snd] in *; rewrite ?calls_of_app.
  - rewrite in_app_iff. tauto.
  - split; [tauto |]. apply closed_once_after; tauto.
  - exact Hk.
Qed.

Lemma ends_closed_bind {A} (m : M A) (k : A -> M Z) (w : World D) :
  leaves_open (m w) -> (forall a w1, ends_closed (k a w1)) ->
  ends_closed (bind m k w).
Proof.
  unfold leaves_open, ends_closed, bind. intros Hm Hk.
  destruct (m w) as [[[a | c | y] w1] t1]; cbn [fst snd] in *.
  - specialize (Hk a w1). destruct (k a w1) as [[r w2] t2].
    cbn [fst snd] in *. rewrite calls_of_app.
    split; [tauto |]. apply closed_once_after; tauto.
  - destruct Hm as [-> Hc]. split; [now right | exact Hc].
  - destruct Hm.
Qed.

(** The steps of [main]. *)
Lemma leaves_open_silent {A} (m : M A) (w : World D) a w' t :
  m w = (Ret a, w', t) -> calls_of t = [] -> leaves_open (m w).
Proof.
  intros -> Hc. unfold leaves_open. cbn. rewrite Hc. tauto.
Qed.

Lemma leaves_open_call (c : ApiCall) f (w : World D) :
  c <> Close -> leaves_open (call c f w).
Proof.
  intros Hc. unfold leaves_open, call. destruct (f (dev w)) as [err d'].
  cbn. intuition congruence.
Qed.

Lemma leaves_open_call_Init (b : bool) (w : World D) :
  leaves_open (call_Init b w).
Proof.
  unfold leaves_open, call_Init.
  destruct (sdrplay_api_Init b (device_params w) (dev w)) as [[err p'] d'].
  cbn. intuition congruence.
Qed.

Lemma leaves_open_usleep usec (w : World D) : leaves_open (usleep usec w).
Proof.
  eapply leaves_open_silent; [apply usleep_run |].
  apply calls_of_quiet, usleep_quiet.
Qed.

Lemma close_only_run (w : World D) :
  exists w', close_only w = (Ret tt, w', [Call Close]).
Proof.
  unfold close_only, bind, call, ret.
  destruct (sdrplay_api_Close (dev w)) as [e d]. cbn. eauto.
Qed.

Lemma unlock_and_close_run (w : World D) :
  exists w', unlock_and_close w
             = (Ret tt, w', [Call UnlockDeviceApi; Call Close]).
Proof.
  unfold unlock_and_close, bind, call, ret.
  destruct (sdrplay_api_UnlockDeviceApi (dev w)) as [e1 d1]. cbn.
  destruct (sdrplay_api_Close d1) as [e2 d2]. cbn. eauto.
Qed.

(** A failed call followed by one of the three tear-downs. *)
Lemma leaves_open_or_die (c : ApiCall) err (cleanup : M unit) (w : World D)
    (cs : list ApiCall) :
  (forall w1, exists w2, cleanup w1 = (Ret tt, w2, List.map Call cs)) ->
  closed_once cs ->
  leaves_open (or_die c err cleanup w).
Proof.
  intros Hclean Hcs. unfold or_die. destruct (is_success err).
  - unfold leaves_open, ret. cbn. tauto.
  - unfold bind, log, emit, exit. destruct (Hclean w) as [w2 ->].
    unfold leaves_open. cbn. rewrite app_nil_r. split; [reflexivity |].
    replace (calls_of (List.map Call cs)) with cs; [exact Hcs |].
    clear. induction cs as [| c cs IH]; [reflexivity |]. cbn. now f_equal.
Qed.

Lemma closed_once_release_close : closed_once [ReleaseDevice; Close].
Proof. exists [ReleaseDevice]. split; [reflexivity |]. cbn. intuition congruence. Qed.

Lemma closed_once_close : closed_once [Close].
Proof. exists []. split; [reflexivity |]. cbn. tauto. Qed.

Lemma closed_once_unlock_close : closed_once [UnlockDeviceApi; Close].
Proof. exists [UnlockDeviceApi]. split; [reflexivity |]. cbn. intuition congruence. Qed.

Lemma leaves_open_or_die_release c err (w : World D) :
  leaves_open (or_die c err release_and_close w).
Proof.
  apply (leaves_open_or_die c err _ w [ReleaseDevice; Close]);
    [apply release_and_close_run | apply closed_once_release_close].
Qed.

Lemma leaves_open_or_die_close c err (w : World D) :
  leaves_open (or_die c err close_only w).
Proof.
  apply (leaves_open_or_die c err _ w [Close]);
    [apply close_only_run | apply closed_once_close].
Qed.

Lemma leaves_open_or_die_unlock c err (w : World D) :
  leaves_open (or_die c err unlock_and_close w).
Proof.
  apply (leaves_open_or_die c err _ w [UnlockDeviceApi; Close]);
    [apply unlock_and_close_run | apply closed_once_unlock_close].
Qed.

Lemma leaves_open_ret {A} (a : A) (w : World D) :
  leaves_open (ret (Ev := Event) a w).
Proof. unfold leaves_open. cbn. tauto. Qed.

Lemma leaves_open_get (w : World D) : leaves_open (get (Ev := Event) w).
Proof. unfold leaves_open. cbn. tauto. Qed.

Lemma leaves_open_log m (w : World D) : leaves_open (log m w).
Proof. unfold leaves_open. cbn. tauto. Qed.

Lemma leaves_open_log_all ms (w : World D) : leaves_open (log_all ms w).
Proof. unfold leaves_open, log_all. cbn. rewrite calls_of_logs. tauto. Qed.

Lemma leaves_open_set_device_params p (w : World D) :
  leaves_open (set_device_params p w).
Proof. unfold leaves_open. cbn. tauto. Qed.

Lemma leaves_open_set_rx_context rx (w : World D) :
  leaves_open (set_rx_context rx w).
Proof. unfold leaves_open. cbn. tauto. Qed.

Lemma leaves_open_reset_flag (w : World D) : leaves_open (reset_flag w).
Proof. unfold leaves_open. cbn. tauto. Qed.

Lemma leaves_open_when (c : bool) (m : M unit) (w : World D) :
  leaves_open (m w) -> leaves_open (when c m w).
Proof. intros Hm. destruct c; [exact Hm | apply leaves_open_ret]. Qed.

Lemma leaves_open_call_Update (w : World D) : leaves_open (call_Update w).
Proof.
  unfold leaves_open, call_Update.
  destruct (sdrplay_api_Update _ _) as [[err ds] d'].
  destruct (run_callbacks ds (rx_context w)) as [rx' logs].
  cbn. rewrite calls_of_logs. cbn. intuition congruence.
Qed.

Lemma leaves_open_report cfg ngc elapsed (w : World D) :
  leaves_open (report_gain_change cfg ngc elapsed w).
Proof.
  eapply leaves_open_silent; [apply report_gain_change_run |].
  destruct (int_ne (cfg_verbose cfg) 0); destruct (flag w =? 0); reflexivity.
Qed.

Lemma leaves_open_wait (w : World D) :
  leaves_open (wait_for_gain_change poll_fuel 0 (-1) w).
Proof.
  destruct (wait_from_start w) as (j & _ & Hrun & _).
  eapply leaves_open_silent; [exact Hrun |].
  apply calls_of_quiet, sleeps_trace_quiet.
Qed.

Ltac open_leaf :=
  first [ apply leaves_open_ret | apply leaves_open_get | apply leaves_open_log
        | apply leaves_open_log_all | apply leaves_open_set_device_params
        | apply leaves_open_set_rx_context | apply leaves_open_reset_flag
        | apply leaves_open_call_Update | apply leaves_open_call_Init
        | apply leaves_open_usleep | apply leaves_open_report
        | apply leaves_open_wait
        | apply leaves_open_or_die_release | apply leaves_open_or_die_close
        | apply leaves_open_or_die_unlock
        | apply leaves_open_call; discriminate
        | apply leaves_open_when; apply leaves_open_log ].

Section WithOptions.

Context (cfg : Config).
Hypothesis Hgains : gRdBs cfg <> [].
Hypothesis Hlnas : LNAstates cfg <> [].
Hypothesis Hngains : ngRdBs cfg < 2 ^ 31.
Hypothesis Hnlnas : nLNAstates cfg < 2 ^ 31.
Hypothesis Hcount : num_gain_changes cfg <= UINT_MAX.

Lemma leaves_open_next_gain ngc (w : World D) :
  0 <= ngc -> leaves_open (next_gain cfg ngc w).
Proof.
  intros Hn.
  destruct (next_gain_run cfg ngc w Hgains Hlnas) as (g & l & _ & _ & Hrun);
    [lia | lia | lia |].
  eapply leaves_open_silent; [apply Hrun | reflexivity].
Qed.

Lemma leaves_open_update_checked err ngc (w : World D) :
  leaves_open
    ((if is_success err then ret tt
      else (log (MsgUpdateFailed err ngc) ;; release_and_close ;; exit 1))%prog
       w).
Proof.
  destruct (is_success err); [open_leaf |].
  destruct (release_and_close_run w) as [w' Hrc].
  unfold leaves_open, bind, log, emit, exit. rewrite Hrc. cbn.
  split; [reflexivity | apply closed_once_release_close].
Qed.

Lemma leaves_open_request ngc (w : World D) :
  0 <= ngc -> leaves_open (request_gain_change cfg ngc w).
Proof.
  intros Hn. unfold request_gain_change.
  apply leaves_open_bind; [open_leaf | intros ? ?].
  apply leaves_open_bind; [now apply leaves_open_next_gain | intros ? ?].
  do 4 (apply leaves_open_bind; [open_leaf | intros ? ?]).
  apply leaves_open_bind; [apply leaves_open_update_checked | intros ? ?].
  open_leaf.
Qed.

Lemma leaves_open_gain_change ngc (w : World D) :
  0 <= ngc -> leaves_open (gain_change cfg ngc w).
Proof.
  intros Hn. unfold gain_change.
  apply leaves_open_bind; [now apply leaves_open_request | intros ? ?].
  apply leaves_open_bind; [open_leaf | intros ? ?]. open_leaf.
Qed.

Lemma leaves_open_gain_changes (n : nat) : forall (fuel : nat) ngc (w : World D),
  0 <= ngc -> ngc + Z.of_nat n = Z.max ngc (num_gain_changes cfg) ->
  (n < fuel)%nat ->
  leaves_open (gain_changes cfg fuel ngc w).
Proof.
  induction n as [| n IH]; intros fuel ngc w Hngc Hn Hfuel;
    (destruct fuel as [| fuel]; [lia |]); cbn [gain_changes].
  - destruct (Z.ltb_spec ngc (num_gain_changes cfg)); [lia | open_leaf].
  - destruct (Z.ltb_spec ngc (num_gain_changes cfg)); [| lia].
    apply leaves_open_bind; [now apply leaves_open_gain_change | intros ? ?].
    assert (wrap32 (ngc + 1) = ngc + 1) as ->.
    { unfold wrap32, UINT_MAX in *. apply Z.mod_small. lia. }
    apply IH; lia.
Qed.

Lemma ends_closed_final_close (w : World D) :
  ends_closed
    ((let* err := call Close sdrplay_api_Close in
      or_die Close err (ret tt) ;; ret 0)%prog w).
Proof.
  unfold ends_closed, call, bind, or_die, log, emit, exit, ret.
  destruct (sdrplay_api_Close (dev w)) as [[| code] d']; cbn;
    (split; [tauto | apply closed_once_close]).
Qed.

Lemma ends_closed_shutdown (w : World D) : ends_closed (shutdown w).
Proof.
  unfold shutdown.
  do 8 (apply ends_closed_bind; [open_leaf | intros ? ?]).
  apply ends_closed_final_close.
Qed.

Lemma ends_closed_streaming (w : World D) : ends_closed (streaming cfg w).
Proof.
  unfold streaming.
  do 5 (apply ends_closed_bind; [open_leaf | intros ? ?]).
  apply ends_closed_bind; [| intros ? ?; apply ends_closed_shutdown].
  unfold gain_changes_fuel.
  apply (leaves_open_gain_changes (Z.to_nat (num_gain_changes cfg - 1)));
    lia.
Qed.

Lemma leaves_open_abandon (b : bool) (w : World D) :
  leaves_open
    ((if b then
        (call Uninit sdrplay_api_Uninit ;; release_and_close ;; exit 1)
      else ret tt)%prog w).
Proof.
  destruct b; [| apply leaves_open_ret].
  apply leaves_open_bind; [open_leaf | intros ? w1].
  unfold bind, exit. destruct (release_and_close_run w1) as [w2 ->].
  unfold leaves_open. cbn. split; [reflexivity |].
  apply closed_once_release_close.
Qed.

Lemma leaves_open_first {St} (a : list Z) (s : St) :
  a <> [] -> leaves_open (array_read (Ev := Event) a 0 s).
Proof.
  destruct a as [| x a]; [congruence | intros _].
  unfold leaves_open. cbn. intros [].
Qed.

Lemma ends_closed_main hdr device (w : World D) :
  ends_closed (main hdr cfg device w).
Proof.
  unfold main.
  do 2 (apply ends_closed_bind; [open_leaf | intros ? ?]).
  apply ends_closed_bind; [now apply leaves_open_first | intros ? ?].
  apply ends_closed_bind; [now apply leaves_open_first | intros ? ?].
  do 6 (apply ends_closed_bind; [open_leaf | intros ? ?]).
  apply ends_closed_bind; [apply leaves_open_abandon | intros ? ?].
  do 2 (apply ends_closed_bind; [open_leaf | intros ? ?]).
  apply ends_closed_streaming.
Qed.

End WithOptions.

End ClosingFacts.

(** ** Selecting the device *)

Section SelectionFacts.

Import GainChanges Selection.

Context {D : Type} {api : SdrplayApi D} {oapi : SdrplayOpenApi D}.
Context (hdr : VendorHeader) (api_version : float) (opt : Options).

Lemma device_read_run (devices : list DeviceEntry) (i : Z) e (w : World D) :
  0 <= i < SDRPLAY_MAX_DEVICES -> devices !! Z.to_nat i = Some e ->
  device_read devices i w = (Ret e, w, []).
Proof.
  intros Hi He. unfold device_read.
  destruct (Z.leb_spec 0 i); [| lia].
  destruct (Z.ltb_spec i SDRPLAY_MAX_DEVICES); [| lia].
  cbn [andb]. now rewrite He.
Qed.

Lemma serial_matches_run (devices : list DeviceEntry) (i : Z) e (w : World D) :
  0 <= i < SDRPLAY_MAX_DEVICES -> devices !! Z.to_nat i = Some e ->
  serial_matches opt devices i w = (Ret (entry_matches opt e), w, []).
Proof.
  intros Hi He. unfold serial_matches, entry_matches.
  destruct (serial_number opt) as [s |]; [| reflexivity].
  now rewrite (bind_Ret _ _ _ _ _ _ (device_read_run devices i e w Hi He)).
Qed.

(** The search loop from index [i] on. *)
Lemma find_device_from (devices : list DeviceEntry) (ndevices : Z)
    (w : World D) :
  0 <= ndevices <= Z.of_nat (length devices) ->
  ndevices <= SDRPLAY_MAX_DEVICES ->
  forall (fuel : nat) (i : Z),
    0 <= i <= ndevices -> (Z.to_nat (ndevices - i) < fuel)%nat ->
    exists r,
      find_device opt fuel devices ndevices i w = (Ret r, w, []) /\
      ((r = -1 /\
        forall (k : nat) e, i <= Z.of_nat k < ndevices ->
          devices !! k = Some e -> entry_matches opt e = false) \/
       (exists e, i <= r < ndevices /\ devices !! Z.to_nat r = Some e /\
                  entry_matches opt e = true /\
                  forall (k : nat) e', i <= Z.of_nat k < r ->
                    devices !! k = Some e' -> entry_matches opt e' = false)).
Proof.
  intros Hn Hmax. unfold SDRPLAY_MAX_DEVICES in *.
  induction fuel as [| fuel IH]; intros i Hi Hfuel; [lia |].
  cbn [find_device]. destruct (Z.ltb_spec i ndevices) as [Hlt | Hge].
  - destruct (lookup_lt_is_Some_2 devices (Z.to_nat i)) as [e He]; [lia |].
    rewrite (bind_Ret _ _ _ _ _ _ (serial_matches_run devices i e w
                                       ltac:(unfold SDRPLAY_MAX_DEVICES; lia) He)).
    rewrite after_trace_nil.
    destruct (entry_matches opt e) eqn:Hm.
    + exists i. split; [reflexivity |]. right. exists e.
      split; [lia |]. split; [exact He |]. split; [exact Hm |].
      intros k e' Hk. lia.
    + assert (wrap32 (i + 1) = i + 1) as ->
          by (unfold wrap32; apply Z.mod_small; lia).
      destruct (IH (i + 1)) as (r & Hrun & Hr); [lia | lia |].
      exists r. split; [exact Hrun |].
      destruct Hr as [[-> Hnone] | (e1 & Hr1 & He1 & Hm1 & Hbefore)].
      * left. split; [reflexivity |]. intros k e' Hk He'.
        destruct (Z.eq_dec (Z.of_nat k) i) as [<- | Hne].
        -- rewrite Nat2Z.id in He. congruence.
        -- apply (Hnone k); [lia | exact He'].
      * right. exists e1. split; [lia |]. split; [exact He1 |].
        split; [exact Hm1 |]. intros k e' Hk He'.
        destruct (Z.eq_dec (Z.of_nat k) i) as [<- | Hne].
        -- rewrite Nat2Z.id in He. congruence.
        -- apply (Hbefore k); [lia | exact He'].
  - exists (-1). split; [reflexivity |]. left. split; [reflexivity |].
    intros k e Hk. lia.
Qed.

Lemma find_device_run (devices : list DeviceEntry) (ndevices : Z)
    (w : World D) :
  0 <= ndevices <= Z.of_nat (length devices) ->
  ndevices <= SDRPLAY_MAX_DEVICES ->
  exists r,
    find_device opt (S (Z.to_nat ndevices)) devices ndevices 0 w
    = (Ret r, w, []) /\
    (r = -1 \/
     exists e, 0 <= r < SDRPLAY_MAX_DEVICES /\
               devices !! Z.to_nat r = Some e).
Proof.
  intros Hn Hmax.
  destruct (find_device_from devices ndevices w Hn Hmax
              (S (Z.to_nat ndevices)) 0) as (r & Hrun & Hr); [lia | lia |].
  exists r. split; [exact Hrun |].
  destruct Hr as [[-> _] | (e & Hr & He & _)]; [now left |].
  right. exists e. split; [lia | exact He].
Qed.

Ltac simp := cbn -[find_device device_read].

Ltac vendor_step :=
  match goal with
  | |- context [sdrplay_api_SelectDevice ?a ?d] =>
      destruct (sdrplay_api_SelectDevice a d) as [[? ?] ?]
  | |- context [sdrplay_api_UnlockDeviceApi ?d] =>
      destruct (sdrplay_api_UnlockDeviceApi d) as [? ?]
  | |- context [sdrplay_api_ReleaseDevice ?d] =>
      destruct (sdrplay_api_ReleaseDevice d) as [? ?]
  | |- context [sdrplay_api_Close ?d] =>
      destruct (sdrplay_api_Close d) as [? ?]
  | |- context [sdrplay_api_DebugEnable ?d] =>
      destruct (sdrplay_api_DebugEnable d) as [? ?]
  | |- context [is_success ?e] => destruct (is_success e)
  | |- context [int_ne (debug_enable ?o) 0] =>
      destruct (int_ne (debug_enable o) 0)
  end; simp.

Ltac forced :=
  intros ?; first [contradiction | cbn; repeat split; reflexivity].

Ltac in_table :=
  split; [reflexivity |];
  first [ left; reflexivity
        | right; left; reflexivity
        | do 2 right; left; reflexivity
        | do 3 right; left; reflexivity
        | do 4 right; eexists;
          split;
          [| first [ left; reflexivity
                   | right; left; reflexivity
                   | right; right; reflexivity ] ];
          forced ].

Lemma open_and_select_calls_body (w : World D) :
  GetDevices_in_range ->
  match open_and_select hdr api_version opt w with
  | (Ret _, _, t) =>
      exists e,
        single_tuner_forced hdr e /\
        all_calls t
        = opened ++ [Opening (SelectDevice e); Later UnlockDeviceApi]
          ++ (if int_ne (debug_enable opt) 0 then [Opening DebugEnable]
              else [])
  | (Exit status, _, t) =>
      status = 1 /\
      (all_calls t = [Opening Open] \/
       all_calls t = [Opening Open; Opening ApiVersion; Later Close] \/
       all_calls t = [Opening Open; Opening ApiVersion;
                      Later LockDeviceApi; Later Close] \/
       all_calls t = opened ++ [Later UnlockDeviceApi; Later Close] \/
       exists e,
         single_tuner_forced hdr e /\
         (all_calls t = opened ++ [Opening (SelectDevice e);
                                   Later UnlockDeviceApi; Later Close] \/
          all_calls t = opened ++ [Opening (SelectDevice e);
                                   Later UnlockDeviceApi;
                                   Later ReleaseDevice; Later Close] \/
          all_calls t = opened ++ [Opening (SelectDevice e);
                                   Later UnlockDeviceApi; Opening DebugEnable;
                                   Later ReleaseDevice; Later Close]))
  | (Stuck _, _, _) => False
  end.
Proof.
  intros Hrange.
  unfold open_and_select, check_rspduo, or_die, or_die_opening, close_only,
    unlock_and_close, release_and_close, ocall, call_ApiVersion,
    call_GetDevices, call_SelectDevice, lift, call, olog, log, bind, emit,
    exit, ret.
  destruct (sdrplay_api_Open (dev w)) as [e1 d1]. simp.
  destruct (is_success e1); simp; [| in_table].
  destruct (sdrplay_api_ApiVersion d1) as [[e2 ver] d2]. simp.
  destruct (is_success e2); simp.
  2:{ destruct (sdrplay_api_Close d2). simp. in_table. }
  destruct (double_ne ver api_version); simp.
  { destruct (sdrplay_api_Close d2). simp. in_table. }
  destruct (sdrplay_api_LockDeviceApi d2) as [e3 d3]. simp.
  destruct (is_success e3); simp.
  2:{ destruct (sdrplay_api_Close d3). simp. in_table. }
  pose proof (Hrange d3) as Hr.
  destruct (sdrplay_api_GetDevices SDRPLAY_MAX_DEVICES d3)
    as [[[e4 devices] ndevices] d4]. simp.
  destruct (is_success e4); simp.
  2:{ destruct (sdrplay_api_UnlockDeviceApi d4) as [? d5]. simp.
      destruct (sdrplay_api_Close d5). simp. in_table. }
  destruct Hr as [Hn Hmax].
  destruct (find_device_run devices ndevices
              {| dev := d4; device_params := device_params w;
                 rx_context := rx_context w |} Hn Hmax)
    as (r & -> & Hr).
  simp.
  destruct Hr as [-> | (e & Hr & He)].
  { simp. destruct (sdrplay_api_UnlockDeviceApi d4) as [? d5]. simp.
    destruct (sdrplay_api_Close d5). simp. in_table. }
  destruct (Z.eqb_spec r (-1)) as [-> | _]; [lia |]. simp.
  rewrite (device_read_run devices r e _ Hr He). simp.
  destruct (Z.eqb_spec (hwVer (fields e)) (SDRPLAY_RSPduo_ID hdr));
    [destruct (int_ne _ (sdrplay_api_RspDuoMode_Single_Tuner hdr)) |];
    simp; repeat vendor_step;
    first [in_table | eexists; split; [| reflexivity]; forced].
Qed.

Lemma all_calls_app (t1 t2 : list SEvent) :
  all_calls (t1 ++ t2) = all_calls t1 ++ all_calls t2.
Proof.
  induction t1 as [| [c | m | [c | u | | m]] t1 IH]; cbn;
    rewrite ?IH; reflexivity.
Qed.

Lemma all_calls_Main (t : list Event) :
  all_calls (List.map Main t) = List.map Later (calls_of t).
Proof.
  induction t as [| [c | u | | m] t IH]; cbn; rewrite ?IH; reflexivity.
Qed.

Lemma closed_at_end_after (cs : list AnyCall) (later : list ApiCall) :
  ~ In (Later Close) cs -> closed_once later ->
  closed_at_end (cs ++ List.map Later later).
Proof.
  intros Hcs (pre & -> & Hpre). exists (cs ++ List.map Later pre).
  split; [now rewrite map_app, app_assoc |].
  rewrite in_app_iff, in_map_iff. intros [H | (c & Hc & Hin)]; [tauto |].
  injection Hc as ->. tauto.
Qed.

Ltac ends_with_close pre :=
  exists pre; split; [reflexivity |]; cbn; intuition discriminate.

(** The whole of [main] after the options have been read, for non-empty
    gain lists and a [sdrplay_api_GetDevices] that counts entries that
    are there: it returns 0 or exits with status 1, and unless
    [sdrplay_api_Open] was its only vendor call (it failed), the last
    vendor call is [sdrplay_api_Close] and there is no other call of
    it. *)
Theorem program_closes_once (cfg : Config) (w : World D) :
  gRdBs cfg <> [] -> LNAstates cfg <> [] ->
  ngRdBs cfg < 2 ^ 31 -> nLNAstates cfg < 2 ^ 31 ->
  num_gain_changes cfg <= UINT_MAX ->
  GetDevices_in_range ->
  let '(r, _, t) := program hdr api_version opt cfg w in
  (r = Ret 0 \/ r = Exit 1) /\
  (all_calls t = [Opening Open] \/ closed_at_end (all_calls t)).
Proof.
  intros Hgains Hlnas Hngains Hnlnas Hcount Hrange.
  unfold program, bind.
  pose proof (open_and_select_calls_body w Hrange) as Hopen.
  destruct (open_and_select hdr api_version opt w) as [[[dv | s | y] w1] t1];
    [| | destruct Hopen].
  - destruct Hopen as (e & _ & He). unfold lift.
    assert (ends_closed (main hdr cfg (fields dv) w1)) as [Hr Hc]
        by (apply ends_closed_main; assumption).
    destruct (main hdr cfg (fields dv) w1) as [[r w2] t2].
    cbn [fst snd] in *. split; [exact Hr |]. right.
    rewrite all_calls_app, all_calls_Main, He.
    apply closed_at_end_after; [| exact Hc].
    destruct (int_ne (debug_enable opt) 0); cbn; intuition discriminate.
  - destruct Hopen as [-> Ht]. split; [now right |].
    destruct Ht as [-> | [-> | [-> | [-> | (e & _ & [-> | [-> | ->]])]]]];
      [now left | right ..].
    + ends_with_close [Opening Open; Opening ApiVersion].
    + ends_with_close [Opening Open; Opening ApiVersion; Later LockDeviceApi].
    + ends_with_close (opened ++ [Later UnlockDeviceApi]).
    + ends_with_close (opened ++ [Opening (SelectDevice e);
                                  Later UnlockDeviceApi]).
    + ends_with_close (opened ++ [Opening (SelectDevice e);
                                  Later UnlockDeviceApi;
                                  Later ReleaseDevice]).
    + ends_with_close (opened ++ [Opening (SelectDevice e);
                                  Later UnlockDeviceApi; Opening DebugEnable;
                                  Later ReleaseDevice]).
Qed.

Lemma in_all_calls (c : OpenCall) (t : list SEvent) :
  In (OCall c) t -> In (Opening c) (all_calls t).
Proof.
  induction t as [| [c' | m | [c' | u | | m]] t IH]; cbn; intros H;
    try (destruct H as [H | H]; [discriminate | auto]); try tauto.
  destruct H as [H | H]; [injection H as ->; now left | right; auto].
Qed.

End SelectionFacts.

(** ** The vendor calls of [main], from opening to closing *)

(** The search for the device ([for (i = 0; i < ndevices; i++) ...]):
    when [ndevices] counts entries that are there, the loop returns, and
    [device_index] is -1 if no entry matches the serial number asked for
    (every entry matches when none is asked for), and otherwise the index
    of the first entry that matches. *)
Theorem find_device_picks_first_match {D : Type}
    (opt : Selection.Options) (devices : list Selection.DeviceEntry)
    (ndevices : Z) (w : GainChanges.World D) :
  0 <= ndevices <= Z.of_nat (length devices) ->
  ndevices <= Selection.SDRPLAY_MAX_DEVICES ->
  exists r,
    Selection.find_device opt (S (Z.to_nat ndevices)) devices ndevices 0 w
    = (Ret r, w, []) /\
    ((r = -1 /\
      forall (k : nat) e, Z.of_nat k < ndevices ->
        devices !! k = Some e -> Selection.entry_matches opt e = false) \/
     (exists e, 0 <= r < ndevices /\ devices !! Z.to_nat r = Some e /\
                Selection.entry_matches opt e = true /\
                forall (k : nat) e', Z.of_nat k < r ->
                  devices !! k = Some e' ->
                  Selection.entry_matches opt e' = false)).
Proof.
  intros Hn Hmax.
  destruct (find_device_from opt devices ndevices w Hn Hmax
              (S (Z.to_nat ndevices)) 0) as (r & Hrun & Hr); [lia | lia |].
  exists r. split; [exact Hrun |].
  destruct Hr as [[-> Hnone] | (e & Hr & He & Hm & Hbefore)].
  - left. split; [reflexivity |]. intros k e Hk. apply Hnone. lia.
  - right. exists e. repeat split; try lia; try assumption.
    intros k e' Hk. apply Hbefore. lia.
Qed.

(** Of the devices "1234" and "5678", asking for "5678". *)
Lemma find_device_picks_first_match_witness :
  exists r,
    Selection.find_device Samples.second_serial 3
      Samples.two_devices 2 0 (Doubles.world tt)
    = (Ret r, Doubles.world tt, []) /\
    ((r = -1 /\
      forall (k : nat) e, Z.of_nat k < 2 ->
        Samples.two_devices !! k = Some e ->
        Selection.entry_matches Samples.second_serial e = false) \/
     (exists e, 0 <= r < 2 /\ Samples.two_devices !! Z.to_nat r = Some e /\
                Selection.entry_matches Samples.second_serial e = true /\
                forall (k : nat) e', Z.of_nat k < r ->
                  Samples.two_devices !! k = Some e' ->
                  Selection.entry_matches Samples.second_serial e'
                  = false)).
Proof.
  apply (find_device_picks_first_match Samples.second_serial
           Samples.two_devices 2 (Doubles.world tt)).
  - cbn. lia.
  - unfold Selection.SDRPLAY_MAX_DEVICES. lia.
Defined.

(** The vendor calls of [main] up to "select device settings", when
    [sdrplay_api_GetDevices] counts entries that are there: this part
    never reads an entry that is not there; when it returns it has
    called Open, ApiVersion, LockDeviceApi, GetDevices, SelectDevice and
    UnlockDeviceApi, and DebugEnable if asked to, and nothing else; when it
    exits, the status is 1 and the calls are one of seven sequences: the
    lock is given back whenever it was taken, the device is released only
    after it was selected and the lock given back, and the library is
    closed unless Open itself failed.  An RSPduo is passed to SelectDevice
    in single tuner mode. *)
Theorem open_and_select_calls {D : Type} {api : GainChanges.SdrplayApi D}
    {oapi : Selection.SdrplayOpenApi D} (hdr : GainChanges.VendorHeader)
    (api_version : float) (opt : Selection.Options)
    (w : GainChanges.World D) :
  Selection.GetDevices_in_range ->
  match Selection.open_and_select hdr api_version opt w with
  | (Ret _, _, t) =>
      exists e,
        Selection.single_tuner_forced hdr e /\
        Selection.all_calls t
        = Selection.opened
          ++ [Selection.Opening (Selection.SelectDevice e);
              Selection.Later GainChanges.UnlockDeviceApi]
          ++ (if int_ne (Selection.debug_enable opt) 0
              then [Selection.Opening Selection.DebugEnable] else [])
  | (Exit status, _, t) =>
      status = 1 /\
      (Selection.all_calls t = [Selection.Opening Selection.Open] \/
       Selection.all_calls t
       = [Selection.Opening Selection.Open;
          Selection.Opening Selection.ApiVersion;
          Selection.Later GainChanges.Close] \/
       Selection.all_calls t
       = [Selection.Opening Selection.Open;
          Selection.Opening Selection.ApiVersion;
          Selection.Later GainChanges.LockDeviceApi;
          Selection.Later GainChanges.Close] \/
       Selection.all_calls t
       = Selection.opened ++ [Selection.Later GainChanges.UnlockDeviceApi;
                              Selection.Later GainChanges.Close] \/
       exists e,
         Selection.single_tuner_forced hdr e /\
         (Selection.all_calls t
          = Selection.opened
            ++ [Selection.Opening (Selection.SelectDevice e);
                Selection.Later GainChanges.UnlockDeviceApi;
                Selection.Later GainChanges.Close] \/
          Selection.all_calls t
          = Selection.opened
            ++ [Selection.Opening (Selection.SelectDevice e);
                Selection.Later GainChanges.UnlockDeviceApi;
                Selection.Later GainChanges.ReleaseDevice;
                Selection.Later GainChanges.Close] \/
          Selection.all_calls t
          = Selection.opened
            ++ [Selection.Opening (Selection.SelectDevice e);
                Selection.Later GainChanges.UnlockDeviceApi;
                Selection.Opening Selection.DebugEnable;
                Selection.Later GainChanges.ReleaseDevice;
                Selection.Later GainChanges.Close]))
  | (Stuck _, _, _) => False
  end.
Proof. apply open_and_select_calls_body. Qed.

(** With two devices attached and the second asked for: the RSPduo is
    selected, in single tuner mode. *)
Lemma open_and_select_calls_witness :
  exists e,
    Selection.single_tuner_forced Doubles.header e /\
    Selection.all_calls
      (snd (Selection.open_and_select (api := Doubles.silent)
              (oapi := Samples.two_attached) Doubles.header
              Samples.SDRPLAY_API_VERSION Samples.second_serial
              (Doubles.world tt)))
    = Selection.opened
      ++ [Selection.Opening (Selection.SelectDevice e);
          Selection.Later GainChanges.UnlockDeviceApi].
Proof.
  pose proof (open_and_select_calls (api := Doubles.silent)
                (oapi := Samples.two_attached) Doubles.header
                Samples.SDRPLAY_API_VERSION Samples.second_serial
                (Doubles.world tt)) as H.
  destruct (Selection.open_and_select _ _ _ _) as [[[dv | s | y] w1] t] eqn:E;
    try discriminate E.
  destruct H as (e & He & Ht).
  - intros []. vm_compute. repeat split; discriminate.
  - exists e. split; [exact He |]. cbn [snd]. rewrite Ht. reflexivity.
Defined.

(** An RSPduo is selected in single tuner mode: whenever [main] calls
    [sdrplay_api_SelectDevice] for an RSPduo, the structure it passes has
    tuner A, the single tuner mode and a sample frequency of 0, which are
    the values that the check after the quick initialisation expects of
    an RSPduo: a library that leaves the structure as passed cannot fail
    the three checks of [device]. *)
Theorem rspduo_selected_as_single_tuner {D : Type}
    {api : GainChanges.SdrplayApi D} {oapi : Selection.SdrplayOpenApi D}
    (hdr : GainChanges.VendorHeader) (api_version : float)
    (opt : Selection.Options) (cfg : GainChanges.Config)
    (w : GainChanges.World D) (e : Selection.DeviceEntry) (g0 l0 : Z)
    (p : GainChanges.DeviceParamsT) :
  Selection.GetDevices_in_range ->
  In (Selection.OCall (Selection.SelectDevice e))
     (snd (Selection.open_and_select hdr api_version opt w)) ->
  GainChanges.hwVer (Selection.fields e) = GainChanges.SDRPLAY_RSPduo_ID hdr ->
  GainChanges.tuner (Selection.fields e) = GainChanges.sdrplay_api_Tuner_A hdr /\
  GainChanges.rspDuoMode (Selection.fields e)
  = GainChanges.sdrplay_api_RspDuoMode_Single_Tuner hdr /\
  GainChanges.rspDuoSampleFreq (Selection.fields e) = 0%float /\
  forall f, In f [GainChanges.F_tuner; GainChanges.F_rspDuoMode;
                  GainChanges.F_rspDuoSampleFreq] ->
    GainChanges.differs hdr cfg (Selection.fields e) g0 l0 p f = false.
Proof.
  intros Hrange Hin Hhw.
  assert (Selection.single_tuner_forced hdr e) as Hforced.
  { pose proof (open_and_select_calls_body hdr api_version opt w Hrange)
      as Hopen.
    apply in_all_calls in Hin.
    destruct (Selection.open_and_select hdr api_version opt w)
      as [[[dv | s | y] w1] t]; cbn [snd] in Hin; [| | destruct Hopen].
    - destruct Hopen as (e' & He' & Ht). rewrite Ht in Hin.
      destruct (int_ne (Selection.debug_enable opt) 0);
        unfold Selection.opened in Hin; cbn in Hin;
        repeat (destruct Hin as [Hin | Hin]; try discriminate Hin);
        try (injection Hin as ->; exact He'); destruct Hin.
    - destruct Hopen as [_ Ht].
      destruct Ht as [Ht | [Ht | [Ht | [Ht | (e' & He' & [Ht | [Ht | Ht]])]]]];
        rewrite Ht in Hin; unfold Selection.opened in Hin; cbn in Hin;
        repeat (destruct Hin as [Hin | Hin]; try discriminate Hin);
        try (injection Hin as ->; exact He'); destruct Hin. }
  destruct (Hforced Hhw) as (Htuner & Hmode & Hfreq).
  repeat split; try assumption.
  intros f Hf. unfold GainChanges.differs, int_ne.
  cbn in Hf. destruct Hf as [<- | [<- | [<- | []]]].
  - rewrite Htuner, Z.eqb_refl. reflexivity.
  - rewrite Hhw, Hmode, !Z.eqb_refl. reflexivity.
  - rewrite Hfreq. reflexivity.
Qed.

(** The RSPduo of [open_and_select_calls_witness]: it reports all modes,
    tuner "both" and 6 MHz, and is selected with tuner A, the single tuner
    mode and 0. *)
Lemma rspduo_selected_as_single_tuner_witness :
  GainChanges.tuner (Selection.fields Samples.rspduo_selected) = 1 /\
  GainChanges.rspDuoMode (Selection.fields Samples.rspduo_selected) = 1 /\
  GainChanges.rspDuoSampleFreq (Selection.fields Samples.rspduo_selected)
  = 0%float /\
  forall f, In f [GainChanges.F_tuner; GainChanges.F_rspDuoMode;
                  GainChanges.F_rspDuoSampleFreq] ->
    GainChanges.differs Doubles.header (Doubles.options [40] [0] 1)
      (Selection.fields Samples.rspduo_selected) 40 0 Doubles.blank_params f
    = false.
Proof.
  apply (rspduo_selected_as_single_tuner (api := Doubles.silent)
           (oapi := Samples.two_attached) Doubles.header
           Samples.SDRPLAY_API_VERSION Samples.second_serial
           (Doubles.options [40] [0] 1) (Doubles.world tt)
           Samples.rspduo_selected 40 0 Doubles.blank_params).
  - intros []. vm_compute. repeat split; discriminate.
  - vm_compute. do 4 right. left. reflexivity.
  - reflexivity.
Defined.

(** [main] from "select device settings" to the end, for non-empty gain
    lists and whatever the vendor library answers, each invocation of the
    callback being delivered whole during [sdrplay_api_Update] or
    [usleep] (the convention of this embedding): it returns 0 or exits
    with status 1, and either way it has called [sdrplay_api_Close]
    exactly once, as its last vendor call. *)
Theorem main_closes_once {D : Type} {api : GainChanges.SdrplayApi D}
    (hdr : GainChanges.VendorHeader) (cfg : GainChanges.Config)
    (device : GainChanges.sdrplay_api_DeviceT) (w : GainChanges.World D) :
  GainChanges.gRdBs cfg <> [] -> GainChanges.LNAstates cfg <> [] ->
  GainChanges.ngRdBs cfg < 2 ^ 31 -> GainChanges.nLNAstates cfg < 2 ^ 31 ->
  GainChanges.num_gain_changes cfg <= UINT_MAX ->
  (fst (fst (GainChanges.main hdr cfg device w)) = Ret 0 \/
   fst (fst (GainChanges.main hdr cfg device w)) = Exit 1) /\
  exists pre,
    Selection.calls_of (snd (GainChanges.main hdr cfg device w))
    = pre ++ [GainChanges.Close] /\
    ~ In GainChanges.Close pre.
Proof.
  intros Hgains Hlnas Hngains Hnlnas Hcount.
  apply ends_closed_main; assumption.
Qed.

(** Three gain changes asked of the double that confirms each change. *)
Lemma main_closes_once_witness :
  (fst (fst (GainChanges.main (api := Doubles.cooperative) Doubles.header
               (Doubles.options [40; 20; 60] [0; 1] 3) Doubles.rsp1a
               (Doubles.world (None, 0)))) = Ret 0 \/
   fst (fst (GainChanges.main (api := Doubles.cooperative) Doubles.header
               (Doubles.options [40; 20; 60] [0; 1] 3) Doubles.rsp1a
               (Doubles.world (None, 0)))) = Exit 1) /\
  exists pre,
    Selection.calls_of
      (snd (GainChanges.main (api := Doubles.cooperative) Doubles.header
              (Doubles.options [40; 20; 60] [0; 1] 3) Doubles.rsp1a
              (Doubles.world (None, 0))))
    = pre ++ [GainChanges.Close] /\
    ~ In GainChanges.Close pre.
Proof.
  apply (main_closes_once (api := Doubles.cooperative) Doubles.header
           (Doubles.options [40; 20; 60] [0; 1] 3) Doubles.rsp1a
           (Doubles.world (None, 0))).
  - discriminate.
  - discriminate.
  - vm_compute. reflexivity.
  - vm_compute. reflexivity.
  - vm_compute. discriminate.
Defined.

(** The program run against the library with two devices attached, the
    second one asked for. *)
Lemma program_closes_once_witness :
  let '(r, _, t) :=
    Selection.program (api := Doubles.silent) (oapi := Samples.two_attached)
      Doubles.header Samples.SDRPLAY_API_VERSION Samples.second_serial
      (Doubles.options [40; 20; 60] [0; 1] 1) (Doubles.world tt) in
  (r = Ret 0 \/ r = Exit 1) /\
  (Selection.all_calls t = [Selection.Opening Selection.Open] \/
   Selection.closed_at_end (Selection.all_calls t)).
Proof.
  apply (program_closes_once (api := Doubles.silent)
           (oapi := Samples.two_attached) Doubles.header
           Samples.SDRPLAY_API_VERSION Samples.second_serial
           (Doubles.options [40; 20; 60] [0; 1] 1) (Doubles.world tt)).
  - discriminate.
  - discriminate.
  - vm_compute. reflexivity.
  - vm_compute. reflexivity.
  - vm_compute. discriminate.
  - intros []. vm_compute. repeat split; discriminate.
Defined.

(** ** A gain change, and the end of [main] *)

Section TeardownFacts.

Import GainChanges Selection.

Context {D : Type} {api : SdrplayApi D}.



End TeardownFacts.


(** The end of [main] ("Uninit" to "all done"), whatever the vendor
    library answers: it returns 0 after exactly the calls Uninit,
    LockDeviceApi, ReleaseDevice, UnlockDeviceApi and Close, writing
    nothing; or it exits with status 1, and then Close was still the last
    call: after a failed Uninit the device is released without the lock,
    after a failed LockDeviceApi it is not released, and a failed
    ReleaseDevice, UnlockDeviceApi or Close changes the status only. *)
Theorem shutdown_calls {D : Type} {api : GainChanges.SdrplayApi D}
    (w : GainChanges.World D) :
  match GainChanges.shutdown w with
  | (Ret r, _, t) =>
      r = 0 /\
      t = List.map GainChanges.Call
            [GainChanges.Uninit; GainChanges.LockDeviceApi;
             GainChanges.ReleaseDevice; GainChanges.UnlockDeviceApi;
             GainChanges.Close]
  | (Exit status, _, t) =>
      status = 1 /\
      (Selection.calls_of t
       = [GainChanges.Uninit; GainChanges.ReleaseDevice; GainChanges.Close] \/
       Selection.calls_of t
       = [GainChanges.Uninit; GainChanges.LockDeviceApi; GainChanges.Close] \/
       Selection.calls_of t
       = [GainChanges.Uninit; GainChanges.LockDeviceApi;
          GainChanges.ReleaseDevice; GainChanges.UnlockDeviceApi;
          GainChanges.Close])
  | (Stuck _, _, _) => False
  end.
Proof.
  unfold GainChanges.shutdown, GainChanges.or_die, GainChanges.close_only,
    GainChanges.unlock_and_close, GainChanges.release_and_close,
    GainChanges.call, GainChanges.log, bind, emit, exit, ret.
  repeat (match goal with
          | |- context [GainChanges.sdrplay_api_Uninit ?d] =>
              destruct (GainChanges.sdrplay_api_Uninit d) as [? ?]
          | |- context [GainChanges.sdrplay_api_LockDeviceApi ?d] =>
              destruct (GainChanges.sdrplay_api_LockDeviceApi d) as [? ?]
          | |- context [GainChanges.sdrplay_api_ReleaseDevice ?d] =>
              destruct (GainChanges.sdrplay_api_ReleaseDevice d) as [? ?]
          | |- context [GainChanges.sdrplay_api_UnlockDeviceApi ?d] =>
              destruct (GainChanges.sdrplay_api_UnlockDeviceApi d) as [? ?]
          | |- context [GainChanges.sdrplay_api_Close ?d] =>
              destruct (GainChanges.sdrplay_api_Close d) as [? ?]
          | |- context [GainChanges.is_success ?e] =>
              destruct (GainChanges.is_success e)
          end; cbn);
    (split; [reflexivity |]); auto.
Qed.

(** ** The recording callback: what it keeps and what it writes *)

Section LoopFacts.

Context {St Ev : Type}.

(** A counting loop whose body gets stuck at index [m], having returned
    before: the loop gets stuck there. *)
Lemma for_range_stuck {L} (I : L -> Prop) (bound m : Z)
    (body : Z -> L -> Prog St Ev L) (s : St) y :
  0 <= m < bound -> bound < 2 ^ 32 ->
  (forall k acc, 0 <= k < m -> I acc ->
     exists acc', body k acc s = (Ret acc', s, []) /\ I acc') ->
  (forall acc, I acc -> body m acc s = (Stuck y, s, [])) ->
  forall (fuel : nat) (i : Z) (acc : L),
    0 <= i <= m -> (Z.to_nat (m - i) < fuel)%nat -> I acc ->
    for_range fuel i bound body acc s = (Stuck y, s, []).
Proof.
  intros Hm Hbound Hbody Hstuck.
  induction fuel as [| fuel IH]; intros i acc Hi Hfuel Hinv; [lia |].
  cbn [for_range]. destruct (Z.ltb_spec i bound) as [_ | ?]; [| lia].
  destruct (Z.eq_dec i m) as [-> | Hne].
  - now rewrite (bind_Stuck _ _ _ _ _ _ (Hstuck acc Hinv)).
  - destruct (Hbody i acc) as (acc1 & Hrun & Hinv1); [lia | exact Hinv |].
    rewrite (bind_Ret _ _ _ _ _ _ Hrun), after_trace_nil.
    assert (wrap32 (i + 1) = i + 1) as ->
        by (unfold wrap32; apply Z.mod_small; lia).
    apply IH; [lia | lia | exact Hinv1].
Qed.

End LoopFacts.

Section RecordFacts.

Import Recorder.

Context (now : timeval) (write_returns : Z -> list (option Z) -> Z -> Z).

(** The running minimum and maximum after the loop over a buffer. *)
Lemma range_loop_bounds (x : list Z) numSamples mm (c : RXContextRecord) :
  0 <= numSamples < 2 ^ 32 -> numSamples <= Z.of_nat (length x) ->
  exists mm',
    for_range (loop_fuel numSamples) 0 numSamples (range_step x) mm c
    = (Ret mm', c, []) /\
    fst mm' <= fst mm /\ snd mm <= snd mm' /\
    forall (k : nat) v, Z.of_nat k < numSamples -> x !! k = Some v ->
                        fst mm' <= v <= snd mm'.
Proof.
  intros Hn Hlen.
  set (I := fun (k : Z) (acc : Z * Z) =>
              fst acc <= fst mm /\ snd mm <= snd acc /\
              forall (j : nat) v, Z.of_nat j < k -> x !! j = Some v ->
                                  fst acc <= v <= snd acc).
  assert (forall k acc, 0 <= k < numSamples -> I k acc ->
            exists acc', range_step x k acc c = (Ret acc', c, [])
                         /\ I (k + 1) acc') as Hbody.
  { intros k acc Hk (Hlo & Hhi & Hseen). unfold range_step.
    destruct (lookup_lt_is_Some_2 x (Z.to_nat k)) as [v Hv]; [lia |].
    rewrite (bind_Ret _ _ _ _ _ _ (array_read_run x k v c (proj1 Hk) Hv)).
    eexists. split; [reflexivity |]. unfold I. cbn [fst snd].
    destruct (Z.ltb_spec (fst acc) v); destruct (Z.gtb_spec (snd acc) v);
      (split; [lia |]); (split; [lia |]); intros j v' Hj Hv';
      (destruct (Z.eq_dec (Z.of_nat j) k) as [<- | Hne];
       [rewrite Nat2Z.id in Hv; assert (v' = v) as -> by congruence; lia
       | specialize (Hseen j v' ltac:(lia) Hv'); lia]). }
  destruct (for_range_invariant I numSamples (range_step x) c
              (proj2 Hn) Hbody (loop_fuel numSamples) 0 mm)
    as (mm' & Hrun & Hinv); [lia | unfold loop_fuel; lia | |].
  - unfold I. split; [lia |]. split; [lia |]. intros j v Hj. lia.
  - exists mm'. split; [exact Hrun |]. exact Hinv.
Qed.

(** The callback up to the write: the context it has then, and what it
    does next. *)
Lemma rx_callback_record_state xi xq params numSamples reset
    (c : RXContextRecord) :
  0 <= numSamples < 2 ^ 32 ->
  numSamples <= Z.of_nat (length xi) -> numSamples <= Z.of_nat (length xq) ->
  exists ir qr l,
    rx_callback_record now write_returns xi xq params numSamples reset c
    = after_trace l
        (when (0 <? output_fd c)
           (write_samples write_returns xi xq numSamples (output_fd c))
           (set_ranges ir qr
              (set_next_sample_num
                 (wrap32 (firstSampleNum params + numSamples))
                 (track_callback now numSamples c)))) /\
    Forall not_write l /\
    (forall (k : nat) v, Z.of_nat k < numSamples -> xi !! k = Some v ->
                         fst ir <= v <= snd ir) /\
    (forall (k : nat) v, Z.of_nat k < numSamples -> xq !! k = Some v ->
                         fst qr <= v <= snd qr).
Proof.
  intros Hn Hxi Hxq. unfold rx_callback_record.
  unfold bind at 1. unfold get at 1.
  unfold bind at 1. unfold put at 1.
  unfold bind at 1. unfold get at 1.
  set (c1 := track_callback now numSamples c).
  set (line := when _ _).
  assert (exists l, line c1 = (Ret tt, c1, l) /\ Forall not_write l)
    as (l & Hline & Hl).
  { unfold line, when, log, emit, ret.
    destruct (int_ne _ _ && int_ne _ _); eexists; (split; [reflexivity |]);
      repeat constructor. }
  rewrite (bind_Ret _ _ _ _ _ _ Hline).
  unfold bind at 1. unfold put at 1.
  set (c2 := set_next_sample_num _ c1).
  destruct (range_loop_bounds xi numSamples (SHRT_MAX, SHRT_MIN) c2 Hn Hxi)
    as (ir & Hir & _ & _ & Hiseen).
  destruct (range_loop_bounds xq numSamples (SHRT_MAX, SHRT_MIN) c2 Hn Hxq)
    as (qr & Hqr & _ & _ & Hqseen).
  rewrite (bind_Ret _ _ _ _ _ _ Hir), after_trace_nil.
  rewrite (bind_Ret _ _ _ _ _ _ Hqr), after_trace_nil.
  unfold bind at 1. unfold get at 1.
  unfold bind at 1. unfold put at 1.
  unfold bind at 1. unfold get at 1.
  set (c3 := set_ranges ir qr c2).
  change (output_fd c3) with (output_fd c).
  exists ir, qr, l. split; [| auto].
  subst c3 c2 c1.
  destruct (when _ _ _) as [[r c4] t]. reflexivity.
Qed.

(** The write leaves the context alone. *)
Lemma when_write_state xi xq numSamples (b : bool) fd (c : RXContextRecord) :
  snd (fst (when b (write_samples write_returns xi xq numSamples fd) c)) = c.
Proof.
  unfold when. destruct b; [| reflexivity].
  destruct (write_samples_trace write_returns xi xq numSamples fd c)
    as (r & t & -> & _). reflexivity.
Qed.

(** What one invocation of the recording callback leaves in the context,
    for buffers that hold [numSamples] samples and whatever becomes of the
    write: the sample count has grown by [numSamples] (modulo 2^64), the
    latest time stamp is the clock reading and an earliest one that is set
    stays, the file descriptor is as before, the minima have not grown and
    the maxima have not shrunk, and every sample delivered lies between
    the minimum and the maximum of its channel. *)
Theorem callback_keeps_statistics xi xq params numSamples reset
    (c : RXContextRecord) :
  0 <= numSamples < 2 ^ 32 ->
  numSamples <= Z.of_nat (length xi) -> numSamples <= Z.of_nat (length xq) ->
  let c' := snd (fst (rx_callback_record now write_returns xi xq params
                        numSamples reset c)) in
  total_samples c' = wrap64 (total_samples c + numSamples) /\
  latest_callback c' = now /\
  (tv_sec (earliest_callback c) <> 0 ->
   earliest_callback c' = earliest_callback c) /\
  output_fd c' = output_fd c /\
  imin c' <= imin c /\ imax c <= imax c' /\
  qmin c' <= qmin c /\ qmax c <= qmax c' /\
  (forall (k : nat) v, Z.of_nat k < numSamples -> xi !! k = Some v ->
                       imin c' <= v <= imax c') /\
  (forall (k : nat) v, Z.of_nat k < numSamples -> xq !! k = Some v ->
                       qmin c' <= v <= qmax c').
Proof.
  intros Hn Hxi Hxq.
  destruct (rx_callback_record_state xi xq params numSamples reset c
              Hn Hxi Hxq) as (ir & qr & l & -> & _ & Hi & Hq).
  unfold after_trace. cbn [fst snd]. rewrite when_write_state.
  unfold set_ranges, set_next_sample_num, track_callback.
  cbn [total_samples latest_callback earliest_callback output_fd
       imin imax qmin qmax].
  split; [reflexivity |]. split; [reflexivity |]. split.
  { intros He. destruct (Z.eqb_spec (tv_sec (earliest_callback c)) 0);
      [contradiction | reflexivity]. }
  split; [reflexivity |].
  destruct (Z.ltb_spec (imin c) (fst ir)); destruct (Z.gtb_spec (imax c) (snd ir));
    destruct (Z.ltb_spec (qmin c) (fst qr));
    destruct (Z.gtb_spec (qmax c) (snd qr));
    repeat (split; [lia |]);
    (split; intros k v Hk Hv;
     [specialize (Hi k v Hk Hv) | specialize (Hq k v Hk Hv)]; lia).
Qed.

(** While no file is open ([output_fd] not positive), the callback
    returns without calling [write], also for more samples than the local
    array could take. *)
Theorem closed_file_writes_nothing xi xq params numSamples reset
    (c : RXContextRecord) :
  0 <= numSamples < 2 ^ 32 ->
  numSamples <= Z.of_nat (length xi) -> numSamples <= Z.of_nat (length xq) ->
  output_fd c <= 0 ->
  fst (fst (rx_callback_record now write_returns xi xq params
              numSamples reset c)) = Ret tt /\
  Forall not_write
    (snd (rx_callback_record now write_returns xi xq params
            numSamples reset c)).
Proof.
  intros Hn Hxi Hxq Hfd.
  destruct (rx_callback_record_state xi xq params numSamples reset c
              Hn Hxi Hxq) as (ir & qr & l & -> & Hl & _ & _).
  destruct (Z.ltb_spec 0 (output_fd c)) as [? | _]; [lia |].
  unfold after_trace, when, ret. cbn [fst snd]. rewrite app_nil_r.
  split; [reflexivity | exact Hl].
Qed.

(** The first interleaving loop with more samples than half the local
    array: the assignment for sample 2048 is outside the array. *)
Lemma store_i_loop_overflow (xi : list Z) numSamples (c : RXContextRecord) :
  2048 < numSamples < 2 ^ 32 -> numSamples <= Z.of_nat (length xi) ->
  for_range (loop_fuel numSamples) 0 numSamples (store_i xi)
    (replicate (Z.to_nat samples_len) None) c
  = (Stuck UndefinedBehaviour, c, []).
Proof.
  intros Hn Hlen.
  apply (for_range_stuck
           (fun s : list (option Z) => Z.of_nat (length s) = samples_len)
           numSamples 2048).
  - lia.
  - lia.
  - intros k s Hk Hs. unfold store_i.
    destruct (lookup_lt_is_Some_2 xi (Z.to_nat k)) as [v Hv]; [lia |].
    rewrite (bind_Ret _ _ _ _ _ _ (array_read_run xi k v c (proj1 Hk) Hv)).
    destruct (index_in_bounds 2048 k ltac:(lia) Hk) as (-> & _ & H0 & H1).
    rewrite array_write_run by lia. rewrite after_trace_nil.
    eexists. split; [reflexivity |]. now rewrite length_insert.
  - intros s Hs. unfold store_i.
    destruct (lookup_lt_is_Some_2 xi (Z.to_nat 2048)) as [v Hv]; [lia |].
    rewrite (bind_Ret _ _ _ _ _ _
               (array_read_run xi 2048 v c ltac:(lia) Hv)).
    unfold array_write. rewrite Hs. reflexivity.
  - lia.
  - unfold loop_fuel. lia.
  - rewrite length_replicate. unfold samples_len. lia.
Qed.

(** With a file open and more than 2048 samples in one invocation, the
    callback assigns outside its local array of 4096 elements: undefined
    behaviour, before any call of [write]. *)
Theorem too_many_samples_overflow xi xq params numSamples reset
    (c : RXContextRecord) :
  2048 < numSamples < 2 ^ 32 ->
  numSamples <= Z.of_nat (length xi) -> numSamples <= Z.of_nat (length xq) ->
  0 < output_fd c ->
  fst (fst (rx_callback_record now write_returns xi xq params
              numSamples reset c)) = Stuck UndefinedBehaviour /\
  Forall not_write
    (snd (rx_callback_record now write_returns xi xq params
            numSamples reset c)).
Proof.
  intros Hn Hxi Hxq Hfd.
  destruct (rx_callback_record_state xi xq params numSamples reset c
              ltac:(lia) Hxi Hxq) as (ir & qr & l & -> & Hl & _ & _).
  destruct (Z.ltb_spec 0 (output_fd c)) as [_ | ?]; [| lia].
  unfold when, write_samples.
  rewrite (bind_Stuck _ _ _ _ _ _
             (store_i_loop_overflow xi numSamples _ Hn Hxi)).
  unfold after_trace. cbn [fst snd]. rewrite app_nil_r.
  split; [reflexivity | exact Hl].
Qed.

(** What [write] returns changes only what is written to the log: the
    outcome of the callback and the context it leaves are the same for
    any two answers; a failed or short write is not retried and stops
    nothing. *)
Theorem write_result_only_logged (other : Z -> list (option Z) -> Z -> Z)
    xi xq params numSamples reset (c : RXContextRecord) :
  fst (rx_callback_record now write_returns xi xq params numSamples reset c)
  = fst (rx_callback_record now other xi xq params numSamples reset c) /\
  List.filter (fun e => match e with SysWrite _ _ _ => true | Log _ => false end)
    (snd (rx_callback_record now write_returns xi xq params numSamples
            reset c))
  = List.filter (fun e => match e with SysWrite _ _ _ => true | Log _ => false end)
      (snd (rx_callback_record now other xi xq params numSamples reset c)).
Proof.
  unfold rx_callback_record, write_samples, bind, get, put, when, log, emit,
    ret.
  cbn [fst snd].
  destruct (int_ne _ _ && int_ne _ _);
    destruct (for_range _ _ _ (range_step xi) _ _) as [[[ir | ? | ?] c2] t2];
    try (split; reflexivity);
    destruct (for_range _ _ _ (range_step xq) _ _) as [[[qr | ? | ?] c3] t3];
    try (split; reflexivity);
    cbn [fst snd];
    (destruct (0 <? _); [| split; reflexivity]);
    destruct (for_range _ _ _ (store_i xi) _ _) as [[[s1 | ? | ?] c4] t4];
    try (split; reflexivity);
    destruct (for_range _ _ _ (store_q xq) _ _) as [[[s2 | ? | ?] c5] t5];
    try (split; reflexivity);
    cbn [fst snd];
    destruct (write_returns _ _ _ =? -1); destruct (other _ _ _ =? -1);
    try destruct (int_ne (wrap64 (write_returns _ _ _)) _);
    try destruct (int_ne (wrap64 (other _ _ _)) _);
    cbn; rewrite ?List.filter_app; cbn; split; reflexivity.
Qed.

End RecordFacts.

(** Three samples per channel, no file open. *)
Lemma callback_keeps_statistics_witness :
  let c' := snd (fst (Recorder.rx_callback_record Doubles.noon
                        Doubles.write_all [3; -5; 7] [1; 2; -9]
                        {| firstSampleNum := 0; grChanged := 0 |} 3 0
                        (Doubles.recording_to (-1)))) in
  Recorder.total_samples c'
  = wrap64 (Recorder.total_samples (Doubles.recording_to (-1)) + 3) /\
  Recorder.latest_callback c' = Doubles.noon /\
  (Recorder.tv_sec (Recorder.earliest_callback (Doubles.recording_to (-1)))
   <> 0 ->
   Recorder.earliest_callback c'
   = Recorder.earliest_callback (Doubles.recording_to (-1))) /\
  Recorder.output_fd c' = Recorder.output_fd (Doubles.recording_to (-1)) /\
  Recorder.imin c' <= Recorder.imin (Doubles.recording_to (-1)) /\
  Recorder.imax (Doubles.recording_to (-1)) <= Recorder.imax c' /\
  Recorder.qmin c' <= Recorder.qmin (Doubles.recording_to (-1)) /\
  Recorder.qmax (Doubles.recording_to (-1)) <= Recorder.qmax c' /\
  (forall (k : nat) v, Z.of_nat k < 3 -> [3; -5; 7] !! k = Some v ->
                       Recorder.imin c' <= v <= Recorder.imax c') /\
  (forall (k : nat) v, Z.of_nat k < 3 -> [1; 2; -9] !! k = Some v ->
                       Recorder.qmin c' <= v <= Recorder.qmax c').
Proof.
  apply (callback_keeps_statistics Doubles.noon Doubles.write_all
           [3; -5; 7] [1; 2; -9] {| firstSampleNum := 0; grChanged := 0 |}
           3 0 (Doubles.recording_to (-1))).
  - lia.
  - cbn. lia.
  - cbn. lia.
Defined.

(** 3000 samples in one invocation, with the descriptor -1 that [main]
    starts with. *)
Lemma closed_file_writes_nothing_witness :
  fst (fst (Recorder.rx_callback_record Doubles.noon Doubles.write_all
              (replicate (Z.to_nat 3000) 1) (replicate (Z.to_nat 3000) 2)
              {| firstSampleNum := 0; grChanged := 0 |} 3000 0
              (Doubles.recording_to (-1)))) = Ret tt /\
  Forall Recorder.not_write
    (snd (Recorder.rx_callback_record Doubles.noon Doubles.write_all
            (replicate (Z.to_nat 3000) 1) (replicate (Z.to_nat 3000) 2)
            {| firstSampleNum := 0; grChanged := 0 |} 3000 0
            (Doubles.recording_to (-1)))).
Proof.
  apply (closed_file_writes_nothing Doubles.noon Doubles.write_all
           (replicate (Z.to_nat 3000) 1) (replicate (Z.to_nat 3000) 2)
           {| firstSampleNum := 0; grChanged := 0 |} 3000 0
           (Doubles.recording_to (-1))).
  - lia.
  - rewrite length_replicate. lia.
  - rewrite length_replicate. lia.
  - cbn. lia.
Defined.

(** 2049 samples in one invocation, with a file open. *)
Lemma too_many_samples_overflow_witness :
  fst (fst (Recorder.rx_callback_record Doubles.noon Doubles.write_all
              (replicate (Z.to_nat 2049) 1) (replicate (Z.to_nat 2049) 2)
              {| firstSampleNum := 0; grChanged := 0 |} 2049 0
              (Doubles.recording_to 3))) = Stuck UndefinedBehaviour /\
  Forall Recorder.not_write
    (snd (Recorder.rx_callback_record Doubles.noon Doubles.write_all
            (replicate (Z.to_nat 2049) 1) (replicate (Z.to_nat 2049) 2)
            {| firstSampleNum := 0; grChanged := 0 |} 2049 0
            (Doubles.recording_to 3))).
Proof.
  apply (too_many_samples_overflow Doubles.noon Doubles.write_all
           (replicate (Z.to_nat 2049) 1) (replicate (Z.to_nat 2049) 2)
           {| firstSampleNum := 0; grChanged := 0 |} 2049 0
           (Doubles.recording_to 3)).
  - lia.
  - rewrite length_replicate. lia.
  - rewrite length_replicate. lia.
  - cbn. lia.
Defined.

(** The local [dropped_samples] of the recording callback holds the
    distance between the index expected and the index delivered,
    whichever is the larger. *)
Lemma dropped_samples_is_distance (next first : Z) :
  0 <= next < 2 ^ 32 -> 0 <= first < 2 ^ 32 ->
  Recorder.dropped_samples next first = Z.abs (first - next).
Proof.
  intros Hn Hf. unfold Recorder.dropped_samples, wrap32, UINT_MAX.
  destruct (Z.ltb_spec next first) as [Hlt | Hge].
  - rewrite Z.mod_small by lia. lia.
  - destruct (Z.eq_dec first next) as [-> | Hne].
    + rewrite Z.sub_diag. reflexivity.
    + replace ((first - next) mod 2 ^ 32) with (first - next + 2 ^ 32).
      * replace (4294967295 - (first - next + 2 ^ 32)) with (next - first - 1)
          by lia.
        rewrite (Z.mod_small (next - first - 1)) by lia.
        rewrite Z.mod_small by lia. lia.
      * apply (Z.mod_unique _ _ (-1)); lia.
Qed.

(** The number in the line "dropped %d samples", the [unsigned int]
    shown with [%d].  With the index delivered ahead of the one expected
    by less than 2^31 it is the number of samples in between.  With the
    index delivered below the one expected, it is their distance when that
    is less than 2^31 (a positive number, though the counter went back),
    and otherwise, the counter having wrapped around, the number of
    samples in between with a minus sign. *)
Theorem dropped_line_number (next first : Z) :
  0 <= next < 2 ^ 32 -> 0 <= first < 2 ^ 32 ->
  (next <= first -> first - next < 2 ^ 31 ->
   Edge.shown_by_d (Recorder.dropped_samples next first) = first - next) /\
  (first < next -> next - first < 2 ^ 31 ->
   Edge.shown_by_d (Recorder.dropped_samples next first) = next - first) /\
  (first < next -> 2 ^ 31 <= next - first ->
   Edge.shown_by_d (Recorder.dropped_samples next first)
   = - (first + 2 ^ 32 - next)) /\
  (next < first -> 2 ^ 31 <= first - next ->
   Edge.shown_by_d (Recorder.dropped_samples next first)
   = first - next - 2 ^ 32).
Proof.
  intros Hn Hf. rewrite (dropped_samples_is_distance next first Hn Hf).
  unfold Edge.shown_by_d, Edge.INT_MAX.
  repeat split; intros H1 H2;
    destruct (Z.leb_spec (Z.abs (first - next)) 2147483647); lia.
Qed.

(** Expected 4294967000, delivered 200 after the counter has wrapped: 496
    samples are missing, and the line reads "dropped -496 samples". *)
Lemma dropped_line_number_witness :
  Edge.shown_by_d (Recorder.dropped_samples 4294967000 200) = -496.
Proof.
  destruct (dropped_line_number 4294967000 200 ltac:(lia) ltac:(lia))
    as (_ & _ & Hwrapped & _).
  rewrite Hwrapped; [reflexivity | lia | lia].
Defined.

(** ** The timing callback *)

Section TimeDiffFacts.

Import TimeDiff.

Lemma long_result_run (z : Z) (c : RXContextMeasureTimeDiff) :
  LONG_MIN <= z <= LONG_MAX -> long_result z c = (Ret z, c, []).
Proof.
  intros Hz. unfold long_result.
  destruct (Z.leb_spec LONG_MIN z); [| lia].
  destruct (Z.leb_spec z LONG_MAX); [| lia]. reflexivity.
Qed.

(** One invocation, for clock readings as they occur. *)
Lemma rx_callback_measure_time_diff_run (current_time : timespec)
    (numSamples : Z) (c : RXContextMeasureTimeDiff) :
  0 <= tv_sec (prev_time c) < 2 ^ 32 ->
  0 <= tv_nsec (prev_time c) < 1000000000 ->
  plausible current_time ->
  0 <= callback_count c < LONG_MAX ->
  rx_callback_measure_time_diff current_time numSamples c
  = (Ret tt,
     {| prev_time := current_time;
        callback_count := callback_count c + 1;
        diff_threshold := diff_threshold c |},
     if (0 <? tv_sec (prev_time c))
        && (gap (prev_time c) current_time >? diff_threshold c)
     then [LogDiff (callback_count c) numSamples
             (gap (prev_time c) current_time)]
     else []).
Proof.
  intros Hsec Hnsec [Hcs Hcn] Hcount.
  unfold rx_callback_measure_time_diff, gap, LONG_MAX, LONG_MIN in *.
  unfold bind at 1. unfold get at 1.
  destruct current_time as [cs cn]. cbn [tv_sec tv_nsec] in *.
  assert (forall c0 : RXContextMeasureTimeDiff,
            (let* count := long_result (callback_count c + 1) in
             put {| prev_time := {| tv_sec := cs; tv_nsec := cn |};
                    callback_count := count;
                    diff_threshold := diff_threshold c |})%prog c0
            = (Ret tt,
               {| prev_time := {| tv_sec := cs; tv_nsec := cn |};
                  callback_count := callback_count c + 1;
                  diff_threshold := diff_threshold c |}, [])) as Hput.
  { intros c0.
    rewrite (bind_Ret _ _ _ _ _ _
               (long_result_run (callback_count c + 1) c0
                  ltac:(unfold LONG_MAX, LONG_MIN; lia))).
    reflexivity. }
  destruct (0 <? tv_sec (prev_time c)); cbn [andb].
  - set (dsec := cs - tv_sec (prev_time c)).
    set (dnsec := cn - tv_nsec (prev_time c)).
    assert ((let* dsec := long_result (cs - tv_sec (prev_time c)) in
             let* dsec_ns := long_result (dsec * 1000000000) in
             let* dnsec := long_result (cn - tv_nsec (prev_time c)) in
             let* diff := long_result (dsec_ns + dnsec) in
             when (diff >? diff_threshold c)
               (emit (LogDiff (callback_count c) numSamples diff)))%prog c
            = (Ret tt, c,
               if dsec * 1000000000 + dnsec >? diff_threshold c
               then [LogDiff (callback_count c) numSamples
                       (dsec * 1000000000 + dnsec)]
               else [])) as Hline.
    { rewrite (bind_Ret _ _ _ _ _ _
                 (long_result_run dsec c
                    ltac:(unfold LONG_MAX, LONG_MIN, dsec; lia))),
        after_trace_nil.
      rewrite (bind_Ret _ _ _ _ _ _
                 (long_result_run (dsec * 1000000000) c
                    ltac:(unfold LONG_MAX, LONG_MIN, dsec; lia))),
        after_trace_nil.
      rewrite (bind_Ret _ _ _ _ _ _
                 (long_result_run dnsec c
                    ltac:(unfold LONG_MAX, LONG_MIN, dnsec; lia))),
        after_trace_nil.
      rewrite (bind_Ret _ _ _ _ _ _
                 (long_result_run (dsec * 1000000000 + dnsec) c
                    ltac:(unfold LONG_MAX, LONG_MIN, dsec, dnsec; lia))),
        after_trace_nil.
      unfold when, emit, ret. destruct (_ >? _); reflexivity. }
    rewrite (bind_Ret _ _ _ _ _ _ Hline), Hput.
    unfold after_trace. cbn [fst snd]. now rewrite !app_nil_r.
  - rewrite (bind_Ret (ret tt) _ c tt c [] eq_refl), Hput. reflexivity.
Qed.

(** Successive invocations of the timing callback with clock readings as
    they occur (seconds positive and below 2^32, nanoseconds below 10^9):
    no operation on [long]s overflows, every invocation returns, the
    count goes up by one each time, and the lines written are those for
    the readings that come more than the threshold after the reading
    before, each with the count of the invocations before it; the first
    invocation writes nothing. *)
Theorem time_diff_lines (calls : list (timespec * Z)) :
  forall c : RXContextMeasureTimeDiff,
    0 <= tv_sec (prev_time c) < 2 ^ 32 ->
    0 <= tv_nsec (prev_time c) < 1000000000 ->
    Forall (fun call => plausible (fst call)) calls ->
    0 <= callback_count c ->
    callback_count c + Z.of_nat (length calls) <= LONG_MAX ->
    exists c',
      run_callbacks calls c
      = (Ret tt, c',
         late_callbacks (prev_time c) (callback_count c) (diff_threshold c)
           calls) /\
      callback_count c' = callback_count c + Z.of_nat (length calls) /\
      diff_threshold c' = diff_threshold c.
Proof.
  induction calls as [| [t n] calls IH]; intros c Hsec Hnsec Hall Hcount Hmax.
  - exists c. cbn. split; [reflexivity |]. split; [lia | reflexivity].
  - cbn [length] in Hmax.
    pose proof (Forall_inv Hall) as Ht. cbn [fst] in Ht.
    pose proof (Forall_inv_tail Hall) as Hrest.
    cbn [run_callbacks late_callbacks].
    rewrite (bind_Ret _ _ _ _ _ _
               (rx_callback_measure_time_diff_run t n c Hsec Hnsec Ht
                  ltac:(lia))).
    destruct Ht as [Hts Htn].
    destruct (IH {| prev_time := t; callback_count := callback_count c + 1;
                    diff_threshold := diff_threshold c |})
      as (c' & Hrun & Hc & Hthr); cbn [prev_time callback_count]; try lia;
      try assumption.
    rewrite Hrun. unfold after_trace. cbn [fst snd prev_time callback_count
                                           diff_threshold] in *.
    exists c'. split; [reflexivity |]. split; [cbn [length]; lia | exact Hthr].
Qed.

End TimeDiffFacts.

(** The three readings from the context that [main] starts with: the
    third comes 8 ms after the second and is reported. *)
Lemma time_diff_lines_witness :
  exists c',
    TimeDiff.run_callbacks Samples.three_readings TimeDiff.initial_context
    = (Ret tt, c',
       TimeDiff.late_callbacks
         (TimeDiff.prev_time TimeDiff.initial_context)
         (TimeDiff.callback_count TimeDiff.initial_context)
         (TimeDiff.diff_threshold TimeDiff.initial_context)
         Samples.three_readings) /\
    TimeDiff.callback_count c'
    = TimeDiff.callback_count TimeDiff.initial_context
      + Z.of_nat (length Samples.three_readings) /\
    TimeDiff.diff_threshold c'
    = TimeDiff.diff_threshold TimeDiff.initial_context.
Proof.
  apply (time_diff_lines Samples.three_readings TimeDiff.initial_context).
  - cbn. lia.
  - cbn. lia.
  - unfold Samples.three_readings, TimeDiff.plausible.
    repeat constructor; cbn; lia.
  - cbn. lia.
  - cbn. unfold TimeDiff.LONG_MAX. lia.
Defined.

(** ** The settings check of the two programs *)

Section RecorderReadbackFacts.

Import RecorderMain.

Context (hdr : GainChanges.VendorHeader) (cfg : Config)
        (device : GainChanges.sdrplay_api_DeviceT).

Lemma recorder_readback_fold p (fs : list CheckedField) : forall acc,
  fold_left (unexpected_change hdr cfg device p) fs acc
  = (fst acc && forallb (fun f => negb (differs hdr cfg device p f)) fs,
     snd acc ++ List.map MsgUnexpectedChange
                  (List.filter (differs hdr cfg device p) fs)).
Proof.
  induction fs as [| f fs IH]; intros [ok lines]; cbn [fold_left].
  - cbn. now rewrite andb_true_r, app_nil_r.
  - rewrite IH. unfold unexpected_change.
    cbn [forallb List.filter fst snd].
    destruct (differs hdr cfg device p f); cbn [negb andb fst snd List.map].
    + rewrite andb_false_r, <- app_assoc. reflexivity.
    + reflexivity.
Qed.

Lemma recorder_all_fields_checked (f : CheckedField) : In f checked_fields.
Proof. destruct f; cbn; tauto. Qed.

(** The check of the recorder: [init_ok] is still 1 after it exactly when
    none of the eighteen conditions holds, and the lines written are those
    of the conditions that hold. *)
Lemma recorder_readback_spec (p : GainChanges.DeviceParamsT) :
  (fst (readback hdr cfg device p) = true <->
   forall f, differs hdr cfg device p f = false) /\
  (forall f, In (MsgUnexpectedChange f) (snd (readback hdr cfg device p)) <->
             differs hdr cfg device p f = true).
Proof.
  unfold readback. rewrite recorder_readback_fold. cbn [fst snd andb app].
  split.
  - rewrite forallb_forall. split.
    + intros Hall f. specialize (Hall f (recorder_all_fields_checked f)).
      now apply negb_true_iff.
    + intros Hall f _. now rewrite Hall.
  - intros f. rewrite in_map_iff. split.
    + intros (f' & Heq & Hin). injection Heq as ->.
      now apply filter_In in Hin.
    + intros Hf. exists f. split; [reflexivity |].
      apply filter_In. split; [apply recorder_all_fields_checked | exact Hf].
Qed.

Lemma int_ne_refl (a : Z) : int_ne a a = false.
Proof. unfold int_ne. now rewrite Z.eqb_refl. Qed.

Lemma int_ne_true (a b : Z) : a <> b -> int_ne a b = true.
Proof. intros H. unfold int_ne. now apply negb_true_iff, Z.eqb_neq. Qed.

(** The recorder compares the AGC mode that it has written: when the
    mode found after the quick initialisation is not the one asked for,
    the line for it is written and [init_ok] is 0. *)
Theorem recorder_checks_agc (p : GainChanges.DeviceParamsT) :
  GainChanges.agc_enable p <> agc cfg ->
  fst (readback hdr cfg device p) = false /\
  In (MsgUnexpectedChange F_agc_enable) (snd (readback hdr cfg device p)).
Proof.
  intros Hagc. destruct (recorder_readback_spec p) as [Hok Hlines].
  assert (differs hdr cfg device p F_agc_enable = true) as Hd
      by (now apply int_ne_true).
  split; [| now apply Hlines].
  apply not_true_is_false. intros H. rewrite Hok in H.
  specialize (H F_agc_enable). congruence.
Qed.

(** With the AGC on, the gain reduction is neither written nor compared:
    the assignments leave the value that the device parameters hold, and
    the check gives the same result whatever that value is. *)
Theorem agc_on_leaves_gain_alone (p : GainChanges.DeviceParamsT) (g : Z) :
  agc cfg <> GainChanges.sdrplay_api_AGC_DISABLE hdr ->
  GainChanges.gain_gRdB (write_settings hdr cfg p) = GainChanges.gain_gRdB p /\
  readback hdr cfg device
    (GainChanges.set_gain g (GainChanges.gain_LNAstate p) p)
  = readback hdr cfg device p.
Proof.
  intros Hagc. apply Z.eqb_neq in Hagc. split.
  - unfold write_settings. cbn [GainChanges.gain_gRdB]. now rewrite Hagc.
  - unfold readback.
    assert (forall f,
              differs hdr cfg device
                (GainChanges.set_gain g (GainChanges.gain_LNAstate p) p) f
              = differs hdr cfg device p f) as Hsame.
    { intros []; cbn; try reflexivity. now rewrite Hagc. }
    generalize (true, @nil LogMsg).
    induction checked_fields as [| f fs IH]; intros acc; [reflexivity |].
    cbn [fold_left]. rewrite IH. f_equal.
    unfold unexpected_change. now rewrite Hsame.
Qed.

Lemma to_unsigned_char_fits (x : Z) :
  Edge.fits_unsigned_char x -> Edge.to_unsigned_char x = x.
Proof.
  unfold Edge.fits_unsigned_char, Edge.to_unsigned_char, Edge.UCHAR_MAX.
  intros Hx. apply Z.mod_small. lia.
Qed.

Lemma to_unsigned_char_same (x : Z) :
  Edge.to_unsigned_char x = x -> Edge.fits_unsigned_char x.
Proof.
  unfold Edge.fits_unsigned_char, Edge.to_unsigned_char, Edge.UCHAR_MAX.
  intros Hx. pose proof (Z.mod_pos_bound x (255 + 1) ltac:(lia)). lia.
Qed.

Lemma to_unsigned_char_c_bool (b : bool) :
  Edge.to_unsigned_char (c_bool b) = c_bool b.
Proof. destruct b; reflexivity. Qed.

Lemma recorder_readback_mismatch p (f : CheckedField) :
  differs hdr cfg device p f = true -> fst (readback hdr cfg device p) = false.
Proof.
  intros Hf. destruct (recorder_readback_spec p) as [Hok _].
  apply not_true_is_false. intros H. rewrite Hok in H.
  specialize (H f). congruence.
Qed.

(** Settings that the quick initialisation leaves as stored: for a device
    with tuner A, the single tuner mode and a sample frequency of 0, and
    for a sample rate and a centre frequency that compare equal to
    themselves (that are not NaN), they pass the check of the recorder
    when the [unsigned char] fields can hold the values given (the
    decimation factor, the LNA state, the two correction enables, [dcCal]
    and [speedUp] from 0 to 255), and fail it otherwise: such a field
    keeps the value modulo 256, which the check finds changed. *)
Theorem recorder_untouched_settings_pass (p : GainChanges.DeviceParamsT) :
  GainChanges.tuner device = GainChanges.sdrplay_api_Tuner_A hdr ->
  GainChanges.rspDuoMode device
  = GainChanges.sdrplay_api_RspDuoMode_Single_Tuner hdr ->
  double_ne (GainChanges.rspDuoSampleFreq device) 0%float = false ->
  double_ne (rsp_sample_rate cfg) (rsp_sample_rate cfg) = false ->
  double_ne (frequency cfg) (frequency cfg) = false ->
  (Edge.recorder_narrow_settings_fit cfg ->
   readback hdr cfg device (Edge.stored (write_settings hdr cfg p))
   = (true, [])) /\
  (~ Edge.recorder_narrow_settings_fit cfg ->
   fst (readback hdr cfg device (Edge.stored (write_settings hdr cfg p)))
   = false).
Proof.
  intros Htuner Hmode Hfreq Hrate Hf. split.
  - intros (Hd & Hl & Hdc & Hiq & Hcal & Hsp).
    assert (forall f, differs hdr cfg device
                        (Edge.stored (write_settings hdr cfg p)) f
                      = false) as Hall.
    { intros []; cbn;
        rewrite ?to_unsigned_char_c_bool, ?to_unsigned_char_fits by assumption;
        rewrite ?Htuner, ?Hmode, ?int_ne_refl; try assumption;
        try reflexivity.
      destruct (agc cfg =? _); [apply int_ne_refl | reflexivity]. }
    unfold readback. rewrite recorder_readback_fold. cbn [fst snd andb app].
    f_equal.
    + apply forallb_forall. intros f _. now rewrite Hall.
    + induction checked_fields as [| f fs IH]; [reflexivity |].
      cbn [List.filter]. now rewrite Hall.
  - intros Hfit.
    destruct (Z.eq_dec (Edge.to_unsigned_char (decimation cfg)) (decimation cfg))
      as [Hd | Hd];
      [| apply (recorder_readback_mismatch _ F_decimationFactor);
         now apply int_ne_true].
    destruct (Z.eq_dec (Edge.to_unsigned_char (LNAstate cfg)) (LNAstate cfg))
      as [Hl | Hl];
      [| apply (recorder_readback_mismatch _ F_LNAstate);
         now apply int_ne_true].
    destruct (Z.eq_dec (Edge.to_unsigned_char (DCenable cfg)) (DCenable cfg))
      as [Hdc | Hdc];
      [| apply (recorder_readback_mismatch _ F_DCenable);
         now apply int_ne_true].
    destruct (Z.eq_dec (Edge.to_unsigned_char (IQenable cfg)) (IQenable cfg))
      as [Hiq | Hiq];
      [| apply (recorder_readback_mismatch _ F_IQenable);
         now apply int_ne_true].
    destruct (Z.eq_dec (Edge.to_unsigned_char (dcCal cfg)) (dcCal cfg))
      as [Hcal | Hcal];
      [| apply (recorder_readback_mismatch _ F_dcCal);
         now apply int_ne_true].
    destruct (Z.eq_dec (Edge.to_unsigned_char (speedUp cfg)) (speedUp cfg))
      as [Hsp | Hsp];
      [| apply (recorder_readback_mismatch _ F_speedUp);
         now apply int_ne_true].
    destruct Hfit. repeat split; now apply to_unsigned_char_same.
Qed.

End RecorderReadbackFacts.

(** A device that is not an RSPduo and reports the mode "unknown": the
    gain-change program expects that mode of it, the recorder expects the
    single tuner mode of every device and so writes "unexpected change -
    rspDuoMode" and leaves [init_ok] at 0, whatever the settings. *)
Theorem programs_disagree_on_plain_devices (hdr : GainChanges.VendorHeader)
    (gcfg : GainChanges.Config) (rcfg : RecorderMain.Config)
    (device : GainChanges.sdrplay_api_DeviceT) (g0 l0 : Z)
    (p : GainChanges.DeviceParamsT) :
  GainChanges.hwVer device <> GainChanges.SDRPLAY_RSPduo_ID hdr ->
  GainChanges.rspDuoMode device = GainChanges.sdrplay_api_RspDuoMode_Unknown hdr ->
  GainChanges.sdrplay_api_RspDuoMode_Unknown hdr
  <> GainChanges.sdrplay_api_RspDuoMode_Single_Tuner hdr ->
  GainChanges.differs hdr gcfg device g0 l0 p GainChanges.F_rspDuoMode = false /\
  fst (RecorderMain.readback hdr rcfg device p) = false /\
  In (RecorderMain.MsgUnexpectedChange RecorderMain.F_rspDuoMode)
     (snd (RecorderMain.readback hdr rcfg device p)).
Proof.
  intros Hhw Hmode Hne.
  destruct (recorder_readback_spec hdr rcfg device p) as [Hok Hlines].
  assert (RecorderMain.differs hdr rcfg device p RecorderMain.F_rspDuoMode
          = true) as Hd.
  { cbn. rewrite Hmode. now apply int_ne_true. }
  split; [| split].
  - cbn. apply Z.eqb_neq in Hhw. rewrite Hhw, Hmode. apply int_ne_refl.
  - apply not_true_is_false. intros H. rewrite Hok in H.
    specialize (H RecorderMain.F_rspDuoMode). congruence.
  - now apply Hlines.
Qed.

Lemma programs_disagree_on_plain_devices_witness :
  GainChanges.differs Doubles.header (Doubles.options [40] [0] 1)
    Doubles.rsp1a 40 0
    (RecorderMain.write_settings Doubles.header (Samples.recorder_options 0)
       Doubles.blank_params) GainChanges.F_rspDuoMode = false /\
  fst (RecorderMain.readback Doubles.header (Samples.recorder_options 0)
         Doubles.rsp1a
         (RecorderMain.write_settings Doubles.header
            (Samples.recorder_options 0) Doubles.blank_params)) = false /\
  In (RecorderMain.MsgUnexpectedChange RecorderMain.F_rspDuoMode)
     (snd (RecorderMain.readback Doubles.header (Samples.recorder_options 0)
             Doubles.rsp1a
             (RecorderMain.write_settings Doubles.header
                (Samples.recorder_options 0) Doubles.blank_params))).
Proof.
  apply (programs_disagree_on_plain_devices Doubles.header
           (Doubles.options [40] [0] 1) (Samples.recorder_options 0)
           Doubles.rsp1a 40 0).
  - cbn. lia.
  - reflexivity.
  - cbn. lia.
Defined.

(** An AGC mode of 2 found where 0 was written. *)
Lemma recorder_checks_agc_witness :
  fst (RecorderMain.readback Doubles.header (Samples.recorder_options 0)
         Samples.single_tuner
         (Doubles.force_agc 2
            (RecorderMain.write_settings Doubles.header
               (Samples.recorder_options 0) Doubles.blank_params))) = false /\
  In (RecorderMain.MsgUnexpectedChange RecorderMain.F_agc_enable)
     (snd (RecorderMain.readback Doubles.header (Samples.recorder_options 0)
             Samples.single_tuner
             (Doubles.force_agc 2
                (RecorderMain.write_settings Doubles.header
                   (Samples.recorder_options 0) Doubles.blank_params)))).
Proof.
  apply (recorder_checks_agc Doubles.header (Samples.recorder_options 0)
           Samples.single_tuner).
  cbn. lia.
Defined.

(** The AGC at 50 Hz (mode 2), and a gain reduction of 59 found. *)
Lemma agc_on_leaves_gain_alone_witness :
  GainChanges.gain_gRdB
    (RecorderMain.write_settings Doubles.header (Samples.recorder_options 2)
       Doubles.blank_params)
  = GainChanges.gain_gRdB Doubles.blank_params /\
  RecorderMain.readback Doubles.header (Samples.recorder_options 2)
    Samples.single_tuner
    (GainChanges.set_gain 59
       (GainChanges.gain_LNAstate Doubles.blank_params) Doubles.blank_params)
  = RecorderMain.readback Doubles.header (Samples.recorder_options 2)
      Samples.single_tuner Doubles.blank_params.
Proof.
  apply (agc_on_leaves_gain_alone Doubles.header (Samples.recorder_options 2)
           Samples.single_tuner Doubles.blank_params 59).
  cbn. lia.
Defined.

(** The defaults, which fit; and a decimation factor of 300, which is
    stored as 44. *)
Lemma recorder_untouched_settings_pass_witness :
  RecorderMain.readback Doubles.header (Samples.recorder_options 0)
    Samples.single_tuner
    (Edge.stored
       (RecorderMain.write_settings Doubles.header
          (Samples.recorder_options 0) Doubles.blank_params))
  = (true, []) /\
  fst (RecorderMain.readback Doubles.header Samples.recorder_decimation_300
         Samples.single_tuner
         (Edge.stored
            (RecorderMain.write_settings Doubles.header
               Samples.recorder_decimation_300 Doubles.blank_params)))
  = false.
Proof.
  split.
  - apply (proj1 (recorder_untouched_settings_pass Doubles.header
                    (Samples.recorder_options 0) Samples.single_tuner
                    Doubles.blank_params eq_refl eq_refl eq_refl eq_refl
                    eq_refl)).
    unfold Edge.recorder_narrow_settings_fit, Edge.fits_unsigned_char,
      Edge.UCHAR_MAX. cbn. lia.
  - apply (proj2 (recorder_untouched_settings_pass Doubles.header
                    Samples.recorder_decimation_300 Samples.single_tuner
                    Doubles.blank_params eq_refl eq_refl eq_refl eq_refl
                    eq_refl)).
    unfold Edge.recorder_narrow_settings_fit, Edge.fits_unsigned_char,
      Edge.UCHAR_MAX. cbn. lia.
Defined.

(** The same round trip in the gain-change program.  Settings that the
    quick initialisation leaves as stored, for a device with tuner A, a
    sample frequency of 0 and the mode expected of its kind, and for a
    sample rate and a centre frequency that are not NaN: they pass the
    check when the [unsigned char] fields can hold the values given (the
    decimation factor, the first LNA state, the two correction enables,
    [dcCal] and [speedUp] from 0 to 255), and fail it otherwise. *)
Theorem untouched_settings_pass (hdr : GainChanges.VendorHeader)
    (cfg : GainChanges.Config) (device : GainChanges.sdrplay_api_DeviceT)
    (g0 l0 : Z) :
  GainChanges.tuner device = GainChanges.sdrplay_api_Tuner_A hdr ->
  GainChanges.rspDuoMode device
  = (if GainChanges.hwVer device =? GainChanges.SDRPLAY_RSPduo_ID hdr
     then GainChanges.sdrplay_api_RspDuoMode_Single_Tuner hdr
     else GainChanges.sdrplay_api_RspDuoMode_Unknown hdr) ->
  double_ne (GainChanges.rspDuoSampleFreq device) 0%float = false ->
  double_ne (GainChanges.rsp_sample_rate cfg) (GainChanges.rsp_sample_rate cfg)
  = false ->
  double_ne (GainChanges.frequency cfg) (GainChanges.frequency cfg) = false ->
  (Edge.narrow_settings_fit cfg l0 ->
   GainChanges.readback hdr cfg device g0 l0
     (Edge.stored (GainChanges.write_settings hdr cfg g0 l0))
   = (true, [])) /\
  (~ Edge.narrow_settings_fit cfg l0 ->
   fst (GainChanges.readback hdr cfg device g0 l0
          (Edge.stored (GainChanges.write_settings hdr cfg g0 l0)))
   = false).
Proof.
  intros Htuner Hmode Hfreq Hrate Hf. split.
  - intros (Hd & Hl & Hdc & Hiq & Hcal & Hsp).
    apply readback_match.
    intros []; cbn;
      rewrite ?to_unsigned_char_c_bool, ?to_unsigned_char_fits by assumption;
      rewrite ?Htuner, ?int_ne_refl; try assumption; try reflexivity.
    rewrite Hmode.
    destruct (GainChanges.hwVer device =? _); apply int_ne_refl.
  - intros Hfit.
    assert (forall f,
              GainChanges.differs hdr cfg device g0 l0
                (Edge.stored (GainChanges.write_settings hdr cfg g0 l0)) f
              = true ->
              fst (GainChanges.readback hdr cfg device g0 l0
                     (Edge.stored (GainChanges.write_settings hdr cfg g0 l0)))
              = false) as Hbad
        by (intros f Hd; now apply (readback_mismatch hdr cfg device g0 l0 _ f)).
    destruct (Z.eq_dec (Edge.to_unsigned_char (GainChanges.decimation cfg))
                (GainChanges.decimation cfg)) as [Hd | Hd];
      [| apply (Hbad GainChanges.F_decimationFactor); now apply int_ne_true].
    destruct (Z.eq_dec (Edge.to_unsigned_char l0) l0) as [Hl | Hl];
      [| apply (Hbad GainChanges.F_LNAstate); now apply int_ne_true].
    destruct (Z.eq_dec (Edge.to_unsigned_char (GainChanges.DCenable cfg))
                (GainChanges.DCenable cfg)) as [Hdc | Hdc];
      [| apply (Hbad GainChanges.F_DCenable); now apply int_ne_true].
    destruct (Z.eq_dec (Edge.to_unsigned_char (GainChanges.IQenable cfg))
                (GainChanges.IQenable cfg)) as [Hiq | Hiq];
      [| apply (Hbad GainChanges.F_IQenable); now apply int_ne_true].
    destruct (Z.eq_dec (Edge.to_unsigned_char (GainChanges.dcCal cfg))
                (GainChanges.dcCal cfg)) as [Hcal | Hcal];
      [| apply (Hbad GainChanges.F_dcCal); now apply int_ne_true].
    destruct (Z.eq_dec (Edge.to_unsigned_char (GainChanges.speedUp cfg))
                (GainChanges.speedUp cfg)) as [Hsp | Hsp];
      [| apply (Hbad GainChanges.F_speedUp); now apply int_ne_true].
    destruct Hfit. repeat split; now apply to_unsigned_char_same.
Qed.

(** The defaults, which fit; and a decimation factor of 300, which is
    stored as 44. *)
Lemma untouched_settings_pass_witness :
  GainChanges.readback Doubles.header (Doubles.options [40] [0] 1)
    Doubles.rsp1a 40 0
    (Edge.stored
       (GainChanges.write_settings Doubles.header
          (Doubles.options [40] [0] 1) 40 0))
  = (true, []) /\
  fst (GainChanges.readback Doubles.header Samples.decimation_300
         Doubles.rsp1a 40 0
         (Edge.stored
            (GainChanges.write_settings Doubles.header
               Samples.decimation_300 40 0)))
  = false.
Proof.
  split.
  - apply (proj1 (untouched_settings_pass Doubles.header
                    (Doubles.options [40] [0] 1) Doubles.rsp1a 40 0
                    eq_refl eq_refl eq_refl eq_refl eq_refl)).
    unfold Edge.narrow_settings_fit, Edge.fits_unsigned_char, Edge.UCHAR_MAX.
    cbn. lia.
  - apply (proj2 (untouched_settings_pass Doubles.header
                    Samples.decimation_300 Doubles.rsp1a 40 0
                    eq_refl eq_refl eq_refl eq_refl eq_refl)).
    unfold Edge.narrow_settings_fit, Edge.fits_unsigned_char, Edge.UCHAR_MAX.
    cbn. lia.
Defined.

(** The loop over [ngc] for a count of 3, against the double that confirms
    each change. *)
Lemma gain_changes_issue_one_fewer_witness :
  exists r w' t,
    GainChanges.gain_changes (api := Doubles.cooperative)
      (Doubles.options [40; 20; 60] [0; 1] 3)
      (GainChanges.gain_changes_fuel (Doubles.options [40; 20; 60] [0; 1] 3))
      1 (Doubles.world (None, 0))
    = (r, w', t) /\
    (r = Ret tt \/ r = Exit 1) /\
    (r = Ret tt ->
     length (List.filter GainChanges.is_update t)
     = Z.to_nat
         (GainChanges.num_gain_changes (Doubles.options [40; 20; 60] [0; 1] 3)
          - 1)).
Proof.
  apply (gain_changes_issue_one_fewer (api := Doubles.cooperative)
           (Doubles.options [40; 20; 60] [0; 1] 3) (Doubles.world (None, 0))).
  - discriminate.
  - discriminate.
  - vm_compute. reflexivity.
  - vm_compute. reflexivity.
  - cbn. unfold UINT_MAX. lia.
Defined.
